(** * MedPath admission-probability and counseling-strategy engine

    A shallow embedding of the probability, round-analysis and strategy code of

    - [src/backend/enhanced_prediction_algorithm.py]
      (class [EnhancedPredictionAlgorithm]),
    - [src/models/scripts/07_enhanced_prediction_system.py]
      (class [EnhancedPredictionSystem]),
    - [src/models/scripts/round_prediction_engine.py]
      (class [AdvancedRoundPredictionEngine]),

    followed by the properties the specification states about them.

    Numbers.  Python [int] is [Z].  A Python [float] is an exact rational [Q];
    where the code tests for a missing value ([pd.isna], [pd.notna], a
    comparison that a NaN fails) the value is a [pyfloat], a rational or
    [NaN].  Arithmetic is therefore exact: the rounding of binary64, its
    infinities and its underflow are outside this model, and equalities
    between rationals are stated with [==].  Order and range properties are
    proved on this reading.  Where a property is about the very value that
    the code computes, the function is transcribed a second time over the
    kernel's binary64 floats, in the module [Binary64], whose operations
    round as Python's do.  Library functions that have no rational
    counterpart ([np.exp], the square root inside a standard deviation, the
    regular expressions of [str.contains]) are parameters of the
    definitions that call them. *)

From Stdlib Require Import QArith Qabs Qround ZArith Lqa Lia.
From Stdlib Require Import List Bool String Ascii.
From Stdlib Require Import Sorting.Sorted Sorting.Permutation.
From Stdlib Require Import Qpower.
From Stdlib Require Import Floats.
Import ListNotations.

Open Scope Q_scope.
Set Warnings "-inexact-float".

(* ================================================================== *)
(** * Python values and builtins *)
(* ================================================================== *)

(** A float cell: a number, or the missing value NaN. *)
Inductive pyfloat : Type :=
| NaN
| Num (q : Q).

(** [pd.isna] / [pd.notna] on a float. *)
Definition isna (x : pyfloat) : bool :=
  match x with NaN => true | Num _ => false end.

Definition notna (x : pyfloat) : bool := negb (isna x).

(** Strict comparison of rationals, as a boolean. *)
Definition Qltb (x y : Q) : bool := negb (Qle_bool y x).

(** [x > y] on floats: false as soon as one side is NaN. *)
Definition float_gt (x : pyfloat) (y : Q) : bool :=
  match x with NaN => false | Num q => Qltb y q end.

(** [max(a, b)] and [min(a, b)] of Python: the first argument is kept unless
    the second is strictly better. *)
Definition py_max (a b : Q) : Q := if Qltb a b then b else a.
Definition py_min (a b : Q) : Q := if Qltb b a then b else a.

(** [max(xs)] over a non-empty sequence [x :: xs]. *)
Definition py_max_list (x : Q) (xs : list Q) : Q := fold_left py_max xs x.

(** [int(x)] on a float: truncation toward zero. *)
Definition py_int (q : Q) : Z := Z.quot (Qnum q) (Zpos (Qden q)).

(** [round(x, 3)]: the nearest multiple of 1/1000, ties to the even one. *)
Definition py_round3 (q : Q) : Q :=
  let s := q * 1000 in
  let f := Qfloor s in
  let frac := s - inject_Z f in
  let n := if Qltb frac (1 # 2) then f
           else if Qltb (1 # 2) frac then (f + 1)%Z
           else if Z.even f then f else (f + 1)%Z in
  n # 1000.

(** [round(x, 0)]: the nearest integer, ties to the even one, as a float. *)
Definition py_round0 (q : Q) : Q :=
  let f := Qfloor q in
  let frac := q - inject_Z f in
  let n := if Qltb frac (1 # 2) then f
           else if Qltb (1 # 2) frac then (f + 1)%Z
           else if Z.even f then f else (f + 1)%Z in
  inject_Z n.

(** [sum(xs)] and [np.mean(xs)]. *)
Definition Qsum (xs : list Q) : Q := fold_right Qplus 0 xs.

Definition np_mean (xs : list Q) : Q := Qsum xs / inject_Z (Z.of_nat (List.length xs)).

(** ** Dictionaries

    A [dict] keeps insertion order, which [max(d, key=...)] and the loops over
    [items()] observe, so it is an association list with distinct keys. *)
Section Dict.
Context {K V : Type} (eqb : K -> K -> bool).

Fixpoint dict_get (d : list (K * V)) (k : K) : option V :=
  match d with
  | [] => None
  | (k', v) :: t => if eqb k k' then Some v else dict_get t k
  end.

(** [d[k] = v]: overwrite in place, or append a new key. *)
Fixpoint dict_set (d : list (K * V)) (k : K) (v : V) : list (K * V) :=
  match d with
  | [] => [(k, v)]
  | (k', v') :: t =>
      if eqb k k' then (k', v) :: t else (k', v') :: dict_set t k v
  end.
End Dict.

Definition dict_keys {K V : Type} (d : list (K * V)) : list K := map fst d.
Definition dict_values {K V : Type} (d : list (K * V)) : list V := map snd d.

(** ** Sorting

    [list.sort] and [sorted] are stable; a stable sort is determined by its
    input, so insertion at the first position that keeps the order gives the
    same list.  [ord x y] says [x] may stand before [y]. *)
Section Sort.
Context {A : Type} (ord : A -> A -> bool).

Fixpoint insert_sorted (x : A) (l : list A) : list A :=
  match l with
  | [] => [x]
  | y :: t => if ord x y then x :: y :: t else y :: insert_sorted x t
  end.

Definition stable_sort (l : list A) : list A :=
  fold_right insert_sorted [] l.
End Sort.

(** [l.sort(key=key, reverse=True)] for a rational key. *)
Definition sort_desc_by {A : Type} (key : A -> Q) : list A -> list A :=
  stable_sort (fun x y => Qle_bool (key y) (key x)).

(** [l.sort()] on integers. *)
Definition sort_Z : list Z -> list Z := stable_sort Z.leb.

(** The loop [for e in l: if keep(e) and len(acc) < cap: acc.append(e)]. *)
Fixpoint collect_capped {A : Type} (cap : nat) (keep : A -> bool)
         (acc : list A) (l : list A) : list A :=
  match l with
  | [] => acc
  | e :: t =>
      if keep e && (List.length acc <? cap)%nat
      then collect_capped cap keep (acc ++ [e]) t
      else collect_capped cap keep acc t
  end.

(** ** Strings *)

(** [s.upper()] on ASCII letters. *)
Definition upper_ascii (c : ascii) : ascii :=
  let n := nat_of_ascii c in
  if ((97 <=? n) && (n <=? 122))%nat then ascii_of_nat (n - 32) else c.

Fixpoint upper (s : string) : string :=
  match s with
  | EmptyString => EmptyString
  | String c t => String (upper_ascii c) (upper t)
  end.

(** [sub in s]. *)
Definition str_in (sub s : string) : bool :=
  match String.index 0 sub s with Some _ => true | None => false end.

(** Truth value of a string: only the empty string is false. *)
Definition str_truthy (s : string) : bool :=
  match s with EmptyString => false | _ => true end.

(* ================================================================== *)
(** * [backend/enhanced_prediction_algorithm.py] *)
(* ================================================================== *)

Module EnhancedPredictionAlgorithm.

(** [diff = abs(user_rank - closing_rank)]. *)
Definition rank_diff (user_rank : Z) (closing_rank : Q) : Q :=
  Qabs (inject_Z user_rank - closing_rank).

(** The [if]/[elif] chain of [calculate_round_probability]: the
    three-segment decay and its flat tail, before clamping. *)
Definition decay (diff : Q) : Q :=
  if Qle_bool diff 10000 then 0.95 - 0.000045 * diff
  else if Qle_bool diff 20000 then 0.5 - 0.00004 * (diff - 10000)
  else if Qle_bool diff 40000 then 0.1 - 0.0000045 * (diff - 20000)
  else 0.01.

Definition calculate_round_probability
           (user_rank : Z) (closing_rank : pyfloat) : Q :=
  match closing_rank with
  | NaN => 0
  | Num c =>
      if Qeq_bool c 0 then 0
      else
        let diff := rank_diff user_rank c in
        let probability := decay diff in
        py_max 0.01 (py_min 0.95 probability)
  end.

(** [str(cell)] of a text cell. *)
Definition str_of_cell (c : option string) : string :=
  match c with Some s => s | None => "nan"%string end.

(** A data row, with one cell per closing-rank column, in column order. *)
Record row : Type := mk_row {
  Institute : option string;    (* [None]: the cell is NaN, not a string *)
  Course : option string;
  State : option string;
  Category : option string;
  Quota : option string;
  CR : list (string * pyfloat); (* column name, closing rank *)
  Fee : pyfloat;
  Stipend_Year_1 : pyfloat;
  Bond_Years : pyfloat
}.

Section ExtractRoundData.
(** The round key ["<year>_R<round>"] of a column named
    ["CR <year> <round>"]; [None] when the name has fewer than three
    parts or a part is not an integer. *)
Variable round_key_of_column : string -> option string.

(** [round_data['closing_ranks']] of [extract_round_data]. *)
Definition extract_round_data (r : row) : list (string * pyfloat) :=
  fold_left
    (fun closing_ranks cell =>
       let '(col, v) := cell in
       if notna v && float_gt v 0 then
         match round_key_of_column col with
         | Some round_key => dict_set String.eqb closing_ranks round_key v
         | None => closing_ranks
         end
       else closing_ranks)
    (CR r) [].
End ExtractRoundData.

Record admission_data : Type := mk_admission_data {
  round_probabilities : list (string * Q);
  best_round : option string;
  overall_probability : Q;
  predicted_closing_rank : Z
}.

(** [max(d, key=d.get)] over a non-empty dictionary whose first key is
    [k0]: the first key whose value is strictly above all earlier ones. *)
Definition max_key (d : list (string * Q)) (k0 : string) : string :=
  let value k := match dict_get String.eqb d k with
                 | Some v => v
                 | None => 0
                 end in
  fold_left (fun best k => if Qltb (value best) (value k) then k else best)
            (dict_keys d) k0.

(** [np.mean] of floats: NaN as soon as one of them is. *)
Fixpoint numbers (xs : list pyfloat) : option (list Q) :=
  match xs with
  | [] => Some []
  | NaN :: _ => None
  | Num q :: t => option_map (cons q) (numbers t)
  end.

Definition mean_of_floats (xs : list pyfloat) : pyfloat :=
  match numbers xs with
  | Some qs => Num (np_mean qs)
  | None => NaN
  end.

(** [None] stands for the [ValueError] of [int(nan)]. *)
Definition calculate_admission_probabilities
           (user_rank : Z) (closing_ranks : list (string * pyfloat))
  : option admission_data :=
  match closing_ranks with
  | [] =>
      Some {| round_probabilities := [];
              best_round := None;
              overall_probability := 0.05;
              predicted_closing_rank := user_rank + 5000 |}
  | _ :: _ =>
      let round_probabilities :=
        map (fun kc => (fst kc, calculate_round_probability user_rank (snd kc)))
            closing_ranks in
      let best_round :=
        match dict_keys round_probabilities with
        | k0 :: _ => Some (max_key round_probabilities k0)
        | [] => None
        end in
      let overall_probability :=
        match dict_values round_probabilities with
        | p :: ps => py_max_list p ps
        | [] => 0.05
        end in
      let fallback := mean_of_floats (dict_values closing_ranks) in
      let predicted :=
        match best_round with
        | Some b =>
            if str_truthy b then
              match dict_get String.eqb closing_ranks b with
              | Some c => c
              | None => fallback
              end
            else fallback
        | None => fallback
        end in
      match predicted with
      | NaN => None
      | Num p =>
          Some {| round_probabilities := round_probabilities;
                  best_round := best_round;
                  overall_probability := overall_probability;
                  predicted_closing_rank := py_int p |}
      end
  end.

(** [None] stands for an exception: the [AttributeError] of [.upper()] on a
    NaN state, or the [ZeroDivisionError] of a predicted rank 0. *)
Definition calculate_enhanced_recommendation_score
           (r : row) (user_rank : Z) (ad : admission_data)
           (preferred_state : string) : option Q :=
  let score := overall_probability ad * 0.5 in
  let predicted_rank := predicted_closing_rank ad in
  match (if (user_rank <=? predicted_rank)%Z then
           if (predicted_rank =? 0)%Z then None
           else Some (score +
                      py_min 0.15
                             (inject_Z (predicted_rank - user_rank)
                              / inject_Z predicted_rank * 0.15))
         else Some score) with
  | None => None
  | Some score =>
      let quota := str_of_cell (Quota r) in
      let score :=
        if str_in "Govt" quota || str_in "Government" quota then score + 0.1
        else if str_in "Private" quota then score + 0.05
        else score in
      let score :=
        match Fee r with
        | Num annual_fee =>
            if Qle_bool annual_fee 100000 then score + 0.1
            else if Qle_bool annual_fee 500000 then score + 0.05
            else score
        | NaN => score + 0.05
        end in
      let score :=
        if notna (Stipend_Year_1 r) && float_gt (Stipend_Year_1 r) 0
        then score + 0.05 else score in
      let score :=
        match Bond_Years r with
        | Num bond_years =>
            if Qeq_bool bond_years 0 then score + 0.05
            else if Qle_bool bond_years 2 then score + 0.025
            else if Qltb 5 bond_years then score - 0.025
            else score
        | NaN => score
        end in
      match State r with
      | None => None
      | Some st =>
          let score :=
            if String.eqb (upper st) (upper preferred_state)
            then score + 0.05 else score in
          Some (py_max 0 (py_min 1 score))
      end
  end.

Record user_inputs : Type := mk_user_inputs {
  category : string;
  state : string;
  course : string;
  quota : string;
  air : Z
}.

Record prediction : Type := mk_prediction {
  institute : string;
  admission_probability : Q;
  confidence_score : Q;
  pred_closing_rank : Z;
  most_likely_round : option string;
  recommendation_score : Q
}.

Inductive response : Type :=
| Error                                   (* [{"error": ...}] *)
| Predictions (predictions : list prediction).

(** The [.str] accessor of a text column of the loaded frame.  The column
    has dtype [object] when the frame has no row or some cell of the column
    holds a string, and dtype [float64] when every cell is NaN; selecting
    rows keeps the dtype.  On a [float64] column the accessor raises
    [AttributeError]. *)
Definition str_accessor_ok (data : list row) (cell : row -> option string)
  : bool :=
  match data with
  | [] => true
  | _ :: _ =>
      existsb (fun r => match cell r with Some _ => true | None => false end)
              data
  end.

Section PredictColleges.
Variable round_key_of_column : string -> option string.
(** [re_valid pat]: [re.compile(pat)] succeeds; [str.contains] compiles
    its pattern before it looks at any row, and raises [re.error]
    otherwise. *)
Variable re_valid : string -> bool.
(** [re_search pat s]: the regular expression [pat] matches inside [s],
    as [Series.str.contains] decides it. *)
Variable re_search : string -> string -> bool.

(** [df[df[col].str.upper().str.contains(pat.upper(), na=False)]],
    applied only when the filter string is not empty, to the rows
    [filtered_data] of the loaded frame [data]; [None] stands for the
    exception of a column without strings or of an invalid pattern. *)
Definition apply_filter (data : list row) (pat : string)
           (cell : row -> option string) (filtered_data : list row)
  : option (list row) :=
  if str_truthy pat then
    if str_accessor_ok data cell && re_valid (upper pat) then
      Some (filter (fun r => match cell r with
                             | Some s => re_search (upper pat) (upper s)
                             | None => false
                             end) filtered_data)
    else None
  else Some filtered_data.

(** The body of the loop over the filtered rows: [Some None] when the row
    is skipped, [None] when it raises. *)
Definition predict_row (q : user_inputs) (r : row)
  : option (option prediction) :=
  let round_data := extract_round_data round_key_of_column r in
  match calculate_admission_probabilities (air q) round_data with
  | None => None
  | Some ad =>
      if Qltb (overall_probability ad) 0.05 then Some None
      else
        match calculate_enhanced_recommendation_score r (air q) ad (state q) with
        | None => None
        | Some recommendation_score =>
            Some (Some
              {| institute := str_of_cell (Institute r);
                 admission_probability := py_round3 (overall_probability ad);
                 confidence_score := py_min 0.95 (overall_probability ad + 0.1);
                 pred_closing_rank := predicted_closing_rank ad;
                 most_likely_round := best_round ad;
                 recommendation_score := py_round3 recommendation_score |})
        end
  end.

Fixpoint predict_rows (q : user_inputs) (rows : list row)
  : option (list prediction) :=
  match rows with
  | [] => Some []
  | r :: t =>
      match predict_row q r with
      | None => None
      | Some o =>
          match predict_rows q t with
          | None => None
          | Some ps => Some (match o with Some p => p :: ps | None => ps end)
          end
      end
  end.

Definition max_predictions : nat := 50.

(** The four filters in the order of the source; an exception of any of
    them is caught by the [try] of [predict_colleges]. *)
Definition filter_rows (data : list row) (q : user_inputs)
  : option (list row) :=
  match apply_filter data (category q) Category data with
  | None => None
  | Some filtered_data =>
      match apply_filter data (state q) State filtered_data with
      | None => None
      | Some filtered_data =>
          match apply_filter data (course q) Course filtered_data with
          | None => None
          | Some filtered_data =>
              apply_filter data (quota q) Quota filtered_data
          end
      end
  end.

Definition predict_colleges (data : list row) (q : user_inputs) : response :=
  match filter_rows data q with
  | None => Error
  | Some [] => Predictions []
  | Some filtered_data =>
      match predict_rows q filtered_data with
      | None => Error
      | Some predictions =>
          Predictions
            (firstn max_predictions
                    (sort_desc_by recommendation_score predictions))
      end
  end.
End PredictColleges.

Definition _calculate_rank_percentile (user_rank : Z) : string :=
  if (user_rank <=? 5000)%Z then "Top 5%"
  else if (user_rank <=? 15000)%Z then "Top 15%"
  else if (user_rank <=? 30000)%Z then "Top 30%"
  else if (user_rank <=? 60000)%Z then "Top 60%"
  else "Above 60%".

(** The ['probability_distribution'] and ['recommendation_summary'] parts of
    the result of [_generate_comparative_analysis]; its fee analysis reads
    the fee strings of the predictions and is left out.  Those strings are
    [str] of the float cell [Fee] of a row, which [float] reads back, so
    the fee analysis does not raise on the predictions of
    [predict_colleges]. *)
Record comparative_analysis : Type := mk_comparative_analysis {
  high_probability : nat;
  medium_probability : nat;
  low_probability : nat;
  average_probability : Q;
  total_options : nat;
  best_recommendation : string;
  user_rank_percentile : string
}.

(** [None] stands for the empty dictionary returned for an empty list. *)
Definition _generate_comparative_analysis
           (predictions : list prediction) (user_rank : Z)
  : option comparative_analysis :=
  match predictions with
  | [] => None
  | first :: _ =>
      let admission_probs := map admission_probability predictions in
      Some {| high_probability :=
                List.length (filter (fun p => Qltb 0.7 p) admission_probs);
              medium_probability :=
                List.length
                  (filter (fun p => Qle_bool 0.4 p && Qle_bool p 0.7)
                          admission_probs);
              low_probability :=
                List.length (filter (fun p => Qltb p 0.4) admission_probs);
              average_probability := py_round3 (np_mean admission_probs);
              total_options := List.length predictions;
              best_recommendation := institute first;
              user_rank_percentile := _calculate_rank_percentile user_rank |}
  end.

End EnhancedPredictionAlgorithm.

(* ================================================================== *)
(** * [models/scripts/07_enhanced_prediction_system.py] *)
(* ================================================================== *)

Module EnhancedPredictionSystem.

(** The two labels of a [college_mappings] row that the probability reads.
    A label is absent from the Series ([None]) or holds a float. *)
Record college : Type := mk_college {
  closing_rank_mean : option pyfloat;
  closing_rank_std : option pyfloat
}.

(** [series.get(label, default)]: the default is used for an absent label
    only; a NaN stored under the label is returned as it is. *)
Definition series_get (cell : option pyfloat) (default : pyfloat) : pyfloat :=
  match cell with Some v => v | None => default end.

Section CollegeMappings.
(** The square root inside the standard deviation. *)
Variable np_sqrt : Q -> Q.

(** [groupby(...).agg('mean')]; NaN for a combination that the left merge
    matches with no closing rank. *)
Definition agg_mean (closing_ranks : list Q) : pyfloat :=
  match closing_ranks with
  | [] => NaN
  | _ :: _ => Num (np_mean closing_ranks)
  end.

(** [groupby(...).agg('std')]: the sample standard deviation of pandas
    (one delta degree of freedom), NaN below two observations. *)
Definition agg_std (closing_ranks : list Q) : pyfloat :=
  match closing_ranks with
  | [] => NaN
  | [_] => NaN
  | _ :: _ :: _ =>
      let m := np_mean closing_ranks in
      Num (np_sqrt (Qsum (map (fun x => (x - m) * (x - m)) closing_ranks)
                    / (inject_Z (Z.of_nat (List.length closing_ranks)) - 1)))
  end.

(** The row of [rank_stats] for one combination, from its historical
    closing ranks: [agg] fills every statistic, so both labels are
    present. *)
Definition rank_stats (closing_ranks : list Q) : college :=
  {| closing_rank_mean := Some (agg_mean closing_ranks);
     closing_rank_std := Some (agg_std closing_ranks) |}.

(** The column index of [rank_stats] after [agg] and [reset_index()]: the
    five group keys, whose second level is empty, then one column for each
    aggregate. *)
Definition rank_stats_columns : list (string * string) :=
  [("Institute", ""); ("Course", ""); ("State", ""); ("Category", "");
   ("Quota", "");
   ("closing_rank", "mean"); ("closing_rank", "median");
   ("closing_rank", "min"); ("closing_rank", "max");
   ("closing_rank", "std"); ("closing_rank", "count");
   ("year", "min"); ("year", "max");
   ("round", "min"); ("round", "max"); ("round", "nunique")]%string.

(** ['_'.join(col) if col[1] else col[0]]. *)
Definition flatten_column (col : string * string) : string :=
  if str_truthy (snd col) then (fst col ++ "_" ++ snd col)%string
  else fst col.

(** The [right_on] keys of the second merge. *)
Definition right_on : list string :=
  ["Institute_"; "Course_"; "State_"; "Category_"; "Quota_"]%string.

(** [merge] looks every key up among the columns of its frame and raises
    [KeyError] for one that is missing. *)
Definition keys_found (columns keys : list string) : bool :=
  forallb (fun k => existsb (String.eqb k) columns) keys.

(** [create_college_mappings] for one combination: the row that the second
    merge would pair with the combination, or [None] for its
    [KeyError]. *)
Definition create_college_mappings (closing_ranks : list Q)
  : option college :=
  let columns := map flatten_column rank_stats_columns in
  if keys_found columns right_on then Some (rank_stats closing_ranks)
  else None.
End CollegeMappings.

Section Probability.
Variable np_exp : Q -> Q.

(** The [probability] computed for one college in the loop of
    [predict_college_admission_probability]. *)
Definition probability (user_rank : Z) (c : college) : Q :=
  match closing_rank_mean c with
  | Some (Num mean_closing_rank) =>
      let std_closing_rank :=
        series_get (closing_rank_std c) (Num (mean_closing_rank * 0.1)) in
      match std_closing_rank with
      | Num std =>
          if Qltb 0 std then
            let z_score := (inject_Z user_rank - mean_closing_rank) / std in
            1 / (1 + np_exp z_score)
          else if Qle_bool (inject_Z user_rank) mean_closing_rank then 1 else 0
      | NaN =>
          if Qle_bool (inject_Z user_rank) mean_closing_rank then 1 else 0
      end
  | _ => 0.5
  end.
End Probability.

(** The other labels of a [college_mappings] row that the functions below
    read.  NaN also stands for an absent label: they test each of these with
    [pd.notna(college.get(label))], which treats the two alike. *)
Record college_details : Type := mk_college_details {
  closing_rank_count : pyfloat;
  Annual_Fees : pyfloat;
  Stipend_Year1 : pyfloat;
  Bond_Amount : pyfloat;
  Total_Beds : pyfloat
}.

(** An entry [rounds_data['round_<n>']]. *)
Record round_outcome : Type := mk_round_outcome {
  outcome_probability : Q;
  outcome_closing_rank : Q;
  rank_margin : option Q
}.

Record admission_rounds : Type := mk_admission_rounds {
  most_likely_round : option Z;
  round_probabilities : list (Z * round_outcome)
}.

Section AdmissionRounds.
(** The label [closing_rank_round_<n>] of the row, [None] when absent. *)
Variable closing_rank_round : Z -> option pyfloat.

Definition predict_admission_rounds (c : college) (user_rank : Z)
  : admission_rounds :=
  let rounds_data :=
    flat_map
      (fun round_num =>
         match closing_rank_round round_num with
         | Some (Num closing_rank) =>
             [(round_num,
               {| outcome_probability :=
                    if Qle_bool (inject_Z user_rank) closing_rank then 1 else 0;
                  outcome_closing_rank := closing_rank;
                  rank_margin :=
                    if Qeq_bool closing_rank 0 then None
                    else Some (closing_rank - inject_Z user_rank) |})]
         | _ => []
         end)
      [1; 2; 3; 4; 5; 6; 7]%Z in
  let rounds_data :=
    match rounds_data, closing_rank_mean c with
    | [], Some (Num base_rank) =>
        map (fun round_num =>
               let estimated_closing_rank :=
                 base_rank * 0.95 ^ (round_num - 1) in
               (round_num,
                {| outcome_probability :=
                     if Qle_bool (inject_Z user_rank) estimated_closing_rank
                     then 1 else 0;
                   outcome_closing_rank := estimated_closing_rank;
                   rank_margin :=
                     Some (estimated_closing_rank - inject_Z user_rank) |}))
            [1; 2; 3; 4; 5]%Z
    | _, _ => rounds_data
    end in
  let '(most_likely_round, _) :=
    fold_left
      (fun st item =>
         let '(most_likely_round, highest_prob) := st in
         if Qltb highest_prob (outcome_probability (snd item))
         then (Some (fst item), outcome_probability (snd item))
         else (most_likely_round, highest_prob))
      rounds_data (None, 0) in
  {| most_likely_round := most_likely_round;
     round_probabilities := rounds_data |}.
End AdmissionRounds.

(** [None] stands for the [ZeroDivisionError] of a mean closing rank 0. *)
Definition calculate_confidence_score
           (c : college) (d : college_details) (probability : Q) : option Q :=
  let confidence := 0.5 in
  let confidence :=
    if notna (closing_rank_count d) && float_gt (closing_rank_count d) 5
    then confidence + 0.3 else confidence in
  match
    match closing_rank_std c with
    | Some (Num std) =>
        match series_get (closing_rank_mean c) (Num 1) with
        | Num mean =>
            if Qeq_bool mean 0 then None
            else
              let cv := std / mean in
              Some (if Qltb cv 0.2 then confidence + 0.2 else confidence)
        | NaN => Some confidence
        end
    | _ => Some confidence
    end
  with
  | None => None
  | Some confidence =>
      let confidence :=
        if Qltb 0.8 probability || Qltb probability 0.2
        then confidence + 0.1 else confidence in
      Some (py_min confidence 1)
  end.

(** The strings ['low'], ['medium'] and ['high']. *)
Inductive volatility_level : Type := low | medium | high.

(** The ['volatility'] of [get_historical_trends]; [None] stands for the
    [ZeroDivisionError] of a mean closing rank 0. *)
Definition get_historical_trends (c : college) : option volatility_level :=
  match closing_rank_std c, closing_rank_mean c with
  | Some (Num std), Some (Num mean) =>
      if Qeq_bool mean 0 then None
      else
        let cv := std / mean in
        Some (if Qltb 0.3 cv then high
              else if Qltb 0.15 cv then medium
              else low)
  | _, _ => Some low
  end.

Definition calculate_recommendation_score
           (d : college_details) (probability : Q) : Q :=
  let score := probability * 0.4 in
  let score :=
    match Annual_Fees d with
    | Num fees =>
        let fee_score := py_max 0 (1 - fees / 500000) in
        score + fee_score * 0.15
    | NaN => score
    end in
  let score :=
    match Stipend_Year1 d with
    | Num stipend =>
        let stipend_score := py_min 1 (stipend / 100000) in
        score + stipend_score * 0.1
    | NaN => score
    end in
  let score :=
    match Bond_Amount d with
    | Num bond =>
        let bond_score := py_max 0 (1 - bond / 5000000) in
        score + bond_score * 0.1
    | NaN => score + 0.1
    end in
  let score :=
    match Total_Beds d with
    | Num beds =>
        let bed_score := py_min 1 (beds / 2000) in
        score + bed_score * 0.1
    | NaN => score
    end in
  let score :=
    if notna (closing_rank_count d) && float_gt (closing_rank_count d) 10
    then score + 0.15 else score in
  py_min score 1.

Record future_trends : Type := mk_future_trends {
  future_closing_rank : Q;
  confidence_range : Q * Q;
  years_projected : Z
}.

(** [predict_future_trends] on a prediction that has historical trends:
    [current_rank] is its ['predicted_closing_rank'] ([None] without
    history) and [volatility] the volatility of its trends.  [None] stands
    for the empty dictionary. *)
Definition predict_future_trends
           (current_rank : option Q) (volatility : volatility_level)
           (years_ahead : Z) : option future_trends :=
  match current_rank with
  | None => None
  | Some current_rank =>
      if Qeq_bool current_rank 0 then None
      else
        let trend_factor := 0.95 in
        let uncertainty :=
          match volatility with
          | high => 0.2
          | low => 0.05
          | medium => 0.1
          end in
        let predicted_rank := current_rank * trend_factor ^ years_ahead in
        let margin_of_error := predicted_rank * uncertainty in
        Some {| future_closing_rank := py_round0 predicted_rank;
                confidence_range :=
                  (py_round0 (predicted_rank - margin_of_error),
                   py_round0 (predicted_rank + margin_of_error));
                years_projected := years_ahead |}
  end.

(** The counts of [generate_comparative_analysis], from the admission
    probabilities of the predictions; [None] stands for the empty
    dictionary returned for an empty list. *)
Record college_counts : Type := mk_college_counts {
  total_colleges : nat;
  high_probability_colleges : nat;
  medium_probability_colleges : nat;
  low_probability_colleges : nat
}.

Definition generate_comparative_analysis (admission_probabilities : list Q)
  : option college_counts :=
  match admission_probabilities with
  | [] => None
  | _ :: _ =>
      Some {| total_colleges := List.length admission_probabilities;
              high_probability_colleges :=
                List.length (filter (fun p => Qltb 0.7 p)
                                    admission_probabilities);
              medium_probability_colleges :=
                List.length (filter (fun p => Qle_bool 0.3 p && Qle_bool p 0.7)
                                    admission_probabilities);
              low_probability_colleges :=
                List.length (filter (fun p => Qltb p 0.3)
                                    admission_probabilities) |}
  end.

End EnhancedPredictionSystem.

(* ================================================================== *)
(** * [models/scripts/round_prediction_engine.py] *)
(* ================================================================== *)

Module AdvancedRoundPredictionEngine.

(** The strings ['High'], ['Medium'] and ['Low']. *)
Inductive confidence_level : Type := High | Medium | Low.

(** A row of [historical_data] for one combination. *)
Record observation : Type := mk_observation {
  year : Z;
  round : Z;
  closing_rank : Q
}.

(** An entry [round_analysis['round_<n>']]; every field is read with
    [dict.get] or tested with [in], so each may be absent. *)
Record round_stats : Type := mk_round_stats {
  mean_closing_rank : option Q;
  median_closing_rank : option Q;
  std_closing_rank : option Q;
  years_with_data : option Z;
  success_probability : option Q
}.

(** An entry [round_probabilities['round_<n>']]. *)
Record round_prediction : Type := mk_round_prediction {
  probability : Q;
  confidence : confidence_level;
  historical_median_rank : Q;
  candidate_rank_difference : Q;
  interpretation : string
}.

(** The dictionaries of this class are keyed by ["round_<n>"]; the loops
    keep the keys that start with ["round_"] and read the integer after it.
    They are modelled by their round entries, keyed by the integer [n], in
    insertion order. *)
Definition round_dict (V : Type) : Type := list (Z * V).

Definition _calculate_success_probability
           (candidate_air : Z) (historical_ranks : list Q) : Q :=
  match historical_ranks with
  | [] => 0
  | _ :: _ =>
      let successes :=
        List.length
          (filter (fun r => Qle_bool (inject_Z candidate_air) r)
                  historical_ranks) in
      let total_attempts := List.length historical_ranks in
      let alpha := 1 in
      let beta := 1 in
      (inject_Z (Z.of_nat successes) + alpha)
      / (inject_Z (Z.of_nat total_attempts) + alpha + beta)
  end.

(** [Series.unique()]: first occurrences, in order. *)
Fixpoint unique (l : list Z) : list Z :=
  match l with
  | [] => []
  | x :: t => x :: filter (fun y => negb (y =? x)%Z) (unique t)
  end.

(** [np.median]. *)
Definition np_median (xs : list Q) : Q :=
  let s := stable_sort Qle_bool xs in
  let n := List.length s in
  if Nat.even n
  then (nth (n / 2 - 1) s 0 + nth (n / 2) s 0) / 2
  else nth (n / 2) s 0.

Section HistoricalRounds.
Variable np_sqrt : Q -> Q.

(** [np.std]: the population standard deviation. *)
Definition np_std (xs : list Q) : Q :=
  let m := np_mean xs in
  np_sqrt (np_mean (map (fun x => (x - m) * (x - m)) xs)).

(** The round entries of [_analyze_historical_rounds] on the observations
    of one combination; none when there is no observation. *)
Definition _analyze_historical_rounds
           (filtered_data : list observation) (candidate_air : Z)
  : round_dict round_stats :=
  map (fun round_num =>
         let closing_ranks :=
           map closing_rank
               (filter (fun o => (round o =? round_num)%Z) filtered_data) in
         (round_num,
          {| mean_closing_rank := Some (np_mean closing_ranks);
             median_closing_rank := Some (np_median closing_ranks);
             std_closing_rank := Some (np_std closing_ranks);
             years_with_data := Some (Z.of_nat (List.length closing_ranks));
             success_probability :=
               Some (_calculate_success_probability candidate_air closing_ranks)
          |}))
      (sort_Z (unique (map round filtered_data))).
End HistoricalRounds.

Definition _calculate_prediction_confidence (round_data : round_stats)
  : confidence_level :=
  let years_of_data :=
    match years_with_data round_data with Some y => y | None => 0%Z end in
  let std_rank :=
    match std_closing_rank round_data with Some s => s | None => 0 end in
  let mean_rank :=
    match mean_closing_rank round_data with Some m => m | None => 1 end in
  let cv := if Qltb 0 mean_rank then std_rank / mean_rank else 1 in
  if (2 <=? years_of_data)%Z && Qltb cv 0.2 then High
  else if (1 <=? years_of_data)%Z && Qltb cv 0.4 then Medium
  else Low.

Definition _interpret_round_probability (p : Q) : string :=
  if Qle_bool 0.8 p then "Very High - Strong likelihood of admission"
  else if Qle_bool 0.6 p then "High - Good chances of admission"
  else if Qle_bool 0.4 p then "Moderate - Fair chances, consider as backup"
  else if Qle_bool 0.2 p then "Low - Unlikely but possible"
  else "Very Low - Admission highly unlikely".

Definition _calculate_cumulative_probabilities
           (round_probs : round_dict round_prediction) : round_dict Q :=
  let round_nums := sort_Z (dict_keys round_probs) in
  fst (fold_left
         (fun st round_num =>
            let '(cumulative, total_prob) := st in
            match dict_get Z.eqb round_probs round_num with
            | Some data =>
                let round_prob := probability data in
                let total_prob := 1 - (1 - total_prob) * (1 - round_prob) in
                (dict_set Z.eqb cumulative round_num total_prob, total_prob)
            | None => (cumulative, total_prob)
            end)
         round_nums ([], 0)).

(** The result of [_determine_optimal_round]; [opt_round = None] goes with
    the recommendation ['Insufficient data']. *)
Record optimal_round : Type := mk_optimal_round {
  opt_round : option Z;
  opt_probability : Q;
  opt_confidence : option confidence_level
}.

Definition _determine_optimal_round
           (round_probs : round_dict round_prediction) : optimal_round :=
  let '(best_prob, best_round) :=
    fold_left
      (fun st item =>
         let '(best_prob, best_round) := st in
         let prob := probability (snd item) in
         if Qltb best_prob prob then (prob, Some (fst item))
         else (best_prob, best_round))
      round_probs (0, None) in
  match best_round with
  | None =>
      {| opt_round := None; opt_probability := 0; opt_confidence := None |}
  | Some r =>
      {| opt_round := Some r;
         opt_probability := best_prob;
         opt_confidence :=
           option_map confidence (dict_get Z.eqb round_probs r) |}
  end.

Record round_probabilities_result : Type := mk_round_probabilities_result {
  rounds : round_dict round_prediction;
  cumulative_probabilities : round_dict Q;
  optimal : optimal_round
}.

Section RoundProbabilities.
Variable np_exp : Q -> Q.

(** The loop of [_calculate_round_probabilities]: one entry per analysed
    round that has a success probability. *)
Definition round_entries (predicted_rank : Q)
           (round_analysis : round_dict round_stats)
  : round_dict round_prediction :=
  fold_left
    (fun round_probabilities item =>
       let '(round_num, round_data) := item in
       match success_probability round_data with
       | None => round_probabilities
       | Some base_prob =>
           let historical_median :=
             match median_closing_rank round_data with
             | Some m => m
             | None => predicted_rank
             end in
           let adjusted_prob :=
             if Qltb 0 historical_median then
               let rank_adjustment :=
                 np_exp (- (predicted_rank - historical_median)
                         / historical_median) in
               base_prob * rank_adjustment
             else base_prob in
           let adjusted_prob := py_max 0 (py_min 1 adjusted_prob) in
           dict_set Z.eqb round_probabilities round_num
             {| probability := adjusted_prob;
                confidence := _calculate_prediction_confidence round_data;
                historical_median_rank := historical_median;
                candidate_rank_difference := predicted_rank - historical_median;
                interpretation := _interpret_round_probability adjusted_prob |}
       end)
    round_analysis [].

Definition _calculate_round_probabilities
           (predicted_rank : Q) (round_analysis : round_dict round_stats)
  : round_probabilities_result :=
  let round_probabilities := round_entries predicted_rank round_analysis in
  {| rounds := round_probabilities;
     cumulative_probabilities :=
       _calculate_cumulative_probabilities round_probabilities;
     optimal := _determine_optimal_round round_probabilities |}.
End RoundProbabilities.

Record confidence_interval : Type := mk_confidence_interval {
  lower_bound : Q;
  upper_bound : Q;
  margin_of_error : Q;
  confidence_level_of : confidence_level
}.

Definition margin_for (c : confidence_level) : Q :=
  match c with
  | High => 0.05
  | Medium => 0.10
  | Low => 0.15
  end.

Definition _calculate_confidence_intervals
           (round_probs : round_dict round_prediction)
  : round_dict confidence_interval :=
  fold_left
    (fun confidence_intervals item =>
       let prob := probability (snd item) in
       let confidence := confidence (snd item) in
       let margin := margin_for confidence in
       let lower_bound := py_max 0 (prob - margin) in
       let upper_bound := py_min 1 (prob + margin) in
       dict_set Z.eqb confidence_intervals (fst item)
         {| lower_bound := lower_bound;
            upper_bound := upper_bound;
            margin_of_error := margin;
            confidence_level_of := confidence |})
    round_probs [].

(** An element of [round_data], and of the two groups of the strategy:
    round number, probability, confidence. *)
Definition scored_round : Type := (Z * Q * confidence_level)%type.

Definition round_of (e : scored_round) : Z := fst (fst e).
Definition prob_of (e : scored_round) : Q := snd (fst e).

Record strategy : Type := mk_strategy {
  recommended_approach : string;
  risk_assessment : string;
  priority_rounds : list scored_round;
  backup_options : list scored_round
}.

Definition _generate_counseling_strategy
           (round_probs : round_dict round_prediction) : strategy :=
  let round_data :=
    map (fun item => (fst item, probability (snd item), confidence (snd item)))
        round_probs in
  let round_data := sort_desc_by prob_of round_data in
  match round_data with
  | [] =>
      {| recommended_approach :=
           "Insufficient data for strategy recommendation";
         risk_assessment := "";
         priority_rounds := [];
         backup_options := [] |}
  | best :: _ =>
      let best_prob := prob_of best in
      let '(approach, risk) :=
        if Qle_bool 0.7 best_prob then
          ("Aggressive - Focus on preferred choices",
           "Low risk - High probability of admission")
        else if Qle_bool 0.4 best_prob then
          ("Balanced - Mix of preferred and safe choices",
           "Medium risk - Good chances but prepare alternatives")
        else
          ("Conservative - Focus on safety options",
           "High risk - Consider widening criteria") in
      let priority_threshold := py_max 0.3 (best_prob * 0.5) in
      {| recommended_approach := approach;
         risk_assessment := risk;
         priority_rounds :=
           collect_capped 3
             (fun e => Qle_bool priority_threshold (prob_of e)) [] round_data;
         backup_options :=
           collect_capped 2
             (fun e => Qle_bool 0.1 (prob_of e)
                       && Qltb (prob_of e) priority_threshold) [] round_data |}
  end%string.

End AdvancedRoundPredictionEngine.

(* ================================================================== *)
(** * [backend/final_enhanced_api.py] *)
(* ================================================================== *)

Module FinalEnhancedApi.

Definition calculate_admission_probability_fallback
           (air : Z) (historical_ranks : list Z) : Q :=
  match historical_ranks with
  | [] => 0.1
  | _ :: _ =>
      let valid_ranks := filter (fun r => (0 <? r)%Z) historical_ranks in
      match valid_ranks with
      | [] => 0.1
      | _ :: _ =>
          let avg_closing_rank := np_mean (map inject_Z valid_ranks) in
          let probability :=
            if Qle_bool (inject_Z air) avg_closing_rank then
              let ratio := inject_Z air / avg_closing_rank in
              py_min 0.95 (1 - ratio * 0.2)
            else
              let ratio := inject_Z air / avg_closing_rank in
              if Qle_bool ratio 2 then py_max 0.05 (0.6 - (ratio - 1) * 0.4)
              else 0.05 in
          py_round3 probability
      end
  end.

End FinalEnhancedApi.

(* ================================================================== *)
(** * Double precision

    The functions whose computed values the specification states,
    transcribed over binary64: every operation rounds to the nearest
    double, ties to even, as Python's and NumPy's do. *)
(* ================================================================== *)

Module Binary64.
#[local] Open Scope float_scope.

(** A Python [int] as a [float]: exact below 2^53, which ranks and round
    numbers are. *)
Fixpoint float_of_pos (p : positive) : float :=
  match p with
  | xH => 1
  | xO q => 2 * float_of_pos q
  | xI q => 2 * float_of_pos q + 1
  end.

Definition float_of_int (z : Z) : float :=
  match z with
  | Z0 => 0
  | Zpos p => float_of_pos p
  | Zneg p => - float_of_pos p
  end.

(** [max(a, b)] and [min(a, b)] of Python. *)
Definition py_max (a b : float) : float := if a <? b then b else a.
Definition py_min (a b : float) : float := if b <? a then b else a.

Definition calculate_round_probability
           (user_rank : Z) (closing_rank : float) : float :=
  if is_nan closing_rank || (closing_rank =? 0) then 0
  else
    let diff := abs (float_of_int user_rank - closing_rank) in
    let probability :=
      if diff <=? 10000 then 0.95 - 0.000045 * diff
      else if diff <=? 20000 then 0.5 - 0.00004 * (diff - 10000)
      else if diff <=? 40000 then 0.1 - 0.0000045 * (diff - 20000)
      else 0.01 in
    py_max 0.01 (py_min 0.95 probability).

(** An entry [round_probabilities['round_<n>']] of the round engine. *)
Record round_prediction : Type := mk_round_prediction {
  probability : float;
  confidence : AdvancedRoundPredictionEngine.confidence_level;
  historical_median_rank : float;
  candidate_rank_difference : float;
  interpretation : string
}.

Definition _calculate_cumulative_probabilities
           (round_probs : list (Z * round_prediction)) : list (Z * float) :=
  let round_nums := sort_Z (dict_keys round_probs) in
  fst (fold_left
         (fun st round_num =>
            let '(cumulative, total_prob) := st in
            match dict_get Z.eqb round_probs round_num with
            | Some data =>
                let round_prob := probability data in
                let total_prob := 1 - (1 - total_prob) * (1 - round_prob) in
                (dict_set Z.eqb cumulative round_num total_prob, total_prob)
            | None => (cumulative, total_prob)
            end)
         round_nums ([], 0)).

End Binary64.

(* ================================================================== *)
(** * Specification-side definitions and sample data *)
(* ================================================================== *)

Import EnhancedPredictionAlgorithm.
Import AdvancedRoundPredictionEngine.
Module EPS := EnhancedPredictionSystem.

(** The value on the binary branch. *)
Definition binary_outcome (user_rank : Z) (mean_closing_rank : Q) : Q :=
  if Qle_bool (inject_Z user_rank) mean_closing_rank then 1 else 0.

(** The product of [1 - p] over a list of probabilities. *)
Definition survival (ps : list Q) : Q :=
  fold_right (fun p acc => (1 - p) * acc) 1 ps.

(** The specification's cumulative probability by round [N]:
    [1 - prod (1 - p_i)] over the rounds up to [N]. *)
Definition cumulative_by_round
           (round_probs : round_dict round_prediction) (N : Z) : Q :=
  1 - survival (map (fun e => probability (snd e))
                    (filter (fun e => (fst e <=? N)%Z) round_probs)).

(** The probability stored for a round, as the loop reads it. *)
Definition prob_at (round_probs : round_dict round_prediction) (n : Z) : Q :=
  match dict_get Z.eqb round_probs n with
  | Some data => probability data
  | None => 0
  end.

(** The successive values of [total_prob]. *)
Fixpoint running_totals (total : Q) (ps : list Q) : list Q :=
  match ps with
  | [] => []
  | p :: t =>
      let total' := 1 - (1 - total) * (1 - p) in
      total' :: running_totals total' t
  end.

(** The same running update with every operation rounded to binary64, and
    the probability that the loop reads for a round. *)
Fixpoint running_totals64 (total : float) (ps : list float) : list float :=
  match ps with
  | [] => []
  | p :: t =>
      let total' := (1 - (1 - total) * (1 - p))%float in
      total' :: running_totals64 total' t
  end.

Definition prob_at64 (round_probs : list (Z * Binary64.round_prediction))
           (n : Z) : float :=
  match dict_get Z.eqb round_probs n with
  | Some data => Binary64.probability data
  | None => 0%float
  end.

(** Counting the elements of a list that pass a test. *)
Definition count_where {A : Type} (test : A -> bool) (l : list A) : nat :=
  List.length (filter test l).

(** A per-round prediction in binary64 with a given probability. *)
Definition sample_round64 (p : float) : Binary64.round_prediction :=
  {| Binary64.probability := p;
     Binary64.confidence := Medium;
     Binary64.historical_median_rank := 20000%float;
     Binary64.candidate_rank_difference := 0%float;
     Binary64.interpretation := "" |}.

(** [sample_unordered] in binary64. *)
Definition sample_unordered64 : round_dict Binary64.round_prediction :=
  [(2%Z, sample_round64 0.25%float); (1%Z, sample_round64 0.5%float);
   (3%Z, sample_round64 0.2%float)].

(** The entries that [_generate_counseling_strategy] reads off the
    dictionary, before sorting. *)
Definition scored_rounds (round_probs : round_dict round_prediction)
  : list scored_round :=
  map (fun item => (fst item, probability (snd item), confidence (snd item)))
      round_probs.

(** Where an entry of the prediction list comes from. *)
Definition from_row (round_key_of_column : string -> option string)
           (q : user_inputs) (data : list row) (p : prediction) : Prop :=
  exists r ad,
    In r data /\
    calculate_admission_probabilities
      (air q) (extract_round_data round_key_of_column r) = Some ad /\
    0.05 <= overall_probability ad /\
    admission_probability p = py_round3 (overall_probability ad).

(** A rational approximation of the exponential, [(1 + z/16)^16], to run
    the code that calls [np.exp]. *)
Definition exp_approx (z : Q) : Q :=
  let y := (1 + z / 16) ^ 8 in y * y.

(** A per-round prediction with a given probability and confidence. *)
Definition sample_round (p : Q) (c : confidence_level) : round_prediction :=
  {| probability := p;
     confidence := c;
     historical_median_rank := 20000;
     candidate_rank_difference := 0;
     interpretation := "" |}.

(** Three rounds entered out of order, with probabilities 1/4, 1/2 and
    1/5 for rounds 2, 1 and 3. *)
Definition sample_unordered : round_dict round_prediction :=
  [(2%Z, sample_round (1 # 4) Medium); (1%Z, sample_round (1 # 2) High);
   (3%Z, sample_round (1 # 5) Low)].

(** Rounds 2 and 3 share the largest probability. *)
Definition sample_tied : round_dict round_prediction :=
  [(1%Z, sample_round (1 # 4) High); (2%Z, sample_round (1 # 2) High);
   (3%Z, sample_round (1 # 2) Low)].

(** Two rounds of probability 0. *)
Definition sample_all_zero : round_dict round_prediction :=
  [(1%Z, sample_round 0 Low); (2%Z, sample_round 0 Low)].

(** Four rounds with probabilities 0.35, 0.8, 0.2 and 0.5. *)
Definition sample_four : round_dict round_prediction :=
  [(1%Z, sample_round 0.35 Medium); (2%Z, sample_round 0.8 High);
   (3%Z, sample_round 0.2 Low); (4%Z, sample_round 0.5 Medium)].

(** A run on two rows: one with three closing ranks near the candidate
    rank, one whose closing ranks are far from it. *)
Definition sample_rows : list row :=
  [ {| Institute := Some "A"; Course := Some "ANAESTHESIOLOGY";
       State := Some "Andhra Pradesh"; Category := Some "OPEN-GEN";
       Quota := Some "AP Govt-NS LOC";
       CR := [("CR 2023 1", Num 24000); ("CR 2023 2", Num 30000);
              ("CR 2024 1", NaN)];
       Fee := Num 90000; Stipend_Year_1 := Num 50000;
       Bond_Years := Num 1 |};
    {| Institute := Some "B"; Course := Some "ANAESTHESIOLOGY";
       State := Some "Andhra Pradesh"; Category := Some "OPEN-GEN";
       Quota := Some "Private";
       CR := [("CR 2023 1", Num 90000)];
       Fee := NaN; Stipend_Year_1 := NaN; Bond_Years := NaN |} ]%string.

Definition sample_query : user_inputs :=
  {| category := ""; state := ""; course := ""; quota := "";
     air := 25000 |}.

(** Rounding to the nearest integer, ties to the even one: the integer
    that [py_round3] and [py_round0] compute. *)
Definition round_half_even (s : Q) : Z :=
  let f := Qfloor s in
  let frac := s - inject_Z f in
  if Qltb frac (1 # 2) then f
  else if Qltb (1 # 2) frac then (f + 1)%Z
  else if Z.even f then f else (f + 1)%Z.

(** The order Low < Medium < High of the confidence levels. *)
Definition confidence_rank (c : confidence_level) : nat :=
  match c with Low => 0 | Medium => 1 | High => 2 end.

(** A positive, non-decreasing stand-in for the exponential, to run the
    code that calls [np.exp]: 2 to the integer part of [z]. *)
Definition exp_step (z : Q) : Q := 2 ^ Qfloor z.

(** The integer square root, to run the code that calls [np.std]. *)
Definition sqrt_floor (q : Q) : Q := inject_Z (Z.sqrt (Qfloor q)).

(** The history of one combination: rounds 1 and 2 of two years. *)
Definition sample_history : list observation :=
  [ {| year := 2023; round := 2; closing_rank := 26000 |};
    {| year := 2023; round := 1; closing_rank := 20000 |};
    {| year := 2024; round := 1; closing_rank := 22000 |};
    {| year := 2024; round := 2; closing_rank := 30000 |} ].

(** The engine's per-round result for candidate rank 21,000 on that
    history, with predicted rank 21,000. *)
Definition sample_engine_result : round_probabilities_result :=
  _calculate_round_probabilities
    exp_step 21000 (_analyze_historical_rounds sqrt_floor sample_history 21000).

(** The order low < medium < high of the volatility levels. *)
Definition volatility_rank (v : EPS.volatility_level) : nat :=
  match v with EPS.low => 0 | EPS.medium => 1 | EPS.high => 2 end.

(** A row of [college_mappings] with recorded closing ranks for rounds 1
    and 2 only. *)
Definition sample_round_labels (round_num : Z) : option pyfloat :=
  if (round_num =? 1)%Z then Some (Num 20000)
  else if (round_num =? 2)%Z then Some (Num 30000)
  else None.

(** A row of [college_mappings] without any round label. *)
Definition no_round_labels (round_num : Z) : option pyfloat := None.

Definition sample_college : EPS.college :=
  {| EPS.closing_rank_mean := Some (Num 20000);
     EPS.closing_rank_std := Some (Num 1000) |}.

Definition sample_details (bond : pyfloat) : EPS.college_details :=
  {| EPS.closing_rank_count := Num 12;
     EPS.Annual_Fees := Num 90000;
     EPS.Stipend_Year1 := Num 50000;
     EPS.Bond_Amount := bond;
     EPS.Total_Beds := Num 800 |}.

(** Closing ranks of three rounds, by round key. *)
Definition sample_closing_ranks : list (string * pyfloat) :=
  [("2023_R1", Num 70000); ("2023_R2", Num 35000);
   ("2024_R1", Num 50000)]%string.

(** A row whose closing-rank cells are all unusable. *)
Definition sample_row_without_ranks : row :=
  {| Institute := Some "C"; Course := Some "ANAESTHESIOLOGY";
     State := Some "Kerala"; Category := Some "OPEN-GEN";
     Quota := Some "Private";
     CR := [("CR 2023 1", NaN); ("CR 2023 2", Num 0)];
     Fee := NaN; Stipend_Year_1 := NaN; Bond_Years := NaN |}%string.

(** An admission result with a given overall probability and predicted
    closing rank 24,000. *)
Definition sample_admission (p : Q) : admission_data :=
  {| round_probabilities := [];
     best_round := None;
     overall_probability := p;
     predicted_closing_rank := 24000 |}.

(** A filter of [predict_colleges] raises nothing: the filter string is
    empty, or its column holds strings and its pattern compiles. *)
Definition filter_usable (re_valid : string -> bool) (data : list row)
           (pat : string) (cell : row -> option string) : Prop :=
  pat = ""%string \/
  (str_accessor_ok data cell = true /\ re_valid (upper pat) = true).

(** A row passes a filter of [predict_colleges]: the filter string is empty,
    or the cell is a string in which the upper-cased pattern is found. *)
Definition passes_filter (re_search : string -> string -> bool)
           (pat : string) (cell : row -> option string) (r : row) : Prop :=
  pat = ""%string \/
  exists s, cell r = Some s /\ re_search (upper pat) (upper s) = true.

(** A row whose state cell is missing. *)
Definition sample_row_without_state : row :=
  {| Institute := Some "D"; Course := Some "ANAESTHESIOLOGY";
     State := None; Category := Some "OPEN-GEN";
     Quota := Some "Private";
     CR := [("CR 2023 1", Num 24000)];
     Fee := NaN; Stipend_Year_1 := NaN; Bond_Years := NaN |}%string.

(** A query with a state and a course filter. *)
Definition sample_filtered_query : user_inputs :=
  {| category := ""; state := "Andhra"; course := "ANAES"; quota := "";
     air := 25000 |}%string.

(** How [predict_row] builds an entry from a row. *)
Definition built_from (round_key_of_column : string -> option string)
           (q : user_inputs) (r : row) (p : prediction) : Prop :=
  exists ad sc,
    calculate_admission_probabilities
      (air q) (extract_round_data round_key_of_column r) = Some ad /\
    0.05 <= overall_probability ad /\
    calculate_enhanced_recommendation_score r (air q) ad (state q) = Some sc /\
    institute p = str_of_cell (Institute r) /\
    admission_probability p = py_round3 (overall_probability ad) /\
    confidence_score p = py_min 0.95 (overall_probability ad + 0.1) /\
    pred_closing_rank p = predicted_closing_rank ad /\
    most_likely_round p = best_round ad /\
    recommendation_score p = py_round3 sc.

(* ================================================================== *)
(** * Properties *)
(* ================================================================== *)

(** ** Comparisons and clamping *)

Lemma Qltb_lt (x y : Q) : Qltb x y = true <-> x < y.
Proof.
  unfold Qltb. rewrite negb_true_iff.
  split; intro H.
  - apply Qnot_le_lt. intro Hle. apply Qle_bool_iff in Hle. congruence.
  - destruct (Qle_bool y x) eqn:E; [|reflexivity].
    apply Qle_bool_iff in E. lra.
Qed.

Lemma Qltb_ge (x y : Q) : Qltb x y = false <-> y <= x.
Proof.
  unfold Qltb. rewrite negb_false_iff. apply Qle_bool_iff.
Qed.

Lemma Qle_bool_gt (x y : Q) : Qle_bool x y = false <-> y < x.
Proof.
  split; intro H.
  - apply Qnot_le_lt. intro Hle. apply Qle_bool_iff in Hle. congruence.
  - destruct (Qle_bool x y) eqn:E; [|reflexivity].
    apply Qle_bool_iff in E. lra.
Qed.

(** Case analysis on a boolean comparison, leaving the order fact in the
    context. *)
Ltac case_cmp :=
  match goal with
  | |- context [Qle_bool ?a ?b] =>
      let E := fresh "E" in
      destruct (Qle_bool a b) eqn:E;
      [apply Qle_bool_iff in E | apply Qle_bool_gt in E]
  | |- context [Qltb ?a ?b] =>
      let E := fresh "E" in
      destruct (Qltb a b) eqn:E;
      [apply Qltb_lt in E | apply Qltb_ge in E]
  end.

(** Boolean comparisons in the context, as order facts. *)
Ltac bool_facts :=
  repeat match goal with
         | H : Qltb _ _ = true |- _ => apply Qltb_lt in H
         | H : Qltb _ _ = false |- _ => apply Qltb_ge in H
         | H : Qle_bool _ _ = true |- _ => apply Qle_bool_iff in H
         | H : Qle_bool _ _ = false |- _ => apply Qle_bool_gt in H
         end.

Lemma py_max_spec (a b : Q) :
  (a < b /\ py_max a b = b) \/ (b <= a /\ py_max a b = a).
Proof. unfold py_max. case_cmp; auto. Qed.

Lemma py_min_spec (a b : Q) :
  (b < a /\ py_min a b = b) \/ (a <= b /\ py_min a b = a).
Proof. unfold py_min. case_cmp; auto. Qed.

Lemma py_clamp_bounds (lo hi x : Q) :
  lo <= hi -> lo <= py_max lo (py_min hi x) <= hi.
Proof.
  intro H.
  destruct (py_min_spec hi x) as [[? ->]|[? ->]];
    destruct (py_max_spec lo x) as [[? E]|[? E]];
    destruct (py_max_spec lo hi) as [[? E']|[? E']];
    rewrite ?E, ?E'; lra.
Qed.

Lemma py_clamp_id (lo hi x : Q) :
  lo <= x <= hi -> py_max lo (py_min hi x) == x.
Proof.
  intros [H1 H2].
  destruct (py_min_spec hi x) as [[? ->]|[? ->]].
  - destruct (py_max_spec lo x) as [[? ->]|[? ->]]; lra.
  - destruct (py_max_spec lo hi) as [[? ->]|[? ->]]; lra.
Qed.

Lemma py_clamp_mono (lo hi x y : Q) :
  lo <= hi -> x <= y ->
  py_max lo (py_min hi x) <= py_max lo (py_min hi y).
Proof.
  intros Hlh Hxy.
  destruct (py_min_spec hi x) as [[? ->]|[? ->]];
    destruct (py_min_spec hi y) as [[? ->]|[? ->]];
    unfold py_max; repeat case_cmp; lra.
Qed.

(** ** The piecewise estimate *)

Lemma decay_at_0 (d : Q) : d == 0 -> decay d == 0.95.
Proof. intro H. unfold decay. repeat case_cmp; lra. Qed.

Lemma decay_flat (d : Q) : 40000 < d -> decay d == 0.01.
Proof. intro H. unfold decay. repeat case_cmp; lra. Qed.

Lemma decay_bounds (d : Q) : 0 <= d -> 0.01 <= decay d <= 0.95.
Proof. intro H. unfold decay. repeat case_cmp; lra. Qed.

Lemma decay_antitone (d1 d2 : Q) : d1 <= d2 -> decay d2 <= decay d1.
Proof. intro H. unfold decay. repeat case_cmp; lra. Qed.

Lemma rank_diff_nonneg (u : Z) (c : Q) : 0 <= rank_diff u c.
Proof. apply Qabs_nonneg. Qed.

Lemma calculate_round_probability_usable (u : Z) (c : Q) :
  ~ c == 0 ->
  calculate_round_probability u (Num c)
  = py_max 0.01 (py_min 0.95 (decay (rank_diff u c))).
Proof.
  intro Hc. unfold calculate_round_probability.
  destruct (Qeq_bool c 0) eqn:E; [|reflexivity].
  apply Qeq_bool_iff in E. contradiction.
Qed.

Lemma calculate_round_probability_decay (u : Z) (c : Q) :
  ~ c == 0 ->
  calculate_round_probability u (Num c) == decay (rank_diff u c).
Proof.
  intro Hc. rewrite calculate_round_probability_usable by assumption.
  apply py_clamp_id. apply decay_bounds, rank_diff_nonneg.
Qed.

(** C1.  For every candidate rank and every positive closing rank that is a
    number, the estimate is 0.95 when the absolute rank difference is 0 and
    is 0.01 whenever the difference exceeds 40,000.  At a difference of
    10,000 the code evaluates 0.95 - 0.000045 * 10000 in double precision:
    for every candidate rank and closing rank whose difference is the
    double 10000, the value is 0.49999999999999994, the double next below
    0.5. *)
Theorem calculate_round_probability_segment_values
        (u : Z) (c : Q) (u64 : Z) (c64 : float) :
  0 < c ->
  is_nan c64 = false ->
  PrimFloat.eqb c64 0%float = false ->
  abs (Binary64.float_of_int u64 - c64)%float = 10000%float ->
  (rank_diff u c == 0 -> calculate_round_probability u (Num c) == 0.95) /\
  (40000 < rank_diff u c -> calculate_round_probability u (Num c) == 0.01) /\
  Binary64.calculate_round_probability u64 c64
  = 0.49999999999999994%float /\
  next_up (Binary64.calculate_round_probability u64 c64) = 0.5%float.
Proof.
  intros Hc Hnan Hzero Hdiff.
  assert (Hnz : ~ c == 0) by lra.
  assert (H64 : Binary64.calculate_round_probability u64 c64
                = 0.49999999999999994%float).
  { unfold Binary64.calculate_round_probability.
    rewrite Hnan, Hzero, Hdiff. reflexivity. }
  split; [|split; [|split]].
  - intro H. rewrite (calculate_round_probability_decay u c Hnz).
    now apply decay_at_0.
  - intro H. rewrite (calculate_round_probability_decay u c Hnz).
    now apply decay_flat.
  - exact H64.
  - rewrite H64. reflexivity.
Qed.

(** The three scenarios of the specification in double precision:
    candidate rank 25,000 against closing ranks 25,000, 35,000 and
    70,000. *)
Example calculate_round_probability_scenarios :
  Binary64.calculate_round_probability 25000 25000 = 0.95%float /\
  Binary64.calculate_round_probability 25000 35000
  = 0.49999999999999994%float /\
  Binary64.calculate_round_probability 25000 70000 = 0.01%float.
Proof. repeat split. Qed.

Lemma calculate_round_probability_segment_values_witness :
  calculate_round_probability 25000 (Num 25000) == 0.95 /\
  calculate_round_probability 25000 (Num 70000) == 0.01 /\
  Binary64.calculate_round_probability 25000 35000
  = 0.49999999999999994%float.
Proof.
  split; [|split].
  - apply (calculate_round_probability_segment_values
             25000 25000 25000 35000%float); reflexivity.
  - apply (calculate_round_probability_segment_values
             25000 70000 25000 35000%float); reflexivity.
  - apply (calculate_round_probability_segment_values
             25000 25000 25000 35000%float); reflexivity.
Defined.

(** C1 fails as stated: at rank difference 10,000 the value that the code
    returns is not 0.5. *)
Lemma calculate_round_probability_misses_half :
  Binary64.calculate_round_probability 25000 35000 <> 0.5%float.
Proof. intro H. vm_compute in H. discriminate. Qed.

Lemma calculate_round_probability_unusable (u : Z) (x : pyfloat) :
  x = NaN \/ (exists c, x = Num c /\ c == 0) ->
  calculate_round_probability u x = 0.
Proof.
  intros [-> | (c & -> & Hc)]; [reflexivity|].
  unfold calculate_round_probability.
  apply Qeq_bool_iff in Hc. now rewrite Hc.
Qed.

Lemma calculate_round_probability_range (u : Z) (x : pyfloat) :
  0 <= calculate_round_probability u x <= 0.95.
Proof.
  destruct x as [|c]; [cbn; lra|].
  unfold calculate_round_probability.
  destruct (Qeq_bool c 0); [lra|].
  pose proof (py_clamp_bounds 0.01 0.95 (decay (rank_diff u c))). lra.
Qed.

(** Monotonicity in the rank difference, for any closing rank. *)
Lemma calculate_round_probability_antitone (c : Q) (r1 r2 : Z) :
  rank_diff r1 c <= rank_diff r2 c ->
  calculate_round_probability r2 (Num c)
  <= calculate_round_probability r1 (Num c).
Proof.
  intro H. unfold calculate_round_probability.
  destruct (Qeq_bool c 0); [lra|].
  apply py_clamp_mono; [lra|]. now apply decay_antitone.
Qed.

(** C3.  For a fixed positive closing rank, a candidate rank at least as
    close to it (in absolute difference) gets at least as high an estimate. *)
Theorem calculate_round_probability_monotone (c : Q) (r1 r2 : Z) :
  0 < c ->
  rank_diff r1 c <= rank_diff r2 c ->
  calculate_round_probability r2 (Num c)
  <= calculate_round_probability r1 (Num c).
Proof.
  intros _. apply calculate_round_probability_antitone.
Qed.

(** Closing rank 30,000: candidate 28,000 is closer than candidate 45,000. *)
Lemma calculate_round_probability_monotone_witness :
  calculate_round_probability 45000 (Num 30000)
  <= calculate_round_probability 28000 (Num 30000).
Proof.
  apply (calculate_round_probability_monotone 30000 28000 45000).
  - reflexivity.
  - vm_compute. discriminate.
Defined.

(** ** The distribution-based estimate *)

Lemma binary_outcome_cases (u : Z) (m : Q) :
  (inject_Z u <= m /\ binary_outcome u m = 1) \/
  (m < inject_Z u /\ binary_outcome u m = 0).
Proof. unfold binary_outcome. case_cmp; auto. Qed.

Lemma sigmoid_range (e : Q) : 0 <= e -> 0 < 1 / (1 + e) <= 1.
Proof.
  intro He.
  assert (Hpos : 0 < 1 + e) by lra.
  split.
  - apply Qlt_shift_div_l; lra.
  - apply Qle_shift_div_r; lra.
Qed.

Section DistributionEstimate.
Variable np_exp : Q -> Q.

Lemma probability_no_history (u : Z) (c : EPS.college) :
  EPS.closing_rank_mean c = None \/ EPS.closing_rank_mean c = Some NaN ->
  EPS.probability np_exp u c = 0.5.
Proof. unfold EPS.probability. now intros [-> | ->]. Qed.

Lemma probability_sigmoid (u : Z) (m s : Q) :
  0 < s ->
  EPS.probability np_exp u
    {| EPS.closing_rank_mean := Some (Num m);
       EPS.closing_rank_std := Some (Num s) |}
  = 1 / (1 + np_exp ((inject_Z u - m) / s)).
Proof.
  intro Hs. unfold EPS.probability; cbn.
  apply Qltb_lt in Hs. now rewrite Hs.
Qed.

Lemma probability_binary (u : Z) (m : Q) (std : pyfloat) :
  std = NaN \/ (exists s, std = Num s /\ s <= 0) ->
  EPS.probability np_exp u
    {| EPS.closing_rank_mean := Some (Num m);
       EPS.closing_rank_std := Some std |}
  = binary_outcome u m.
Proof.
  intros [-> | (s & -> & Hs)]; unfold EPS.probability; cbn; [reflexivity|].
  apply Qltb_ge in Hs. now rewrite Hs.
Qed.

(** The default of [college.get('closing_rank_std', ...)] is used when the
    label is absent, and only then. *)
Lemma probability_std_label_absent (u : Z) (m : Q) :
  0 < m ->
  EPS.probability np_exp u
    {| EPS.closing_rank_mean := Some (Num m); EPS.closing_rank_std := None |}
  = 1 / (1 + np_exp ((inject_Z u - m) / (m * 0.1))).
Proof.
  intro Hm. unfold EPS.probability; cbn.
  assert (H : 0 < m * 0.1) by lra.
  apply Qltb_lt in H. now rewrite H.
Qed.

Hypothesis np_exp_nonneg : forall z, 0 <= np_exp z.

Lemma probability_range (u : Z) (c : EPS.college) :
  0 <= EPS.probability np_exp u c <= 1.
Proof.
  unfold EPS.probability. cbv zeta.
  destruct (EPS.closing_rank_mean c) as [[|m]|]; try lra.
  destruct (EPS.series_get _ _) as [|s].
  - case_cmp; lra.
  - pose proof (sigmoid_range _ (np_exp_nonneg ((inject_Z u - m) / s))).
    repeat case_cmp; lra.
Qed.

End DistributionEstimate.

(** C2, as the code has it.  The piecewise estimate lies in [0.01, 0.95]
    whenever the closing rank is a number other than 0, and is 0.0 when the
    closing rank is NaN or 0.  The distribution-based estimate is not
    clamped: it lies in [0, 1] (for a non-negative exponential), and on its
    branch for a standard deviation that is 0 (or not above 0) it is exactly
    1.0 or 0.0. *)
Theorem probability_values_ranges (np_exp : Q -> Q) (u : Z) :
  (forall z, 0 <= np_exp z) ->
  (forall c, ~ c == 0 ->
             0.01 <= calculate_round_probability u (Num c) <= 0.95) /\
  (forall x, x = NaN \/ (exists c, x = Num c /\ c == 0) ->
             calculate_round_probability u x = 0) /\
  (forall c, 0 <= EPS.probability np_exp u c <= 1) /\
  (forall m std,
      std = NaN \/ (exists s, std = Num s /\ s <= 0) ->
      EPS.probability np_exp u
        {| EPS.closing_rank_mean := Some (Num m);
           EPS.closing_rank_std := Some std |}
      = binary_outcome u m /\
      (binary_outcome u m = 1 \/ binary_outcome u m = 0)).
Proof.
  intro Hexp. repeat split.
  - rewrite calculate_round_probability_usable by assumption.
    apply py_clamp_bounds. lra.
  - rewrite calculate_round_probability_usable by assumption.
    apply py_clamp_bounds. lra.
  - apply calculate_round_probability_unusable.
  - now apply probability_range.
  - now apply probability_range.
  - now apply probability_binary.
  - destruct (binary_outcome_cases u m) as [[_ ->]|[_ ->]]; auto.
Qed.

Lemma probability_values_ranges_witness :
  0.01 <= calculate_round_probability 25000 (Num 35000) <= 0.95 /\
  calculate_round_probability 25000 (Num 0) = 0 /\
  0 <= EPS.probability exp_approx 25000
         {| EPS.closing_rank_mean := Some (Num 20000);
            EPS.closing_rank_std := Some (Num 2000) |} <= 1.
Proof.
  assert (Hexp : forall z, 0 <= exp_approx z)
    by (intro z; unfold exp_approx; cbv zeta;
        generalize ((1 + z / 16) ^ 8); intro y; nra).
  destruct (probability_values_ranges exp_approx 25000 Hexp)
    as (Hpw & Hzero & Hdist & _).
  split; [|split].
  - apply Hpw. vm_compute. discriminate.
  - apply Hzero. right. exists 0. split; reflexivity.
  - apply Hdist.
Defined.

(** C2 fails as stated: a closing rank of 0 gives the piecewise estimate
    0.0, and a standard deviation of 0 gives the distribution-based estimate
    1.0 (candidate 10,000 against mean 20,000) or 0.0 (candidate 30,000). *)
Lemma probability_values_outside_clamp :
  ~ (0.01 <= calculate_round_probability 25000 (Num 0) <= 0.95) /\
  ~ (0.01 <= EPS.probability exp_approx 10000
               {| EPS.closing_rank_mean := Some (Num 20000);
                  EPS.closing_rank_std := Some (Num 0) |} <= 0.95) /\
  ~ (0.01 <= EPS.probability exp_approx 30000
               {| EPS.closing_rank_mean := Some (Num 20000);
                  EPS.closing_rank_std := Some (Num 0) |} <= 0.95).
Proof.
  repeat split; vm_compute; intros [H1 H2];
    first [now apply H1 | now apply H2].
Qed.

Lemma np_mean_singleton (x : Q) : np_mean [x] == x.
Proof. unfold np_mean, Qsum; cbn. field. Qed.

Lemma binary_outcome_compat (u : Z) (m m' : Q) :
  m == m' -> binary_outcome u m = binary_outcome u m'.
Proof. intro H. unfold binary_outcome. now rewrite H. Qed.

(** C5.  [create_college_mappings] raises for every table of closing
    ranks: the flattened key columns of [rank_stats] keep their names, and
    the second merge asks for them with an underscore appended.  So no
    estimate is computed for an offer with a single observation.  On the
    statistics row of such an offer the estimator would not use its default
    either: the standard deviation of one observation is NaN stored under
    the label, [get] returns it, and the binary branch runs.  The default of
    10% of the mean is used only for a row without the label, and a
    standard deviation of exactly 0 gives the binary value. *)
Theorem single_observation_gets_no_estimate
        (np_sqrt np_exp : Q -> Q) (u : Z) (x : Q) (closing_ranks : list Q) :
  EPS.create_college_mappings np_sqrt closing_ranks = None /\
  EPS.closing_rank_std (EPS.rank_stats np_sqrt [x]) = Some NaN /\
  EPS.probability np_exp u (EPS.rank_stats np_sqrt [x])
  = binary_outcome u x /\
  (forall m,
      EPS.probability np_exp u
        {| EPS.closing_rank_mean := Some (Num m);
           EPS.closing_rank_std := Some (Num 0) |}
      = binary_outcome u m) /\
  (forall m,
      0 < m ->
      EPS.probability np_exp u
        {| EPS.closing_rank_mean := Some (Num m);
           EPS.closing_rank_std := None |}
      = 1 / (1 + np_exp ((inject_Z u - m) / (m * 0.1)))).
Proof.
  split; [reflexivity|]. split; [reflexivity|]. split; [|split].
  - unfold EPS.rank_stats, EPS.agg_mean, EPS.agg_std.
    rewrite probability_binary by now left.
    apply binary_outcome_compat, np_mean_singleton.
  - intro m. apply probability_binary. right. exists 0. split; [reflexivity|lra].
  - intros m Hm. unfold EPS.probability.
    cbn [EPS.closing_rank_mean EPS.closing_rank_std EPS.series_get].
    assert (E : Qltb 0 (m * 0.1) = true) by (apply Qltb_lt; lra).
    now rewrite E.
Qed.

(** The key columns that the merge asks for, against the columns that the
    flattening produces. *)
Example rank_stats_key_columns :
  map EPS.flatten_column (firstn 5 EPS.rank_stats_columns)
  = ["Institute"; "Course"; "State"; "Category"; "Quota"]%string /\
  EPS.keys_found (map EPS.flatten_column EPS.rank_stats_columns)
                 ["Institute"; "Course"; "State"; "Category"; "Quota"]%string
  = true /\
  EPS.keys_found (map EPS.flatten_column EPS.rank_stats_columns)
                 EPS.right_on = false.
Proof. repeat split. Qed.

(** One historical closing rank 20,000 and candidate rank 25,000: on the
    statistics row the estimator answers 0.0, whereas a standard deviation
    of 10% of the mean (what the default of [get] would supply were the
    label absent) gives a value above 0. *)
Example single_observation_run :
  EPS.probability exp_approx 25000
    (EPS.rank_stats (fun x => x) [20000]) = 0.
Proof. reflexivity. Qed.

Lemma default_deviation_is_positive (np_exp : Q -> Q) :
  (forall z, 0 <= np_exp z) ->
  0 < EPS.probability np_exp 25000
        {| EPS.closing_rank_mean := Some (Num 20000);
           EPS.closing_rank_std := None |}.
Proof.
  intro Hexp. rewrite probability_std_label_absent by reflexivity.
  apply sigmoid_range, Hexp.
Qed.

(** ** Overall probability of an offer *)

Lemma py_max_list_in (xs : list Q) (x : Q) : In (py_max_list x xs) (x :: xs).
Proof.
  revert x. induction xs as [|y ys IH]; intro x; cbn; [now left|].
  destruct (IH (py_max x y)) as [H|H]; [|now right; right].
  unfold py_max_list in H; rewrite <- H.
  unfold py_max. destruct (Qltb x y); [right|]; now left.
Qed.

Lemma py_max_list_lower (xs : list Q) (x : Q) : x <= py_max_list x xs.
Proof.
  revert x. induction xs as [|y ys IH]; intro x; cbn; [lra|].
  specialize (IH (py_max x y)). unfold py_max_list in *. cbn.
  destruct (py_max_spec x y) as [[? E]|[? E]]; rewrite E in *; lra.
Qed.

Lemma py_max_list_upper (xs : list Q) (x : Q) :
  Forall (fun y => y <= py_max_list x xs) (x :: xs).
Proof.
  revert x. induction xs as [|y ys IH]; intro x.
  - repeat constructor. cbn. lra.
  - constructor; [apply py_max_list_lower|].
    specialize (IH (py_max x y)).
    change (py_max_list x (y :: ys)) with (py_max_list (py_max x y) ys).
    inversion IH as [|? ? Hhd Htl]; subst.
    constructor; [|assumption].
    assert (y <= py_max x y)
      by (destruct (py_max_spec x y) as [[? E]|[? E]]; rewrite E; lra).
    lra.
Qed.

Lemma numbers_all (xs : list pyfloat) :
  Forall (fun x => isna x = false) xs -> exists qs, numbers xs = Some qs.
Proof.
  induction 1 as [|x xs Hx _ [qs IH]]; [now exists []|].
  destruct x as [|q]; [discriminate|].
  cbn. rewrite IH. now eexists.
Qed.

Lemma dict_get_in_values {V : Type} (d : list (string * V)) (k : string) (v : V) :
  dict_get String.eqb d k = Some v -> In v (dict_values d).
Proof.
  induction d as [|[k' v'] t IH]; cbn; [discriminate|].
  destruct (String.eqb k k').
  - intros [= ->]. now left.
  - intro H. right. now apply IH.
Qed.

(** Observable part of the non-empty case. *)
Lemma calculate_admission_probabilities_nonempty
      (u : Z) (kc : string * pyfloat) (rest : list (string * pyfloat))
      (ad : admission_data) :
  calculate_admission_probabilities u (kc :: rest) = Some ad ->
  overall_probability ad
  = py_max_list (calculate_round_probability u (snd kc))
                (map (calculate_round_probability u) (dict_values rest)).
Proof.
  unfold calculate_admission_probabilities.
  match goal with
  | |- context [match ?p with NaN => None | Num _ => _ end] => destruct p
  end; [discriminate|].
  intros [= <-]. cbn. unfold dict_values. now rewrite !map_map.
Qed.

(** A result is returned whenever the closing ranks are numbers. *)
Lemma calculate_admission_probabilities_returns
      (u : Z) (closing_ranks : list (string * pyfloat)) :
  Forall (fun c => isna c = false) (dict_values closing_ranks) ->
  exists ad, calculate_admission_probabilities u closing_ranks = Some ad.
Proof.
  intro Hnum. destruct closing_ranks as [|kc rest]; [now eexists|].
  unfold calculate_admission_probabilities.
  match goal with
  | |- context [match ?p with NaN => None | Num _ => _ end] =>
      destruct p as [|q] eqn:Ep
  end; [|now eexists].
  exfalso.
  assert (Hfallback :
            mean_of_floats (dict_values (kc :: rest)) <> NaN).
  { unfold mean_of_floats.
    destruct (numbers_all _ Hnum) as [qs ->]. discriminate. }
  cbn [dict_keys map] in Ep.
  destruct (str_truthy _); [|contradiction].
  destruct (dict_get _ _ _) as [c|] eqn:Eg; [|contradiction].
  apply dict_get_in_values in Eg.
  rewrite Forall_forall in Hnum. specialize (Hnum _ Eg).
  subst c. discriminate.
Qed.

(** C4.  With no historical closing rank the result has overall probability
    0.05 and predicted closing rank candidate rank + 5,000.  With at least
    one, the overall probability of the result is the maximum of the
    per-observation probabilities of [calculate_round_probability]: it is
    one of them and none exceeds it; and a result is returned whenever the
    closing ranks are numbers. *)
Theorem calculate_admission_probabilities_overall
        (u : Z) (closing_ranks : list (string * pyfloat)) :
  let probs :=
    map (calculate_round_probability u) (dict_values closing_ranks) in
  (closing_ranks = [] ->
   exists ad,
     calculate_admission_probabilities u closing_ranks = Some ad /\
     overall_probability ad = 0.05 /\
     predicted_closing_rank ad = (u + 5000)%Z) /\
  (closing_ranks <> [] ->
   (forall ad,
       calculate_admission_probabilities u closing_ranks = Some ad ->
       In (overall_probability ad) probs /\
       Forall (fun p => p <= overall_probability ad) probs) /\
   (Forall (fun c => isna c = false) (dict_values closing_ranks) ->
    exists ad, calculate_admission_probabilities u closing_ranks = Some ad)).
Proof.
  intro probs. split.
  - intros ->. eexists. repeat split.
  - intro Hne. destruct closing_ranks as [|kc rest]; [contradiction|].
    split.
    + intros ad Had.
      apply calculate_admission_probabilities_nonempty in Had.
      subst probs. cbn [dict_values map]. rewrite Had.
      split; [apply py_max_list_in | apply py_max_list_upper].
    + apply calculate_admission_probabilities_returns.
Qed.

(** No history, and a history of three rounds, for candidate rank 25,000. *)
Lemma calculate_admission_probabilities_overall_witness :
  (exists ad,
      calculate_admission_probabilities 25000 [] = Some ad /\
      overall_probability ad = 0.05 /\
      predicted_closing_rank ad = 30000%Z) /\
  (exists ad,
      calculate_admission_probabilities 25000
        [("2023_R1"%string, Num 70000); ("2023_R2"%string, Num 35000);
         ("2024_R1"%string, Num 50000)] = Some ad /\
      overall_probability ad == 0.5).
Proof.
  split.
  - apply (calculate_admission_probabilities_overall 25000 []). reflexivity.
  - destruct (calculate_admission_probabilities_overall 25000
                [("2023_R1"%string, Num 70000); ("2023_R2"%string, Num 35000);
                 ("2024_R1"%string, Num 50000)]) as [_ H].
    destruct H as [_ [ad Had]]; [discriminate | repeat constructor |].
    exists ad. split; [exact Had|].
    vm_compute in Had. injection Had as <-. reflexivity.
Defined.

(** ** Stable sorting and the capped loops *)

Section SortFacts.
Context {A : Type} (ord : A -> A -> bool).

Let R (x y : A) : Prop := ord x y = true.

Lemma insert_sorted_perm (x : A) (l : list A) :
  Permutation (insert_sorted ord x l) (x :: l).
Proof.
  induction l as [|y t IH]; cbn; [reflexivity|].
  destruct (ord x y); [reflexivity|].
  rewrite IH. apply perm_swap.
Qed.

Lemma stable_sort_perm (l : list A) : Permutation (stable_sort ord l) l.
Proof.
  induction l as [|x t IH]; cbn; [reflexivity|].
  rewrite insert_sorted_perm. now constructor.
Qed.

Hypothesis ord_total : forall x y, ord x y = false -> ord y x = true.
Hypothesis ord_trans :
  forall x y z, ord x y = true -> ord y z = true -> ord x z = true.

Lemma insert_sorted_sorted (x : A) (l : list A) :
  StronglySorted R l -> StronglySorted R (insert_sorted ord x l).
Proof.
  induction 1 as [|y t Hs IH Hy]; cbn.
  - repeat constructor.
  - destruct (ord x y) eqn:E.
    + constructor; [now constructor|].
      constructor; [exact E|].
      eapply Forall_impl; [|exact Hy].
      intros z Hz. now apply ord_trans with y.
    + constructor; [exact IH|].
      eapply Permutation_Forall.
      * symmetry. apply insert_sorted_perm.
      * constructor; [now apply ord_total | exact Hy].
Qed.

Lemma stable_sort_sorted (l : list A) : StronglySorted R (stable_sort ord l).
Proof.
  induction l as [|x t IH]; cbn; [constructor|].
  now apply insert_sorted_sorted.
Qed.

End SortFacts.

Lemma StronglySorted_impl {A : Type} (R1 R2 : A -> A -> Prop) (l : list A) :
  (forall x y, R1 x y -> R2 x y) ->
  StronglySorted R1 l -> StronglySorted R2 l.
Proof.
  intro H. induction 1 as [|a t _ IH Ha]; constructor; [exact IH|].
  eapply Forall_impl; [|exact Ha]. intros b Hb. now apply H.
Qed.

Lemma sort_desc_by_perm {A : Type} (key : A -> Q) (l : list A) :
  Permutation (sort_desc_by key l) l.
Proof. apply stable_sort_perm. Qed.

Lemma sort_desc_by_sorted {A : Type} (key : A -> Q) (l : list A) :
  StronglySorted (fun x y => key y <= key x) (sort_desc_by key l).
Proof.
  eapply StronglySorted_impl.
  - intros x y H. apply Qle_bool_iff. exact H.
  - apply stable_sort_sorted.
    + intros x y H. apply Qle_bool_gt in H. apply Qle_bool_iff. lra.
    + intros x y z H1 H2. apply Qle_bool_iff in H1, H2.
      apply Qle_bool_iff. lra.
Qed.

Lemma sort_Z_perm (l : list Z) : Permutation (sort_Z l) l.
Proof. apply stable_sort_perm. Qed.

Lemma sort_Z_sorted (l : list Z) : StronglySorted Z.le (sort_Z l).
Proof.
  eapply StronglySorted_impl.
  - intros x y H. apply Z.leb_le. exact H.
  - apply stable_sort_sorted.
    + intros x y H. apply Z.leb_gt in H. apply Z.leb_le. lia.
    + intros x y z H1 H2. apply Z.leb_le in H1, H2. apply Z.leb_le. lia.
Qed.

Lemma sorted_NoDup_strict (l : list Z) :
  StronglySorted Z.le l -> NoDup l -> StronglySorted Z.lt l.
Proof.
  induction 1 as [|x t Hs IH Hx]; intro Hnd; [constructor|].
  inversion Hnd as [|? ? Hnin Hnd']; subst.
  constructor; [now apply IH|].
  rewrite Forall_forall in *. intros y Hy.
  specialize (Hx y Hy).
  assert (x <> y) by (intros ->; contradiction).
  lia.
Qed.

Lemma sort_Z_strict (l : list Z) :
  NoDup l -> StronglySorted Z.lt (sort_Z l).
Proof.
  intro Hnd. apply sorted_NoDup_strict; [apply sort_Z_sorted|].
  eapply Permutation_NoDup; [|exact Hnd].
  symmetry. apply sort_Z_perm.
Qed.

Lemma collect_capped_acc {A : Type} (cap : nat) (keep : A -> bool)
      (acc l : list A) :
  (List.length acc <= cap)%nat ->
  collect_capped cap keep acc l
  = acc ++ firstn (cap - List.length acc) (filter keep l).
Proof.
  revert acc. induction l as [|e t IH]; intros acc Hlen;
    cbn [collect_capped filter].
  - now rewrite firstn_nil, app_nil_r.
  - destruct (keep e); cbn [andb]; [|now apply IH].
    destruct (Nat.ltb_spec (List.length acc) cap) as [Hlt|Hge].
    + rewrite IH by (rewrite length_app; cbn; lia).
      rewrite length_app; cbn [List.length].
      replace (cap - List.length acc)%nat
        with (S (cap - (List.length acc + 1)))%nat by lia.
      cbn [firstn]. now rewrite <- app_assoc.
    + rewrite IH by assumption.
      replace (cap - List.length acc)%nat with 0%nat by lia.
      reflexivity.
Qed.

(** The capped loop keeps the first [cap] elements that pass the test. *)
Lemma collect_capped_spec {A : Type} (cap : nat) (keep : A -> bool)
      (l : list A) :
  collect_capped cap keep [] l = firstn cap (filter keep l).
Proof.
  rewrite collect_capped_acc by (cbn; lia).
  cbn. now rewrite Nat.sub_0_r.
Qed.

(** ** Cumulative probability by round *)

Lemma dict_set_fresh {V : Type} (d : round_dict V) (k : Z) (v : V) :
  ~ In k (dict_keys d) -> dict_set Z.eqb d k v = d ++ [(k, v)].
Proof.
  induction d as [|[k' v'] t IH]; cbn; intro Hnin; [reflexivity|].
  destruct (Z.eqb_spec k k') as [->|Hne].
  - exfalso. apply Hnin. now left.
  - rewrite IH; [reflexivity|]. intro H. apply Hnin. now right.
Qed.

Lemma dict_get_in {V : Type} (d : round_dict V) (k : Z) :
  In k (dict_keys d) -> exists v, dict_get Z.eqb d k = Some v.
Proof.
  induction d as [|[k' v'] t IH]; cbn; [contradiction|].
  intros [->|H].
  - rewrite Z.eqb_refl. now eexists.
  - destruct (Z.eqb k k'); [now eexists | now apply IH].
Qed.

Lemma dict_get_NoDup {V : Type} (d : round_dict V) (k : Z) (v : V) :
  NoDup (dict_keys d) -> In (k, v) d -> dict_get Z.eqb d k = Some v.
Proof.
  induction d as [|[k' v'] t IH]; cbn; [contradiction|].
  intros Hnd Hin. inversion Hnd as [|? ? Hnin Hnd']; subst.
  destruct Hin as [[= -> ->]|Hin].
  - now rewrite Z.eqb_refl.
  - destruct (Z.eqb_spec k k') as [->|Hne]; [|now apply IH].
    exfalso. apply Hnin. unfold dict_keys.
    change k' with (fst (k', v)). now apply in_map.
Qed.

Lemma cumulative_loop (round_probs : round_dict round_prediction)
      (ns : list Z) (acc : round_dict Q) (total : Q) :
  NoDup ns ->
  (forall n, In n ns -> ~ In n (dict_keys acc)) ->
  (forall n, In n ns -> In n (dict_keys round_probs)) ->
  fst (fold_left
         (fun st round_num =>
            let '(cumulative, total_prob) := st in
            match dict_get Z.eqb round_probs round_num with
            | Some data =>
                let round_prob := probability data in
                let total_prob := 1 - (1 - total_prob) * (1 - round_prob) in
                (dict_set Z.eqb cumulative round_num total_prob, total_prob)
            | None => (cumulative, total_prob)
            end)
         ns (acc, total))
  = acc ++ combine ns (running_totals total (map (prob_at round_probs) ns)).
Proof.
  revert acc total.
  induction ns as [|n ns IH]; intros acc total Hnd Hfresh Hin;
    cbn [fold_left map running_totals combine].
  - now rewrite app_nil_r.
  - inversion Hnd as [|? ? Hn Hnd']; subst.
    destruct (dict_get_in round_probs n (Hin n (or_introl eq_refl)))
      as [data Hdata].
    assert (Hp : prob_at round_probs n = probability data)
      by (unfold prob_at; now rewrite Hdata).
    rewrite Hdata, Hp. cbv zeta.
    rewrite dict_set_fresh by (apply Hfresh; now left).
    rewrite IH; [now rewrite <- app_assoc| assumption | |].
    + intros m Hm. unfold dict_keys. rewrite map_app, in_app_iff.
      intros [H|[H|[]]].
      * apply (Hfresh m); [now right | exact H].
      * cbn in H. subst m. contradiction.
    + intros m Hm. apply Hin. now right.
Qed.

Lemma cumulative_probabilities_unfold
      (round_probs : round_dict round_prediction) :
  NoDup (dict_keys round_probs) ->
  let ns := sort_Z (dict_keys round_probs) in
  _calculate_cumulative_probabilities round_probs
  = combine ns (running_totals 0 (map (prob_at round_probs) ns)).
Proof.
  intros Hnd ns. unfold _calculate_cumulative_probabilities.
  fold ns. rewrite cumulative_loop; [reflexivity| | |].
  - eapply Permutation_NoDup; [|exact Hnd]. symmetry. apply sort_Z_perm.
  - intros n _ [].
  - intros n Hn. eapply Permutation_in; [apply sort_Z_perm | exact Hn].
Qed.

Lemma running_totals_length (ps : list Q) (t : Q) :
  List.length (running_totals t ps) = List.length ps.
Proof.
  revert t. induction ps as [|p ps IH]; intro t; cbn; [reflexivity|].
  now rewrite IH.
Qed.

Lemma survival_app (ps qs : list Q) :
  survival (ps ++ qs) == survival ps * survival qs.
Proof.
  unfold survival.
  induction ps as [|p ps IH]; cbn [app fold_right]; [ring|].
  rewrite IH. ring.
Qed.

(** Every entry of the running totals is the closed form over the prefix
    that ends at its round. *)
Lemma running_totals_closed_form (f : Z -> Q) (ns : list Z) (t : Q)
      (N : Z) (c : Q) :
  In (N, c) (combine ns (running_totals t (map f ns))) ->
  exists pre post,
    ns = pre ++ N :: post /\
    c == 1 - (1 - t) * survival (map f (pre ++ [N])).
Proof.
  revert t.
  induction ns as [|n ns IH]; intro t;
    cbn [map running_totals combine In]; [contradiction|].
  intros [[= <- <-]|H].
  - exists [], ns. split; [reflexivity|].
    unfold survival. cbn [app map fold_right]. ring.
  - destruct (IH _ H) as (pre & post & -> & Hc).
    exists (n :: pre), post. split; [reflexivity|].
    rewrite Hc. unfold survival. cbn [app map fold_right]. ring.
Qed.

Lemma strict_prefix_filter (pre post : list Z) (N : Z) :
  StronglySorted Z.lt (pre ++ N :: post) ->
  filter (fun n => (n <=? N)%Z) (pre ++ N :: post) = pre ++ [N].
Proof.
  induction pre as [|a pre IH]; cbn [app]; intro Hs.
  - cbn. rewrite Z.leb_refl. f_equal.
    inversion Hs as [|? ? _ Hall]; subst. clear Hs.
    induction Hall as [|b post Hb _ IHp]; [reflexivity|].
    cbn. destruct (Z.leb_spec b N); [lia|]. exact IHp.
  - inversion Hs as [|? ? Hs' Hall]; subst.
    cbn [filter]. rewrite Forall_forall in Hall.
    assert (a < N)%Z by (apply Hall, in_elt).
    destruct (Z.leb_spec a N); [|lia].
    cbn [app]. f_equal. now apply IH.
Qed.

Lemma Permutation_filter_same {A : Type} (f : A -> bool) (l l' : list A) :
  Permutation l l' -> Permutation (filter f l) (filter f l').
Proof.
  induction 1 as [|x l l' _ IH|x y l|l l' l'' _ IH1 _ IH2]; cbn.
  - constructor.
  - destruct (f x); [now constructor | exact IH].
  - destruct (f x), (f y); try reflexivity. apply perm_swap.
  - now transitivity (filter f l').
Qed.

Lemma survival_perm (ps qs : list Q) :
  Permutation ps qs -> survival ps == survival qs.
Proof.
  unfold survival.
  induction 1 as [|x l l' _ IH|x y l|l l' l'' _ IH1 _ IH2];
    cbn [fold_right].
  - reflexivity.
  - rewrite IH. reflexivity.
  - ring.
  - now rewrite IH1.
Qed.

Lemma filter_keys {V : Type} (f : Z -> bool) (d : round_dict V) :
  filter f (dict_keys d) = dict_keys (filter (fun e => f (fst e)) d).
Proof.
  unfold dict_keys.
  induction d as [|[k v] t IH]; cbn; [reflexivity|].
  destruct (f k); cbn; now rewrite IH.
Qed.

Lemma prob_at_keys (round_probs d : round_dict round_prediction) :
  NoDup (dict_keys round_probs) ->
  incl d round_probs ->
  map (prob_at round_probs) (dict_keys d)
  = map (fun e => probability (snd e)) d.
Proof.
  intros Hnd Hincl. unfold dict_keys. rewrite map_map.
  apply map_ext_in. intros [k v] Hin. cbn.
  unfold prob_at. now rewrite (dict_get_NoDup round_probs k v Hnd (Hincl _ Hin)).
Qed.

(** The value stored for round [N] is the specification's closed form. *)
Lemma cumulative_value (round_probs : round_dict round_prediction)
      (N : Z) (c : Q) :
  NoDup (dict_keys round_probs) ->
  In (N, c) (_calculate_cumulative_probabilities round_probs) ->
  c == cumulative_by_round round_probs N.
Proof.
  intros Hnd Hin.
  rewrite cumulative_probabilities_unfold in Hin by assumption.
  cbv zeta in Hin.
  destruct (running_totals_closed_form _ _ _ _ _ Hin)
    as (pre & post & Hns & Hc).
  rewrite Hc. unfold cumulative_by_round.
  assert (Hstrict : StronglySorted Z.lt (pre ++ N :: post)).
  { rewrite <- Hns. now apply sort_Z_strict. }
  rewrite <- (strict_prefix_filter pre post N Hstrict), <- Hns.
  assert (Hperm :
            Permutation
              (map (prob_at round_probs)
                   (filter (fun n => (n <=? N)%Z)
                           (sort_Z (dict_keys round_probs))))
              (map (fun e => probability (snd e))
                   (filter (fun e => (fst e <=? N)%Z) round_probs))).
  { rewrite <- (prob_at_keys round_probs) by
        (assumption || (intros e He; apply filter_In in He; tauto)).
    rewrite <- (filter_keys (fun n => (n <=? N)%Z)).
    apply Permutation_map, Permutation_filter_same, sort_Z_perm. }
  rewrite (survival_perm _ _ Hperm). ring.
Qed.

Lemma survival_range (ps : list Q) :
  Forall (fun p => 0 <= p <= 1) ps -> 0 <= survival ps <= 1.
Proof.
  unfold survival.
  induction 1 as [|p ps Hp _ IH]; cbn [fold_right]; [lra|].
  set (s := fold_right (fun p acc => (1 - p) * acc) 1 ps) in *.
  nra.
Qed.

(** Keeping more rounds can only lower the product. *)
Lemma survival_filter_antitone
      (d : round_dict round_prediction) (f g : Z * round_prediction -> bool) :
  Forall (fun e => 0 <= probability (snd e) <= 1) d ->
  (forall e, f e = true -> g e = true) ->
  0 <= survival (map (fun e => probability (snd e)) (filter g d))
    <= survival (map (fun e => probability (snd e)) (filter f d)) /\
  survival (map (fun e => probability (snd e)) (filter f d)) <= 1.
Proof.
  intros Hd Hfg. unfold survival.
  induction Hd as [|e d He _ IH]; cbn [filter map fold_right]; [lra|].
  destruct (f e) eqn:Ef.
  - rewrite (Hfg e Ef). cbn [map fold_right].
    set (s1 := fold_right _ 1 (map _ (filter f d))) in *.
    set (s2 := fold_right _ 1 (map _ (filter g d))) in *.
    nra.
  - destruct (g e); cbn [map fold_right]; [|exact IH].
    set (s1 := fold_right _ 1 (map _ (filter f d))) in *.
    set (s2 := fold_right _ 1 (map _ (filter g d))) in *.
    nra.
Qed.

Lemma cumulative_by_round_monotone
      (round_probs : round_dict round_prediction) (N1 N2 : Z) :
  Forall (fun e => 0 <= probability (snd e) <= 1) round_probs ->
  (N1 <= N2)%Z ->
  cumulative_by_round round_probs N1 <= cumulative_by_round round_probs N2.
Proof.
  intros Hd Hle. unfold cumulative_by_round.
  destruct (survival_filter_antitone round_probs
              (fun e => (fst e <=? N1)%Z) (fun e => (fst e <=? N2)%Z) Hd)
    as [H _]; [|lra].
  intros e He. apply Z.leb_le in He. apply Z.leb_le. lia.
Qed.

Lemma cumulative_by_round_range
      (round_probs : round_dict round_prediction) (N : Z) :
  Forall (fun e => 0 <= probability (snd e) <= 1) round_probs ->
  0 <= cumulative_by_round round_probs N <= 1.
Proof.
  intro Hd. unfold cumulative_by_round.
  destruct (survival_filter_antitone round_probs
              (fun e => (fst e <=? N)%Z) (fun e => (fst e <=? N)%Z) Hd)
    as [H1 H2]; [auto | lra].
Qed.

Lemma combine_keys {V : Type} (ks : list Z) (vs : list V) :
  List.length ks = List.length vs -> dict_keys (combine ks vs) = ks.
Proof.
  unfold dict_keys. revert vs.
  induction ks as [|k ks IH]; intros [|v vs]; cbn; try discriminate;
    [reflexivity|].
  intros [= H]. now rewrite IH.
Qed.

(** The loop of [_calculate_cumulative_probabilities] in double precision
    stores the running totals of the rounded update. *)
Lemma cumulative_loop64 (round_probs : round_dict Binary64.round_prediction)
      (ns : list Z) (acc : round_dict float) (total : float) :
  NoDup ns ->
  (forall n, In n ns -> ~ In n (dict_keys acc)) ->
  (forall n, In n ns -> In n (dict_keys round_probs)) ->
  fst (fold_left
         (fun st round_num =>
            let '(cumulative, total_prob) := st in
            match dict_get Z.eqb round_probs round_num with
            | Some data =>
                let round_prob := Binary64.probability data in
                let total_prob :=
                  (1 - (1 - total_prob) * (1 - round_prob))%float in
                (dict_set Z.eqb cumulative round_num total_prob, total_prob)
            | None => (cumulative, total_prob)
            end)
         ns (acc, total))
  = acc ++ combine ns (running_totals64 total (map (prob_at64 round_probs) ns)).
Proof.
  revert acc total.
  induction ns as [|n ns IH]; intros acc total Hnd Hfresh Hin;
    cbn [fold_left map running_totals64 combine].
  - now rewrite app_nil_r.
  - inversion Hnd as [|? ? Hn Hnd']; subst.
    destruct (dict_get_in round_probs n (Hin n (or_introl eq_refl)))
      as [data Hdata].
    assert (Hp : prob_at64 round_probs n = Binary64.probability data)
      by (unfold prob_at64; now rewrite Hdata).
    rewrite Hdata, Hp. cbv zeta.
    rewrite dict_set_fresh by (apply Hfresh; now left).
    rewrite IH; [now rewrite <- app_assoc| assumption | |].
    + intros m Hm. unfold dict_keys. rewrite map_app, in_app_iff.
      intros [H|[H|[]]].
      * apply (Hfresh m); [now right | exact H].
      * cbn in H. subst m. contradiction.
    + intros m Hm. apply Hin. now right.
Qed.

Lemma running_totals64_length (ps : list float) (t : float) :
  List.length (running_totals64 t ps) = List.length ps.
Proof.
  revert t. induction ps as [|p ps IH]; intro t; cbn; [reflexivity|].
  now rewrite IH.
Qed.

(** C6.  For a dictionary of per-round predictions (distinct rounds), the
    cumulative dictionary has one value per round, in ascending round
    order, and the value stored for round [N] is the result of the running
    update [total <- 1 - (1 - total) * (1 - p)] over the rounds up to [N],
    from 0.0, every operation rounded to double precision.  Without
    rounding the running update gives [1 - prod (1 - p_i)] over the rounds
    up to [N]; and when every per-round probability lies in [0, 1], the
    values are non-decreasing in the round number and lie in [0, 1]. *)
Theorem cumulative_probabilities_running_update
        (round_probs : round_dict round_prediction)
        (round_probs64 : round_dict Binary64.round_prediction) :
  NoDup (dict_keys round_probs) ->
  NoDup (dict_keys round_probs64) ->
  let ns64 := sort_Z (dict_keys round_probs64) in
  let ns := sort_Z (dict_keys round_probs) in
  let cumulative := _calculate_cumulative_probabilities round_probs in
  (Binary64._calculate_cumulative_probabilities round_probs64
   = combine ns64 (running_totals64 0 (map (prob_at64 round_probs64) ns64)) /\
   dict_keys (Binary64._calculate_cumulative_probabilities round_probs64)
   = ns64) /\
  (cumulative
   = combine ns (running_totals 0 (map (prob_at round_probs) ns)) /\
   forall N c,
     In (N, c) (combine ns (running_totals 0 (map (prob_at round_probs) ns)))
     -> c == cumulative_by_round round_probs N) /\
  (Forall (fun e => 0 <= probability (snd e) <= 1) round_probs ->
   (forall N1 c1 N2 c2,
       In (N1, c1) cumulative -> In (N2, c2) cumulative ->
       (N1 <= N2)%Z -> c1 <= c2) /\
   (forall N c, In (N, c) cumulative -> 0 <= c <= 1)).
Proof.
  intros Hnd Hnd64 ns64 ns cumulative.
  assert (H64 : Binary64._calculate_cumulative_probabilities round_probs64
                = combine ns64
                          (running_totals64
                             0 (map (prob_at64 round_probs64) ns64))).
  { unfold Binary64._calculate_cumulative_probabilities. fold ns64.
    rewrite cumulative_loop64; [reflexivity| | |].
    - eapply Permutation_NoDup; [|exact Hnd64]. symmetry. apply sort_Z_perm.
    - intros n _ [].
    - intros n Hn. eapply Permutation_in; [apply sort_Z_perm | exact Hn]. }
  assert (Hun : cumulative
                = combine ns (running_totals 0 (map (prob_at round_probs) ns)))
    by (apply cumulative_probabilities_unfold; exact Hnd).
  assert (Hval : forall N c, In (N, c) cumulative ->
                             c == cumulative_by_round round_probs N)
    by (intros N c; now apply cumulative_value).
  split; [|split].
  - split; [exact H64|]. rewrite H64. apply combine_keys.
    now rewrite running_totals64_length, length_map.
  - split; [exact Hun|]. rewrite <- Hun. exact Hval.
  - intro Hd. split.
    + intros N1 c1 N2 c2 H1 H2 Hle.
      rewrite (Hval _ _ H1), (Hval _ _ H2).
      now apply cumulative_by_round_monotone.
    + intros N c H. rewrite (Hval _ _ H).
      now apply cumulative_by_round_range.
Qed.

(** On [sample_unordered] the cumulative values in exact arithmetic are
    1/2, 5/8 and 7/10, by ascending round. *)
Example cumulative_probabilities_run :
  map (fun e => (fst e, Qred (snd e)))
      (_calculate_cumulative_probabilities sample_unordered)
  = [(1%Z, 1 # 2); (2%Z, 5 # 8); (3%Z, 7 # 10)].
Proof. reflexivity. Qed.

Lemma cumulative_probabilities_running_update_witness :
  dict_keys (Binary64._calculate_cumulative_probabilities sample_unordered64)
  = [1%Z; 2%Z; 3%Z] /\
  (forall N c,
      In (N, c) (_calculate_cumulative_probabilities sample_unordered) ->
      0 <= c <= 1).
Proof.
  assert (Hnd : NoDup (dict_keys sample_unordered)).
  { repeat constructor; cbn; intuition discriminate. }
  assert (Hnd64 : NoDup (dict_keys sample_unordered64)).
  { repeat constructor; cbn; intuition discriminate. }
  destruct (cumulative_probabilities_running_update
              sample_unordered sample_unordered64 Hnd Hnd64)
    as ((_ & Hkeys) & _ & Hrange).
  split; [exact Hkeys|].
  intros N c Hin.
  destruct Hrange as [_ Hrange].
  - repeat constructor; cbn; discriminate.
  - now apply (Hrange N c).
Defined.

(** C6 fails as stated: the stored value is not the closed form.  For one
    round of probability 0.1 the closed form is 0.1 and the code stores
    0.09999999999999998; for one round of probability 1/3 it stores
    0.33333333333333326, which is below the probability of that round. *)
Lemma cumulative_probability_is_rounded :
  Binary64._calculate_cumulative_probabilities
    [(1%Z, sample_round64 0.1%float)]
  = [(1%Z, 0.09999999999999998%float)] /\
  0.09999999999999998%float <> 0.1%float /\
  Binary64._calculate_cumulative_probabilities
    [(1%Z, sample_round64 (1 / 3)%float)]
  = [(1%Z, 0.33333333333333326%float)] /\
  PrimFloat.ltb 0.33333333333333326%float (1 / 3)%float = true.
Proof.
  repeat split. intro H. vm_compute in H. discriminate.
Qed.

(** ** Optimal round *)

(** The loop of [_determine_optimal_round] ends either where it started,
    with no probability above the initial one, or at the first entry whose
    probability is the largest. *)
Lemma optimal_round_loop (l : round_dict round_prediction)
      (b0 : Q) (r0 : option Z) :
  let res :=
    fold_left
      (fun st item =>
         let '(best_prob, best_round) := st in
         let prob := probability (snd item) in
         if Qltb best_prob prob then (prob, Some (fst item))
         else (best_prob, best_round))
      l (b0, r0) in
  (forall e, In e l -> probability (snd e) <= fst res) /\
  ((res = (b0, r0) /\ forall e, In e l -> probability (snd e) <= b0) \/
   (exists pre e post,
       l = pre ++ e :: post /\
       res = (probability (snd e), Some (fst e)) /\
       b0 < probability (snd e) /\
       forall e', In e' pre -> probability (snd e') < probability (snd e))).
Proof.
  revert b0 r0. induction l as [|e t IH]; intros b0 r0; cbn [fold_left].
  - cbv zeta. split; [intros ? []|]. left. split; [reflexivity|intros ? []].
  - cbv zeta. destruct (Qltb b0 (probability (snd e))) eqn:E.
    + apply Qltb_lt in E.
      specialize (IH (probability (snd e)) (Some (fst e))). cbv zeta in IH.
      destruct IH as [Hall [[Hres Hle]|(pre & e1 & post & -> & Hres & Hlt & Hpre)]].
      * rewrite Hres in *. cbn [fst] in *. split.
        -- intros e' [<-|He']; [lra | now apply Hall].
        -- right. exists [], e, t. repeat split; auto. intros ? [].
      * rewrite Hres in *. cbn [fst] in *. split.
        -- intros e' [<-|He']; [lra | now apply Hall].
        -- right. exists (e :: pre), e1, post. repeat split; [lra|].
           intros e' [<-|He']; [lra | now apply Hpre].
    + apply Qltb_ge in E.
      specialize (IH b0 r0). cbv zeta in IH.
      destruct IH as [Hall [[Hres Hle]|(pre & e1 & post & -> & Hres & Hlt & Hpre)]].
      * rewrite Hres in *. cbn [fst] in *. split.
        -- intros e' [<-|He']; [lra | now apply Hall].
        -- left. split; [reflexivity|].
           intros e' [<-|He']; [lra | now apply Hle].
      * rewrite Hres in *. cbn [fst] in *. split.
        -- intros e' [<-|He']; [lra | now apply Hall].
        -- right. exists (e :: pre), e1, post. repeat split; [lra|].
           intros e' [<-|He']; [lra | now apply Hpre].
Qed.

Lemma strict_keys_after {V : Type} (pre post : round_dict V) (e e' : Z * V) :
  StronglySorted Z.lt (dict_keys (pre ++ e :: post)) ->
  In e' (e :: post) -> (fst e <= fst e')%Z.
Proof.
  unfold dict_keys. rewrite map_app. cbn [map].
  induction pre as [|a pre IH]; cbn [app map]; intro Hs.
  - inversion Hs as [|? ? _ Hall]; subst.
    intros [<-|Hin]; [lia|].
    rewrite Forall_forall in Hall.
    specialize (Hall (fst e') (in_map fst _ _ Hin)). lia.
  - inversion Hs; subst. now apply IH.
Qed.

(** C7, as the code has it.  For per-round predictions held in ascending
    round order (the order in which [_calculate_round_probabilities] enters
    them): when some probability is above 0 the optimal round is a round of
    maximal probability, and the lowest-numbered one among those; when no
    probability is above 0 no round is returned. *)
Theorem determine_optimal_round_first_maximum
        (round_probs : round_dict round_prediction) :
  StronglySorted Z.lt (dict_keys round_probs) ->
  let best := _determine_optimal_round round_probs in
  ((exists e, In e round_probs /\ 0 < probability (snd e)) ->
   exists r d,
     opt_round best = Some r /\
     In (r, d) round_probs /\
     opt_probability best = probability d /\
     forall r' d',
       In (r', d') round_probs ->
       probability d' <= probability d /\
       (probability d' == probability d -> (r <= r')%Z)) /\
  ((forall e, In e round_probs -> probability (snd e) <= 0) ->
   opt_round best = None).
Proof.
  intros Hs best. subst best. unfold _determine_optimal_round.
  pose proof (optimal_round_loop round_probs 0 None) as H. cbv zeta in H.
  destruct (fold_left _ round_probs (0, None)) as [best_prob best_round].
  destruct H as [Hall [[[= -> ->] Hle]|(pre & e & post & Hl & [= -> ->] & Hlt & Hpre)]].
  - split; [|reflexivity].
    intros (e & He & Hpos). specialize (Hle e He). lra.
  - cbn [fst] in Hall. split.
    + intros _. exists (fst e), (snd e). cbn [opt_round opt_probability].
      repeat split.
      * rewrite Hl, <- surjective_pairing. apply in_elt.
      * now apply (Hall (r', d')).
      * intro Heq. rewrite Hl in H, Hs.
        apply in_app_or in H. destruct H as [H|H].
        -- specialize (Hpre _ H). cbn [snd] in Hpre. lra.
        -- apply (strict_keys_after pre post e (r', d') Hs H).
    + intro Hle. specialize (Hle e).
      rewrite Hl in Hle. specialize (Hle (in_elt _ _ _)). lra.
Qed.

(** On [sample_tied] round 2 is returned. *)
Example determine_optimal_round_run :
  opt_round (_determine_optimal_round sample_tied) = Some 2%Z.
Proof. reflexivity. Qed.

Lemma determine_optimal_round_first_maximum_witness :
  exists r d,
    opt_round (_determine_optimal_round sample_tied) = Some r /\
    In (r, d) sample_tied /\
    forall r' d',
      In (r', d') sample_tied ->
      probability d' <= probability d /\
      (probability d' == probability d -> (r <= r')%Z).
Proof.
  assert (Hs : StronglySorted Z.lt (dict_keys sample_tied)).
  { repeat constructor. }
  destruct (determine_optimal_round_first_maximum sample_tied Hs) as [H _].
  destruct H as (r & d & Hr & Hin & _ & Hmax).
  - exists (1%Z, sample_round (1 # 4) High). split; [now left|reflexivity].
  - exists r, d. auto.
Defined.

(** C7 fails as stated: a non-empty set of predictions whose probabilities
    are all 0 has no optimal round. *)
Lemma determine_optimal_round_all_zero :
  sample_all_zero <> [] /\
  opt_round (_determine_optimal_round sample_all_zero) = None.
Proof. split; [discriminate | reflexivity]. Qed.

(** ** What [_calculate_round_probabilities] hands to the functions above *)

Lemma dict_set_keys {V : Type} (d : round_dict V) (k : Z) (v : V) :
  dict_keys (dict_set Z.eqb d k v)
  = if existsb (Z.eqb k) (dict_keys d) then dict_keys d
    else dict_keys d ++ [k].
Proof.
  unfold dict_keys.
  induction d as [|[k' v'] t IH]; cbn; [reflexivity|].
  destruct (Z.eqb k k'); cbn; [reflexivity|].
  rewrite IH. now destruct (existsb _ _).
Qed.

Lemma existsb_eqb_false (k : Z) (l : list Z) :
  existsb (Z.eqb k) l = false <-> ~ In k l.
Proof.
  split.
  - intros H Hin.
    assert (existsb (Z.eqb k) l = true)
      by (apply existsb_exists; exists k; split; [exact Hin | apply Z.eqb_refl]).
    congruence.
  - intro Hnin. destruct (existsb _ _) eqn:E; [|reflexivity].
    apply existsb_exists in E. destruct E as (x & Hx & Hk).
    apply Z.eqb_eq in Hk. subst x. contradiction.
Qed.

Lemma dict_set_NoDup {V : Type} (d : round_dict V) (k : Z) (v : V) :
  NoDup (dict_keys d) -> NoDup (dict_keys (dict_set Z.eqb d k v)).
Proof.
  intro Hnd. rewrite dict_set_keys.
  destruct (existsb _ _) eqn:E; [exact Hnd|].
  apply existsb_eqb_false in E.
  apply NoDup_app; [exact Hnd | repeat constructor; intros [] |].
  intros x Hx [<-|[]]. contradiction.
Qed.

Lemma dict_set_Forall {K V : Type} (eqb : K -> K -> bool)
      (P : K * V -> Prop) (d : list (K * V)) (k : K) (v : V) :
  (forall k', P (k', v)) -> Forall P d -> Forall P (dict_set eqb d k v).
Proof.
  intros Hv. induction 1 as [|[k' v'] t Hhd Htl IH]; cbn.
  - repeat constructor. apply Hv.
  - destruct (eqb k k'); constructor;
      first [apply Hv | assumption].
Qed.

Section Pipeline.
Variables np_exp np_sqrt : Q -> Q.

(** The invariant of the loop of [round_entries]. *)
Lemma round_entries_invariant
      (I : round_dict round_prediction -> Prop)
      (predicted_rank : Q) (round_analysis : round_dict round_stats) :
  I [] ->
  (forall d k v, I d -> 0 <= probability v <= 1 ->
                 I (dict_set Z.eqb d k v)) ->
  I (round_entries np_exp predicted_rank round_analysis).
Proof.
  intros H0 Hstep. unfold round_entries.
  generalize (@nil (Z * round_prediction)) H0.
  induction round_analysis as [|[n rd] t IH]; intros acc Hacc;
    cbn [fold_left]; [exact Hacc|].
  apply IH.
  destruct (success_probability rd); [|exact Hacc].
  apply Hstep; [exact Hacc|]. cbn [probability].
  apply py_clamp_bounds. lra.
Qed.

Lemma round_entries_NoDup (predicted_rank : Q)
      (round_analysis : round_dict round_stats) :
  NoDup (dict_keys (round_entries np_exp predicted_rank round_analysis)).
Proof.
  apply round_entries_invariant
    with (I := fun d => NoDup (dict_keys d)).
  - constructor.
  - intros d k v Hd _. now apply dict_set_NoDup.
Qed.

Lemma round_entries_range (predicted_rank : Q)
      (round_analysis : round_dict round_stats) :
  Forall (fun e => 0 <= probability (snd e) <= 1)
         (round_entries np_exp predicted_rank round_analysis).
Proof.
  apply round_entries_invariant
    with (I := Forall (fun e => 0 <= probability (snd e) <= 1)).
  - constructor.
  - intros d k v Hd Hv. now apply dict_set_Forall.
Qed.

Lemma round_entries_keys (predicted_rank : Q)
      (round_analysis : round_dict round_stats) :
  NoDup (dict_keys round_analysis) ->
  dict_keys (round_entries np_exp predicted_rank round_analysis)
  = dict_keys
      (filter (fun e => match success_probability (snd e) with
                        | Some _ => true
                        | None => false
                        end) round_analysis).
Proof.
  unfold round_entries.
  change (dict_keys (filter _ round_analysis))
    with (dict_keys (@nil (Z * round_prediction))
          ++ dict_keys
               (filter (fun e => match success_probability (snd e) with
                                 | Some _ => true
                                 | None => false
                                 end) round_analysis)).
  assert (Hfresh : forall n, In n (dict_keys round_analysis) ->
                             ~ In n (dict_keys (@nil (Z * round_prediction))))
    by (intros ? _ []).
  revert Hfresh. generalize (@nil (Z * round_prediction)).
  induction round_analysis as [|[n rd] t IH]; intros acc Hfresh Hnd;
    cbn [fold_left filter snd].
  - unfold dict_keys. cbn. now rewrite app_nil_r.
  - unfold dict_keys in Hnd. cbn [map fst] in Hnd.
    inversion Hnd as [|? ? Hn Hnd']; subst.
    destruct (success_probability rd).
    + rewrite IH; [| |exact Hnd'].
      * rewrite dict_set_keys.
        assert (E : existsb (Z.eqb n) (dict_keys acc) = false).
        { apply existsb_eqb_false. apply Hfresh. now left. }
        rewrite E. unfold dict_keys. cbn [map fst].
        now rewrite <- app_assoc.
      * intros m Hm. rewrite dict_set_keys.
        assert (Hacc : ~ In m (dict_keys acc)) by (apply Hfresh; now right).
        destruct (existsb _ _); [exact Hacc|].
        rewrite in_app_iff. intros [H|[<-|[]]]; contradiction.
    + apply IH; [|exact Hnd'].
      intros m Hm. apply Hfresh. now right.
Qed.

Lemma strict_keys_filter {V : Type} (f : Z * V -> bool) (d : round_dict V) :
  StronglySorted Z.lt (dict_keys d) ->
  StronglySorted Z.lt (dict_keys (filter f d)).
Proof.
  unfold dict_keys.
  induction d as [|e t IH]; cbn [map filter]; intro Hs; [constructor|].
  inversion Hs as [|? ? Hs' Hall]; subst.
  destruct (f e); [|now apply IH].
  cbn [map]. constructor; [now apply IH|].
  rewrite Forall_forall in *. intros k Hk. apply Hall.
  apply in_map_iff in Hk. destruct Hk as (e' & <- & He').
  apply filter_In in He'. now apply in_map.
Qed.

Lemma strict_NoDup (l : list Z) : StronglySorted Z.lt l -> NoDup l.
Proof.
  induction 1 as [|x t _ IH Hx]; constructor; [|exact IH].
  intro Hin. rewrite Forall_forall in Hx. specialize (Hx x Hin). lia.
Qed.

(** Rounds analysed in ascending order are entered in ascending order. *)
Lemma round_entries_ascending (predicted_rank : Q)
      (round_analysis : round_dict round_stats) :
  StronglySorted Z.lt (dict_keys round_analysis) ->
  StronglySorted Z.lt
    (dict_keys (round_entries np_exp predicted_rank round_analysis)).
Proof.
  intro Hs. rewrite round_entries_keys by now apply strict_NoDup.
  now apply strict_keys_filter.
Qed.

Lemma unique_incl (l : list Z) (x : Z) : In x (unique l) -> In x l.
Proof.
  induction l as [|y t IH]; cbn; [auto|].
  intros [->|H]; [now left|].
  apply filter_In in H. right. now apply IH.
Qed.

Lemma unique_NoDup (l : list Z) : NoDup (unique l).
Proof.
  induction l as [|x t IH]; cbn; constructor.
  - intro H. apply filter_In in H. destruct H as [_ H].
    now rewrite Z.eqb_refl in H.
  - now apply NoDup_filter.
Qed.

(** [_analyze_historical_rounds] analyses the rounds in ascending order. *)
Lemma analyze_historical_rounds_ascending
      (filtered_data : list observation) (candidate_air : Z) :
  StronglySorted Z.lt
    (dict_keys (_analyze_historical_rounds np_sqrt filtered_data candidate_air)).
Proof.
  unfold _analyze_historical_rounds, dict_keys.
  rewrite map_map. cbn [fst]. rewrite map_id.
  apply sort_Z_strict, unique_NoDup.
Qed.

(** The per-round predictions of the engine are entered in ascending round
    order, one per round, with probabilities in [0, 1]. *)
Lemma calculate_round_probabilities_rounds
      (predicted_rank : Q) (filtered_data : list observation)
      (candidate_air : Z) :
  let round_probs :=
    rounds (_calculate_round_probabilities np_exp predicted_rank
              (_analyze_historical_rounds np_sqrt filtered_data candidate_air)) in
  StronglySorted Z.lt (dict_keys round_probs) /\
  NoDup (dict_keys round_probs) /\
  Forall (fun e => 0 <= probability (snd e) <= 1) round_probs.
Proof.
  cbn [rounds _calculate_round_probabilities]. repeat split.
  - apply round_entries_ascending, analyze_historical_rounds_ascending.
  - apply round_entries_NoDup.
  - apply round_entries_range.
Qed.

Lemma success_probability_positive (candidate_air : Z) (ranks : list Q) :
  ranks <> [] -> 0 < _calculate_success_probability candidate_air ranks.
Proof.
  destruct ranks as [|r t]; [contradiction|]. intros _.
  unfold _calculate_success_probability.
  set (successes := List.length _). set (total := List.length (r :: t)).
  assert (H1 : 0 <= inject_Z (Z.of_nat successes))
    by (change 0 with (inject_Z 0); rewrite <- Zle_Qle; lia).
  assert (H2 : 0 <= inject_Z (Z.of_nat total))
    by (change 0 with (inject_Z 0); rewrite <- Zle_Qle; lia).
  apply Qlt_shift_div_l; lra.
Qed.

Hypothesis np_exp_pos : forall z, 0 < np_exp z.

Lemma round_entries_positive (predicted_rank : Q)
      (round_analysis : round_dict round_stats) :
  Forall (fun e => forall sp, success_probability (snd e) = Some sp -> 0 < sp)
         round_analysis ->
  Forall (fun e => 0 < probability (snd e))
         (round_entries np_exp predicted_rank round_analysis).
Proof.
  unfold round_entries.
  generalize (@nil (Z * round_prediction))
             (@Forall_nil (Z * round_prediction)
                          (fun e => 0 < probability (snd e))).
  induction round_analysis as [|[n rd] t IH]; intros acc Hacc Hsp;
    cbn [fold_left]; [exact Hacc|].
  inversion Hsp as [|? ? Hhd Htl]; subst. cbn [snd] in Hhd.
  apply IH; [|exact Htl].
  destruct (success_probability rd) as [base_prob|]; [|exact Hacc].
  specialize (Hhd base_prob eq_refl).
  apply dict_set_Forall; [|exact Hacc].
  intros _k. cbn [snd probability].
  match goal with
  | |- 0 < py_max 0 (py_min 1 ?adj) =>
      assert (Hadj : 0 < adj);
      [|destruct (py_min_spec 1 adj) as [[? ->]|[? ->]];
        [destruct (py_max_spec 0 adj) as [[? ->]|[? ->]]
        |destruct (py_max_spec 0 1) as [[? ->]|[? ->]]]; lra]
  end.
  destruct (Qltb 0 _); [|exact Hhd].
  apply Qmult_lt_0_compat; [exact Hhd | apply np_exp_pos].
Qed.

(** With a positive exponential every round of a non-empty history gets a
    probability above 0, so the engine itself reaches the answer "no round"
    only through an empty history. *)
Lemma engine_probabilities_positive
      (predicted_rank : Q) (filtered_data : list observation)
      (candidate_air : Z) :
  Forall (fun e => 0 < probability (snd e))
         (rounds (_calculate_round_probabilities np_exp predicted_rank
                    (_analyze_historical_rounds np_sqrt filtered_data
                                                candidate_air))).
Proof.
  cbn [rounds _calculate_round_probabilities].
  apply round_entries_positive.
  unfold _analyze_historical_rounds. apply Forall_map.
  rewrite Forall_forall. intros n Hn sp. cbn [snd success_probability].
  intros [= <-]. apply success_probability_positive.
  apply (Permutation_in _ (sort_Z_perm _)) in Hn.
  apply unique_incl, in_map_iff in Hn. destruct Hn as (o & Ho & Hin).
  intro Hnil.
  assert (Hmem : In (closing_rank o)
                    (map closing_rank
                         (filter (fun o => (round o =? n)%Z) filtered_data))).
  { apply in_map, filter_In. split; [exact Hin|]. now apply Z.eqb_eq. }
  rewrite Hnil in Hmem. contradiction.
Qed.

End Pipeline.

(** ** Confidence level and interval *)

Lemma prediction_confidence_cases (years : Z) (std mean : Q)
      (median sp : option Q) :
  0 < mean ->
  let round_data :=
    {| mean_closing_rank := Some mean;
       median_closing_rank := median;
       std_closing_rank := Some std;
       years_with_data := Some years;
       success_probability := sp |} in
  let cv := std / mean in
  (_calculate_prediction_confidence round_data = High <->
   (2 <= years)%Z /\ cv < 0.2) /\
  (_calculate_prediction_confidence round_data = Medium <->
   ((1 <= years)%Z /\ cv < 0.4) /\ ~ ((2 <= years)%Z /\ cv < 0.2)) /\
  (_calculate_prediction_confidence round_data = Low <->
   ~ ((1 <= years)%Z /\ cv < 0.4)).
Proof.
  intros Hmean round_data cv.
  unfold _calculate_prediction_confidence, round_data.
  cbn [years_with_data std_closing_rank mean_closing_rank]. cbv zeta.
  apply Qltb_lt in Hmean. rewrite Hmean. fold cv.
  destruct (Z.leb_spec 2 years) as [Hy2|Hy2];
    destruct (Z.leb_spec 1 years) as [Hy1|Hy1];
    destruct (Qltb cv 0.2) eqn:E2;
    destruct (Qltb cv 0.4) eqn:E4;
    bool_facts; cbn [andb];
    intuition (first [discriminate | reflexivity | lia | lra]).
Qed.

(** Filling a dictionary from entries with distinct, new keys appends them
    in order. *)
Lemma dict_fill_fresh {U V : Type} (g : Z * U -> V) (l : round_dict U)
      (acc : round_dict V) :
  NoDup (dict_keys l) ->
  (forall k, In k (dict_keys l) -> ~ In k (dict_keys acc)) ->
  fold_left (fun d item => dict_set Z.eqb d (fst item) (g item)) l acc
  = acc ++ map (fun item => (fst item, g item)) l.
Proof.
  unfold dict_keys at 1 2.
  revert acc. induction l as [|e t IH]; intros acc Hnd Hfresh;
    cbn [fold_left map].
  - now rewrite app_nil_r.
  - cbn [map] in Hnd, Hfresh. inversion Hnd as [|? ? Hn Hnd']; subst.
    rewrite dict_set_fresh by (apply Hfresh; now left).
    rewrite IH; [now rewrite <- app_assoc | exact Hnd' |].
    intros k Hk. unfold dict_keys. rewrite map_app, in_app_iff.
    intros [H|[<-|[]]]; [|contradiction].
    apply (Hfresh k); [now right | exact H].
Qed.

Lemma confidence_intervals_unfold (round_probs : round_dict round_prediction) :
  NoDup (dict_keys round_probs) ->
  _calculate_confidence_intervals round_probs
  = map (fun item =>
           (fst item,
            {| lower_bound :=
                 py_max 0 (probability (snd item)
                           - margin_for (confidence (snd item)));
               upper_bound :=
                 py_min 1 (probability (snd item)
                           + margin_for (confidence (snd item)));
               margin_of_error := margin_for (confidence (snd item));
               confidence_level_of := confidence (snd item) |}))
        round_probs.
Proof.
  intro Hnd. unfold _calculate_confidence_intervals. cbv zeta.
  rewrite (dict_fill_fresh
             (fun item : Z * round_prediction =>
                {| lower_bound :=
                     py_max 0 (probability (snd item)
                               - margin_for (confidence (snd item)));
                   upper_bound :=
                     py_min 1 (probability (snd item)
                               + margin_for (confidence (snd item)));
                   margin_of_error := margin_for (confidence (snd item));
                   confidence_level_of := confidence (snd item) |}));
    [reflexivity | exact Hnd | intros ? _ []].
Qed.

(** C8.  For a history with a positive mean closing rank, the confidence is
    High exactly when there are at least 2 years of data and std/mean is
    below 0.2, Medium exactly when there is at least 1 year and std/mean is
    below 0.4 while High does not apply, and Low otherwise.  Every round gets
    an interval whose margin is 0.05 for High, 0.10 for Medium and 0.15 for
    Low, whose lower bound is the probability minus the margin raised to at
    least 0 and whose upper bound is the probability plus the margin lowered
    to at most 1. *)
Theorem confidence_level_and_interval
        (years : Z) (std mean : Q) (median sp : option Q)
        (round_probs : round_dict round_prediction) :
  0 < mean ->
  NoDup (dict_keys round_probs) ->
  let round_data :=
    {| mean_closing_rank := Some mean;
       median_closing_rank := median;
       std_closing_rank := Some std;
       years_with_data := Some years;
       success_probability := sp |} in
  let cv := std / mean in
  let intervals := _calculate_confidence_intervals round_probs in
  (_calculate_prediction_confidence round_data = High <->
   (2 <= years)%Z /\ cv < 0.2) /\
  (_calculate_prediction_confidence round_data = Medium <->
   ((1 <= years)%Z /\ cv < 0.4) /\ ~ ((2 <= years)%Z /\ cv < 0.2)) /\
  (_calculate_prediction_confidence round_data = Low <->
   ~ ((1 <= years)%Z /\ cv < 0.4)) /\
  dict_keys intervals = dict_keys round_probs /\
  (forall n ci,
      In (n, ci) intervals ->
      exists data,
        In (n, data) round_probs /\
        confidence_level_of ci = confidence data /\
        margin_of_error ci = match confidence data with
                             | High => 0.05
                             | Medium => 0.10
                             | Low => 0.15
                             end /\
        lower_bound ci = py_max 0 (probability data - margin_of_error ci) /\
        upper_bound ci = py_min 1 (probability data + margin_of_error ci) /\
        0 <= lower_bound ci /\ upper_bound ci <= 1 /\
        (0 <= probability data <= 1 ->
         lower_bound ci <= probability data <= upper_bound ci)).
Proof.
  intros Hmean Hnd round_data cv intervals.
  destruct (prediction_confidence_cases years std mean median sp Hmean)
    as (HH & HM & HL).
  split; [exact HH|]. split; [exact HM|]. split; [exact HL|].
  subst intervals. rewrite confidence_intervals_unfold by assumption.
  split.
  - unfold dict_keys. rewrite map_map. reflexivity.
  - intros n ci Hin. apply in_map_iff in Hin.
    destruct Hin as ([n' data] & [= <- <-] & Hin).
    exists data. cbn [fst snd lower_bound upper_bound margin_of_error
                        confidence_level_of].
    split; [exact Hin|]. split; [reflexivity|].
    split; [now destruct (confidence data)|].
    split; [reflexivity|]. split; [reflexivity|].
    assert (Hm : 0 < margin_for (confidence data))
      by (destruct (confidence data); reflexivity).
    set (m := margin_for (confidence data)) in *.
    set (p := probability data).
    destruct (py_max_spec 0 (p - m)) as [[? ->]|[? ->]];
      destruct (py_min_spec 1 (p + m)) as [[? ->]|[? ->]];
      repeat split; intros; lra.
Qed.

(** Scenario 5 of the specification (closing ranks 20,000 and 22,000:
    mean 21,000, standard deviation 1,000) and one round of probability
    0.98 held with High confidence. *)
Lemma confidence_level_and_interval_witness :
  _calculate_prediction_confidence
    {| mean_closing_rank := Some 21000;
       median_closing_rank := Some 21000;
       std_closing_rank := Some 1000;
       years_with_data := Some 2%Z;
       success_probability := Some (1 # 2) |} = High /\
  dict_keys (_calculate_confidence_intervals [(1%Z, sample_round 0.98 High)])
  = [1%Z].
Proof.
  destruct (confidence_level_and_interval
              2 1000 21000 (Some 21000) (Some (1 # 2))
              [(1%Z, sample_round 0.98 High)])
    as (HH & _ & _ & Hkeys & _).
  - reflexivity.
  - repeat constructor. intros [].
  - split; [|exact Hkeys].
    apply HH. split; [lia | reflexivity].
Defined.

(** ** Counseling strategy *)

Lemma sorted_head_max {A : Type} (key : A -> Q) (best : A) (tail l : list A) :
  sort_desc_by key l = best :: tail ->
  forall e, In e l -> key e <= key best.
Proof.
  intros Hs e He.
  pose proof (sort_desc_by_sorted key l) as Hsorted.
  pose proof (sort_desc_by_perm key l) as Hperm.
  rewrite Hs in Hsorted, Hperm.
  apply Permutation_sym in Hperm.
  apply (Permutation_in _ Hperm) in He.
  inversion Hsorted as [|? ? _ Hall]; subst.
  destruct He as [<-|He]; [lra|].
  rewrite Forall_forall in Hall. now apply Hall.
Qed.

(** C9.  For a non-empty set of scored rounds, let [best] be the head of
    the list sorted by descending probability (so its probability [bestP]
    is the largest) and let the threshold be max(0.3, bestP * 0.5).  The
    priority group is the first 3 entries, in descending order of
    probability, among those with p >= threshold; the backup group is the
    first 2 among those with 0.1 <= p < threshold; and the approach is
    "Aggressive" when bestP >= 0.7, "Balanced" when 0.4 <= bestP < 0.7 and
    "Conservative" otherwise. *)
Theorem counseling_strategy_groups
        (round_probs : round_dict round_prediction) :
  round_probs <> [] ->
  let s := _generate_counseling_strategy round_probs in
  let sorted := sort_desc_by prob_of (scored_rounds round_probs) in
  exists best tail threshold,
    sorted = best :: tail /\
    Permutation sorted (scored_rounds round_probs) /\
    StronglySorted (fun x y => prob_of y <= prob_of x) sorted /\
    (forall e, In e (scored_rounds round_probs) ->
               prob_of e <= prob_of best) /\
    (0.3 <= threshold /\ prob_of best * 0.5 <= threshold /\
     (threshold = 0.3 \/ threshold = prob_of best * 0.5)) /\
    priority_rounds s
    = firstn 3 (filter (fun e => Qle_bool threshold (prob_of e)) sorted) /\
    backup_options s
    = firstn 2 (filter (fun e => Qle_bool 0.1 (prob_of e)
                                 && Qltb (prob_of e) threshold) sorted) /\
    (0.7 <= prob_of best ->
     recommended_approach s
     = "Aggressive - Focus on preferred choices"%string) /\
    (0.4 <= prob_of best < 0.7 ->
     recommended_approach s
     = "Balanced - Mix of preferred and safe choices"%string) /\
    (prob_of best < 0.4 ->
     recommended_approach s
     = "Conservative - Focus on safety options"%string).
Proof.
  intros Hne s sorted.
  pose proof (sort_desc_by_perm prob_of (scored_rounds round_probs)) as Hperm.
  pose proof (sort_desc_by_sorted prob_of (scored_rounds round_probs))
    as Hsorted.
  fold sorted in Hperm, Hsorted.
  destruct sorted as [|best tail] eqn:Es.
  { apply Permutation_nil in Hperm.
    destruct round_probs; [contradiction | discriminate]. }
  exists best, tail, (py_max 0.3 (prob_of best * 0.5)).
  split; [reflexivity|]. split; [exact Hperm|]. split; [exact Hsorted|].
  split; [now apply (sorted_head_max prob_of best tail)|].
  split.
  { destruct (py_max_spec 0.3 (prob_of best * 0.5)) as [[? ->]|[? ->]];
      repeat split; auto; lra. }
  subst s. unfold _generate_counseling_strategy.
  fold (scored_rounds round_probs). fold sorted. rewrite Es.
  destruct (Qle_bool 0.7 (prob_of best)) eqn:E7;
    [|destruct (Qle_bool 0.4 (prob_of best)) eqn:E4];
    bool_facts;
    cbn [priority_rounds backup_options recommended_approach];
    rewrite !collect_capped_spec;
    repeat split; intros; try reflexivity; exfalso; lra.
Qed.

(** On [sample_four] rounds 2 and 4 are the priority group, rounds 1 and 3
    the backup group, and the approach is the aggressive one. *)
Lemma counseling_strategy_groups_witness :
  map round_of (priority_rounds (_generate_counseling_strategy sample_four))
  = [2%Z; 4%Z] /\
  map round_of (backup_options (_generate_counseling_strategy sample_four))
  = [1%Z; 3%Z] /\
  recommended_approach (_generate_counseling_strategy sample_four)
  = "Aggressive - Focus on preferred choices"%string.
Proof.
  destruct (counseling_strategy_groups sample_four)
    as (best & tail & threshold & Hs & _ & _ & _ & Ht & Hp & Hb & Ha & _);
    [discriminate|].
  vm_compute in Hs. injection Hs as <- <-.
  destruct Ht as (_ & Hhalf & [-> | ->]).
  - exfalso. vm_compute in Hhalf. now apply Hhalf.
  - split; [|split].
    + rewrite Hp. reflexivity.
    + rewrite Hb. reflexivity.
    + apply Ha. vm_compute. discriminate.
Defined.

(** ** The prediction list *)

Lemma py_round3_floor (q : Q) :
  exists n, py_round3 q = n # 1000 /\ (Qfloor (q * 1000) <= n)%Z.
Proof.
  unfold py_round3. cbv zeta.
  destruct (Qltb _ (1 # 2)); [eexists; split; [reflexivity|lia]|].
  destruct (Qltb (1 # 2) _); [eexists; split; [reflexivity|lia]|].
  destruct (Z.even _); eexists; split; try reflexivity; lia.
Qed.

(** Rounding to three decimals does not take a value below 0.05. *)
Lemma py_round3_keeps_floor (q : Q) : 0.05 <= q -> 0.05 <= py_round3 q.
Proof.
  intro Hq.
  destruct (py_round3_floor q) as (n & -> & Hn).
  assert (H50 : (50 <= Qfloor (q * 1000))%Z).
  { change 50%Z with (Qfloor (inject_Z 50)).
    apply Qfloor_resp_le. unfold inject_Z. lra. }
  unfold Qle. cbn. lia.
Qed.

Lemma StronglySorted_firstn {A : Type} (R : A -> A -> Prop) (n : nat)
      (l : list A) :
  StronglySorted R l -> StronglySorted R (firstn n l).
Proof.
  revert n. induction l as [|x t IH]; intros [|n] Hs; cbn;
    try constructor.
  - inversion Hs; subst. now apply IH.
  - inversion Hs as [|? ? _ Hall]; subst.
    rewrite Forall_forall in *. intros y Hy. apply Hall.
    rewrite <- (firstn_skipn n t). apply in_or_app. now left.
Qed.

Lemma firstn_In {A : Type} (n : nat) (l : list A) (x : A) :
  In x (firstn n l) -> In x l.
Proof.
  intro H. rewrite <- (firstn_skipn n l). apply in_or_app. now left.
Qed.

(** A filter that raises nothing keeps the rows that pass it. *)
Lemma apply_filter_In (re_valid : string -> bool)
      (re_search : string -> string -> bool)
      (data : list row) (pat : string) (cell : row -> option string)
      (rows rows' : list row) (r : row) :
  apply_filter re_valid re_search data pat cell rows = Some rows' ->
  (In r rows' <-> In r rows /\ passes_filter re_search pat cell r).
Proof.
  unfold apply_filter, passes_filter.
  destruct pat as [|a pat'] eqn:Ep; cbn [str_truthy].
  - intros [= <-]. split; [intro H; split; auto | tauto].
  - destruct (str_accessor_ok data cell && re_valid _); [|discriminate].
    intros [= <-].
    rewrite filter_In. split; intros [Hin H]; (split; [exact Hin|]).
    + right. destruct (cell r) as [s|]; [|discriminate]. now exists s.
    + destruct H as [H|(s & -> & H)]; [discriminate | exact H].
Qed.

Lemma apply_filter_usable (re_valid : string -> bool)
      (re_search : string -> string -> bool)
      (data : list row) (pat : string) (cell : row -> option string)
      (rows : list row) :
  filter_usable re_valid data pat cell ->
  exists rows', apply_filter re_valid re_search data pat cell rows = Some rows'.
Proof.
  unfold apply_filter, filter_usable.
  intros [-> | [Hs Hv]]; [now eexists|].
  rewrite Hs, Hv. destruct (str_truthy pat); now eexists.
Qed.

(** The rows that the four filters keep. *)
Lemma filter_rows_In (re_valid : string -> bool)
      (re_search : string -> string -> bool)
      (data : list row) (q : user_inputs) (rows : list row) (r : row) :
  filter_rows re_valid re_search data q = Some rows ->
  In r rows ->
  In r data /\
  passes_filter re_search (category q) Category r /\
  passes_filter re_search (state q) State r /\
  passes_filter re_search (course q) Course r /\
  passes_filter re_search (quota q) Quota r.
Proof.
  unfold filter_rows.
  destruct (apply_filter _ _ data (category q) Category data)
    as [d1|] eqn:E1; [|discriminate].
  destruct (apply_filter _ _ data (state q) State d1)
    as [d2|] eqn:E2; [|discriminate].
  destruct (apply_filter _ _ data (course q) Course d2)
    as [d3|] eqn:E3; [|discriminate].
  intros E4 Hin.
  apply (apply_filter_In _ _ _ _ _ _ _ r E4) in Hin. destruct Hin as [Hin Hq].
  apply (apply_filter_In _ _ _ _ _ _ _ r E3) in Hin. destruct Hin as [Hin Hc].
  apply (apply_filter_In _ _ _ _ _ _ _ r E2) in Hin. destruct Hin as [Hin Hs].
  apply (apply_filter_In _ _ _ _ _ _ _ r E1) in Hin. destruct Hin as [Hin Hcat].
  repeat split; assumption.
Qed.

Section PredictionList.
Variable round_key_of_column : string -> option string.
Variable re_search : string -> string -> bool.

Lemma predict_rows_from_row (q : user_inputs) (rows : list row)
      (ps : list prediction) :
  predict_rows round_key_of_column q rows = Some ps ->
  Forall (from_row round_key_of_column q rows) ps.
Proof.
  revert ps. induction rows as [|r t IH]; intros ps; cbn [predict_rows].
  - intros [= <-]. constructor.
  - unfold predict_row at 1.
    destruct (calculate_admission_probabilities _ _) as [ad|] eqn:Ead;
      [|discriminate].
    assert (Htail : forall ps',
               Forall (from_row round_key_of_column q t) ps' ->
               Forall (from_row round_key_of_column q (r :: t)) ps').
    { intros ps' H. eapply Forall_impl; [|exact H].
      intros p (r' & ad' & Hin & H1 & H2 & H3).
      exists r', ad'. repeat split; auto. now right. }
    destruct (Qltb (overall_probability ad) 0.05) eqn:E.
    + destruct (predict_rows _ q t) as [ps'|]; [|discriminate].
      intros [= <-]. now apply Htail, IH.
    + destruct (calculate_enhanced_recommendation_score _ _ _ _);
        [|discriminate].
      destruct (predict_rows _ q t) as [ps'|]; [|discriminate].
      intros [= <-]. constructor; [|now apply Htail, IH].
      exists r, ad. apply Qltb_ge in E.
      repeat split; auto. now left.
Qed.

End PredictionList.

Section PredictColleges.
Variable round_key_of_column : string -> option string.
Variable re_valid : string -> bool.
Variable re_search : string -> string -> bool.

(** [extract_round_data] keeps closing ranks that are numbers only. *)
Lemma extract_round_data_numbers (r : row) :
  Forall (fun c => isna c = false)
         (dict_values (extract_round_data round_key_of_column r)).
Proof.
  unfold dict_values. apply Forall_map.
  unfold extract_round_data.
  generalize (@nil (string * pyfloat))
             (@Forall_nil (string * pyfloat) (fun kv => isna (snd kv) = false)).
  induction (CR r) as [|[col v] t IH]; intros acc Hacc; cbn [fold_left];
    [exact Hacc|].
  apply IH.
  destruct (notna v && float_gt v 0) eqn:E; [|exact Hacc].
  destruct (round_key_of_column col); [|exact Hacc].
  apply dict_set_Forall; [|exact Hacc].
  intros k'. cbn. apply andb_prop in E. destruct E as [E _].
  unfold notna in E. now apply negb_true_iff in E.
Qed.

Lemma predict_row_returns (q : user_inputs) (r : row) :
  (1 <= air q)%Z -> State r <> None ->
  exists o, predict_row round_key_of_column q r = Some o.
Proof.
  intros Hair Hstate. unfold predict_row.
  destruct (calculate_admission_probabilities_returns
              (air q) _ (extract_round_data_numbers r)) as [ad ->].
  destruct (Qltb _ 0.05); [now eexists|].
  unfold calculate_enhanced_recommendation_score.
  destruct (State r) as [st|]; [|contradiction].
  destruct (Z.leb_spec (air q) (predicted_closing_rank ad)).
  - destruct (Z.eqb_spec (predicted_closing_rank ad) 0); [lia|].
    now eexists.
  - now eexists.
Qed.

Lemma predict_rows_returns (q : user_inputs) (rows : list row) :
  (1 <= air q)%Z -> Forall (fun r => State r <> None) rows ->
  exists ps, predict_rows round_key_of_column q rows = Some ps.
Proof.
  intro Hair. induction 1 as [|r t Hr _ [ps IH]]; cbn [predict_rows].
  - now eexists.
  - destruct (predict_row_returns q r Hair Hr) as [o ->].
    rewrite IH. now eexists.
Qed.

(** C10.  Whenever [predict_colleges] returns a prediction list, the list
    has at most 50 entries, is sorted in non-increasing order of
    recommendation score, and every entry comes from a data row whose
    overall admission probability is at least 0.05, which its rounded
    [admission_probability] is too.  A list is returned for every candidate
    rank of at least 1 when the rows have a state and none of the four
    filters raises: each filter string is empty, or its column holds
    strings and its pattern compiles. *)
Theorem predict_colleges_top_predictions (data : list row) (q : user_inputs) :
  (forall predictions,
      predict_colleges round_key_of_column re_valid re_search data q
      = Predictions predictions ->
      (List.length predictions <= 50)%nat /\
      StronglySorted
        (fun a b => recommendation_score b <= recommendation_score a)
        predictions /\
      Forall (fun p => from_row round_key_of_column q data p /\
                       0.05 <= admission_probability p) predictions) /\
  ((1 <= air q)%Z -> Forall (fun r => State r <> None) data ->
   filter_usable re_valid data (category q) Category ->
   filter_usable re_valid data (state q) State ->
   filter_usable re_valid data (course q) Course ->
   filter_usable re_valid data (quota q) Quota ->
   exists predictions,
     predict_colleges round_key_of_column re_valid re_search data q
     = Predictions predictions).
Proof.
  unfold predict_colleges.
  split.
  - intros predictions.
    destruct (filter_rows re_valid re_search data q)
      as [filtered_data|] eqn:Ef; [|discriminate].
    assert (Hincl : forall r, In r filtered_data -> In r data).
    { intros r Hr. now apply (filter_rows_In _ _ _ _ _ r Ef). }
    destruct filtered_data as [|r0 rest].
    { intros [= <-]. split; [cbn; lia|]. split; constructor. }
    destruct (predict_rows _ q (r0 :: rest)) as [ps|] eqn:Eps;
      [|discriminate].
    intro H.
    assert (E : predictions
                = firstn max_predictions
                         (sort_desc_by recommendation_score ps))
      by congruence.
    clear H. subst predictions.
    split; [apply (firstn_le_length max_predictions)|].
    split; [apply StronglySorted_firstn, sort_desc_by_sorted|].
    apply predict_rows_from_row in Eps.
    rewrite Forall_forall in *. intros p Hp.
    apply firstn_In in Hp.
    apply (Permutation_in _ (sort_desc_by_perm _ _)) in Hp.
    destruct (Eps p Hp) as (r & ad & Hr & Had & Hov & Hadm).
    split.
    + exists r, ad. repeat split; auto.
    + rewrite Hadm. now apply py_round3_keeps_floor.
  - intros Hair Hstate Hcat Hst Hco Hqu.
    assert (Hf : exists filtered_data,
               filter_rows re_valid re_search data q = Some filtered_data).
    { unfold filter_rows.
      destruct (apply_filter_usable re_valid re_search data _ _ data Hcat)
        as [d1 ->].
      destruct (apply_filter_usable re_valid re_search data _ _ d1 Hst)
        as [d2 ->].
      destruct (apply_filter_usable re_valid re_search data _ _ d2 Hco)
        as [d3 ->].
      apply (apply_filter_usable re_valid re_search data _ _ d3 Hqu). }
    destruct Hf as [filtered_data Ef]. rewrite Ef.
    destruct filtered_data as [|r0 rest]; [now eexists|].
    destruct (predict_rows_returns q (r0 :: rest) Hair) as [ps ->];
      [|now eexists].
    rewrite Forall_forall in *. intros r Hr.
    apply Hstate. now apply (filter_rows_In _ _ _ _ _ r Ef).
Qed.

End PredictColleges.

(** The sample run: the first row is kept with probability 0.905 and score
    0.728 (in exact arithmetic), the second is dropped (its probability is
    0.01). *)
Example predict_colleges_run :
  match predict_colleges (fun col => Some col) (fun _ => true)
                         (fun _ _ => true) sample_rows sample_query with
  | Predictions ps =>
      map (fun p => (institute p, Qred (admission_probability p),
                     Qred (recommendation_score p), pred_closing_rank p)) ps
  | Error => []
  end = [("A"%string, 181 # 200, 91 # 125, 24000%Z)].
Proof. reflexivity. Qed.

(** A filter on a column without any string, and a filter whose pattern
    does not compile, end in the error answer. *)
Example predict_colleges_filter_errors :
  predict_colleges (fun col => Some col) (fun _ => true) str_in
                   [sample_row_without_state] sample_filtered_query
  = Error /\
  predict_colleges (fun col => Some col) (fun _ => false) str_in
                   sample_rows sample_filtered_query
  = Error.
Proof. split; reflexivity. Qed.

Lemma predict_colleges_top_predictions_witness :
  exists predictions,
    predict_colleges (fun col => Some col) (fun _ => true) (fun _ _ => true)
                     sample_rows sample_query
    = Predictions predictions /\
    (List.length predictions <= 50)%nat.
Proof.
  destruct (predict_colleges_top_predictions
              (fun col => Some col) (fun _ => true) (fun _ _ => true)
              sample_rows sample_query) as [Hlist Hreturns].
  destruct Hreturns as [predictions Hp];
    try (left; reflexivity).
  - cbn. lia.
  - repeat constructor; discriminate.
  - exists predictions. split; [exact Hp|]. apply (Hlist predictions Hp).
Defined.

(* ================================================================== *)
(** * Further properties of the code *)
(* ================================================================== *)

(** ** Rounding *)

Lemma py_round3_half_even (q : Q) :
  py_round3 q = round_half_even (q * 1000) # 1000.
Proof. reflexivity. Qed.

Lemma py_round0_half_even (q : Q) : py_round0 q = inject_Z (round_half_even q).
Proof. reflexivity. Qed.

Lemma round_half_even_cases (s : Q) :
  let f := Qfloor s in
  (s - inject_Z f < 1 # 2 /\ round_half_even s = f) \/
  (1 # 2 < s - inject_Z f /\ round_half_even s = (f + 1)%Z) \/
  (s - inject_Z f == 1 # 2 /\
   round_half_even s = if Z.even f then f else (f + 1)%Z).
Proof.
  intro f. unfold round_half_even. fold f.
  destruct (Qltb (s - inject_Z f) (1 # 2)) eqn:E1; bool_facts; [now left|].
  destruct (Qltb (1 # 2) (s - inject_Z f)) eqn:E2; bool_facts.
  - right. now left.
  - right. right. split; [lra | reflexivity].
Qed.

Lemma Qfloor_bounds (s : Q) :
  inject_Z (Qfloor s) <= s < inject_Z (Qfloor s) + 1.
Proof.
  split; [apply Qfloor_le|].
  pose proof (Qlt_floor s) as H. rewrite inject_Z_plus in H. exact H.
Qed.

Lemma round_half_even_mono (x y : Q) :
  x <= y -> (round_half_even x <= round_half_even y)%Z.
Proof.
  intro Hxy.
  pose proof (Qfloor_resp_le _ _ Hxy) as Hf.
  pose proof (Qfloor_bounds x) as Hx. pose proof (Qfloor_bounds y) as Hy.
  destruct (Z.eq_dec (Qfloor x) (Qfloor y)) as [Heq|Hne].
  - destruct (round_half_even_cases x) as [[Hx1 ->]|[[Hx1 ->]|[Hx1 ->]]];
      destruct (round_half_even_cases y) as [[Hy1 ->]|[[Hy1 ->]|[Hy1 ->]]];
      cbv zeta in *; rewrite Heq in *;
      try destruct (Z.even (Qfloor y)); try lia; exfalso; lra.
  - assert (Hlt : (Qfloor x + 1 <= Qfloor y)%Z) by lia.
    destruct (round_half_even_cases x) as [[_ ->]|[[_ ->]|[_ ->]]];
      destruct (round_half_even_cases y) as [[_ ->]|[[_ ->]|[_ ->]]];
      cbv zeta; try destruct (Z.even (Qfloor x));
      try destruct (Z.even (Qfloor y)); lia.
Qed.

Lemma round_half_even_Z (k : Z) : round_half_even (inject_Z k) = k.
Proof.
  destruct (round_half_even_cases (inject_Z k)) as [[_ H]|[[H _]|[H _]]];
    cbv zeta in *; rewrite Qfloor_Z in *; [exact H | lra | lra].
Qed.

Lemma py_round3_mono (x y : Q) : x <= y -> py_round3 x <= py_round3 y.
Proof.
  intro H. rewrite !py_round3_half_even.
  assert (Hm : (round_half_even (x * 1000) <= round_half_even (y * 1000))%Z)
    by (apply round_half_even_mono; lra).
  unfold Qle. cbn. lia.
Qed.

(** A multiple of 1/1000 is left as it is. *)
Lemma py_round3_milli (k : Z) : py_round3 (k # 1000) == k # 1000.
Proof.
  rewrite py_round3_half_even.
  assert (H : (k # 1000) * 1000 == inject_Z k).
  { unfold Qeq, inject_Z. cbn. lia. }
  assert (E : round_half_even ((k # 1000) * 1000) = k).
  { apply Z.le_antisymm.
    - rewrite <- (round_half_even_Z k) at 2. apply round_half_even_mono. lra.
    - rewrite <- (round_half_even_Z k) at 1. apply round_half_even_mono. lra. }
  now rewrite E.
Qed.

Lemma py_round3_between (lo hi : Z) (q : Q) :
  lo # 1000 <= q <= hi # 1000 -> lo # 1000 <= py_round3 q <= hi # 1000.
Proof.
  intros [H1 H2]. split.
  - rewrite <- (py_round3_milli lo). now apply py_round3_mono.
  - rewrite <- (py_round3_milli hi). now apply py_round3_mono.
Qed.

Lemma py_round0_mono (x y : Q) : x <= y -> py_round0 x <= py_round0 y.
Proof.
  intro H. rewrite !py_round0_half_even. rewrite <- Zle_Qle.
  now apply round_half_even_mono.
Qed.

(** ** Dictionaries with any key *)

Section DictFacts.
Context {K V : Type} (eqb : K -> K -> bool).
Hypothesis eqb_eq : forall a b, eqb a b = true <-> a = b.

Lemma dict_set_In (d : list (K * V)) (k k' : K) (v v' : V) :
  In (k', v') (dict_set eqb d k v) ->
  (k' = k /\ v' = v) \/ In (k', v') d.
Proof.
  induction d as [|[k0 v0] t IH]; cbn.
  - intros [[= <- <-]|[]]. now left.
  - destruct (eqb k k0) eqn:E.
    + apply eqb_eq in E. subst k0.
      intros [[= <- <-]|H]; [now left | right; now right].
    + intros [H|H]; [right; now left|].
      destruct (IH H) as [H'|H']; [now left | right; now right].
Qed.

Lemma dict_set_keys_incl (d : list (K * V)) (k k' : K) (v : V) :
  In k' (dict_keys (dict_set eqb d k v)) -> k' = k \/ In k' (dict_keys d).
Proof.
  unfold dict_keys.
  induction d as [|[k0 v0] t IH]; cbn.
  - intros [<-|[]]. now left.
  - destruct (eqb k k0) eqn:E; cbn.
    + intros [<-|H]; right; [now left | now right].
    + intros [<-|H]; [right; now left|].
      destruct (IH H) as [H'|H']; [now left | right; now right].
Qed.

Lemma dict_set_NoDup_keys (d : list (K * V)) (k : K) (v : V) :
  NoDup (dict_keys d) -> NoDup (dict_keys (dict_set eqb d k v)).
Proof.
  unfold dict_keys.
  induction d as [|[k0 v0] t IH]; cbn; intro Hnd.
  - repeat constructor. intros [].
  - inversion Hnd as [|? ? Hn Hnd']; subst.
    destruct (eqb k k0) eqn:E; cbn; [exact Hnd|].
    constructor; [|now apply IH].
    intro Hin. apply dict_set_keys_incl in Hin.
    destruct Hin as [->|Hin]; [|contradiction].
    assert (eqb k k = true) by now apply eqb_eq.
    congruence.
Qed.

Lemma dict_get_In (d : list (K * V)) (k : K) (v : V) :
  NoDup (dict_keys d) -> In (k, v) d -> dict_get eqb d k = Some v.
Proof.
  unfold dict_keys.
  induction d as [|[k0 v0] t IH]; cbn; [contradiction|].
  intros Hnd Hin. inversion Hnd as [|? ? Hn Hnd']; subst.
  destruct Hin as [[= -> ->]|Hin].
  - assert (E : eqb k k = true) by now apply eqb_eq. now rewrite E.
  - destruct (eqb k k0) eqn:E; [|now apply IH].
    apply eqb_eq in E. subst k0. exfalso. apply Hn.
    change k with (fst (k, v)). now apply in_map.
Qed.

Lemma dict_get_Some_In (d : list (K * V)) (k : K) (v : V) :
  dict_get eqb d k = Some v -> In (k, v) d.
Proof.
  induction d as [|[k0 v0] t IH]; cbn; [discriminate|].
  destruct (eqb k k0) eqn:E.
  - apply eqb_eq in E. subst k0. intros [= ->]. now left.
  - intro H. right. now apply IH.
Qed.

End DictFacts.

(** ** The piecewise estimate depends on the distance only *)

Lemma decay_compat (d1 d2 : Q) : d1 == d2 -> decay d1 == decay d2.
Proof.
  intro H. apply Qle_antisym; apply decay_antitone; lra.
Qed.

(** X1.  The estimate is the same for two candidate ranks that lie equally
    far from the closing rank, one better and one worse than it. *)
Theorem calculate_round_probability_mirror (c : Q) (r1 r2 : Z) :
  inject_Z r1 - c == c - inject_Z r2 ->
  calculate_round_probability r1 (Num c)
  == calculate_round_probability r2 (Num c).
Proof.
  intro H.
  assert (Hd : rank_diff r1 c == rank_diff r2 c).
  { unfold rank_diff. rewrite H.
    rewrite <- (Qabs_opp (inject_Z r2 - c)).
    apply Qabs_wd. ring. }
  apply Qle_antisym; apply calculate_round_probability_antitone; lra.
Qed.

(** Closing rank 30,000: candidates 20,000 and 40,000 get the same value. *)
Lemma calculate_round_probability_mirror_witness :
  calculate_round_probability 20000 (Num 30000)
  == calculate_round_probability 40000 (Num 30000).
Proof.
  apply (calculate_round_probability_mirror 30000 20000 40000). reflexivity.
Defined.

(** ** Closing ranks extracted from a row *)

Section ExtractFacts.
Variable round_key_of_column : string -> option string.

Lemma extract_round_data_fold
      (all cells acc : list (string * pyfloat)) :
  incl cells all ->
  (NoDup (dict_keys acc) /\
   forall k v, In (k, v) acc ->
               exists col c,
                 In (col, Num c) all /\
                 round_key_of_column col = Some k /\ v = Num c /\ 0 < c) ->
  let res :=
    fold_left
      (fun closing_ranks cell =>
         let '(col, v) := cell in
         if notna v && float_gt v 0 then
           match round_key_of_column col with
           | Some round_key => dict_set String.eqb closing_ranks round_key v
           | None => closing_ranks
           end
         else closing_ranks)
      cells acc in
  NoDup (dict_keys res) /\
  forall k v, In (k, v) res ->
              exists col c,
                In (col, Num c) all /\
                round_key_of_column col = Some k /\ v = Num c /\ 0 < c.
Proof.
  revert acc.
  induction cells as [|[col v] t IH]; intros acc Hcells Hacc;
    cbn [fold_left]; [exact Hacc|].
  apply IH; [intros cell Hc; apply Hcells; now right|].
  destruct v as [|c]; [exact Hacc|].
  cbn [notna isna negb andb float_gt].
  destruct (Qltb 0 c) eqn:E; [|exact Hacc]. apply Qltb_lt in E.
  destruct (round_key_of_column col) as [key|] eqn:Ek; [|exact Hacc].
  destruct Hacc as [Hnd Hin]. split.
  - apply dict_set_NoDup_keys; [apply String.eqb_eq | exact Hnd].
  - intros k v Hkv.
    apply (dict_set_In String.eqb String.eqb_eq) in Hkv.
    destruct Hkv as [[-> ->]|Hkv]; [|now apply Hin].
    exists col, c. repeat split; auto. apply Hcells. now left.
Qed.

(** X2.  The closing ranks that [extract_round_data] takes from a row have
    distinct round keys, and each one is a positive number found in a
    closing-rank cell of the row whose column name gives its key. *)
Theorem extract_round_data_sound (r : row) :
  NoDup (dict_keys (extract_round_data round_key_of_column r)) /\
  (forall k v,
      In (k, v) (extract_round_data round_key_of_column r) ->
      exists col c,
        In (col, Num c) (CR r) /\
        round_key_of_column col = Some k /\
        v = Num c /\ 0 < c).
Proof.
  apply (extract_round_data_fold (CR r) (CR r) []).
  - apply incl_refl.
  - split; [constructor | intros ? ? []].
Qed.

Lemma extract_round_data_positive (r : row) :
  Forall (fun kv => exists c, snd kv = Num c /\ 0 < c)
         (extract_round_data round_key_of_column r).
Proof.
  destruct (extract_round_data_fold (CR r) (CR r) []) as [_ H].
  - apply incl_refl.
  - split; [constructor | intros ? ? []].
  - rewrite Forall_forall. intros [k v] Hin.
    destruct (H k v Hin) as (_ & c & _ & _ & -> & Hc). now exists c.
Qed.

End ExtractFacts.

(** ** Best round and predicted closing rank *)

(** The key chosen by [max(d, key=d.get)] has the value chosen by
    [max(d.values())]. *)
Lemma max_key_value (d l : list (string * Q)) (b0 : string) (v0 : Q) :
  NoDup (dict_keys d) -> incl l d ->
  dict_get String.eqb d b0 = Some v0 ->
  dict_get String.eqb d
    (fold_left
       (fun best k =>
          if Qltb (match dict_get String.eqb d best with
                   | Some v => v
                   | None => 0
                   end)
                  (match dict_get String.eqb d k with
                   | Some v => v
                   | None => 0
                   end)
          then k else best)
       (dict_keys l) b0)
  = Some (py_max_list v0 (dict_values l)).
Proof.
  intros Hnd. revert b0 v0. unfold dict_values, py_max_list.
  change (dict_keys l) with (map fst l).
  induction l as [|[k v] t IH]; intros b0 v0 Hincl Hb0;
    cbn [map fst snd fold_left].
  - exact Hb0.
  - assert (Hk : dict_get String.eqb d k = Some v).
    { apply (dict_get_In String.eqb String.eqb_eq); [exact Hnd|].
      apply Hincl. now left. }
    assert (Ht : incl t d) by (intros e He; apply Hincl; now right).
    rewrite Hb0, Hk.
    destruct (Qltb v0 v) eqn:E.
    + replace (py_max v0 v) with v by (unfold py_max; now rewrite E).
      now apply IH.
    + replace (py_max v0 v) with v0 by (unfold py_max; now rewrite E).
      now apply IH.
Qed.

(** X3.  For a non-empty dictionary of closing ranks (distinct keys), any
    result names a best round whose round probability is the overall
    probability; when that key is not the empty string, the predicted
    closing rank is the closing rank of that round, truncated to an
    integer. *)
Theorem best_round_gives_prediction
        (u : Z) (closing_ranks : list (string * pyfloat))
        (ad : admission_data) :
  NoDup (dict_keys closing_ranks) ->
  closing_ranks <> [] ->
  calculate_admission_probabilities u closing_ranks = Some ad ->
  exists b,
    best_round ad = Some b /\
    In b (dict_keys closing_ranks) /\
    dict_get String.eqb (round_probabilities ad) b
    = Some (overall_probability ad) /\
    (b <> ""%string ->
     exists c,
       dict_get String.eqb closing_ranks b = Some (Num c) /\
       predicted_closing_rank ad = py_int c /\
       calculate_round_probability u (Num c) = overall_probability ad).
Proof.
  intros Hnd Hne Had.
  destruct closing_ranks as [|[k0 c0] rest]; [contradiction|].
  set (cr := (k0, c0) :: rest) in *.
  set (rp := map (fun kc => (fst kc, calculate_round_probability u (snd kc)))
                 cr).
  assert (Hkeys : dict_keys rp = dict_keys cr)
    by (unfold rp, dict_keys; now rewrite map_map).
  assert (Hnd' : NoDup (dict_keys rp)) by now rewrite Hkeys.
  assert (Hbest : dict_get String.eqb rp (max_key rp k0)
                  = Some (py_max_list (calculate_round_probability u c0)
                                      (dict_values rp))).
  { unfold max_key.
    apply (max_key_value rp rp k0 (calculate_round_probability u c0) Hnd').
    - apply incl_refl.
    - unfold rp, cr. cbn. now rewrite String.eqb_refl. }
  assert (Hmax : py_max_list (calculate_round_probability u c0) (dict_values rp)
                 = py_max_list (calculate_round_probability u c0)
                               (List.tl (dict_values rp))).
  { unfold rp, cr. cbn. unfold py_max at 2.
    assert (E : Qltb (calculate_round_probability u c0)
                     (calculate_round_probability u c0) = false)
      by (apply Qltb_ge; lra).
    now rewrite E. }
  rewrite Hmax in Hbest.
  unfold calculate_admission_probabilities in Had. fold cr in Had.
  fold rp in Had. cbv zeta in Had.
  change (dict_keys rp) with (k0 :: dict_keys (List.tl rp)) in Had.
  change (dict_values rp)
    with (calculate_round_probability u c0 :: List.tl (dict_values rp)) in Had.
  cbv iota in Had.
  set (b := max_key rp k0) in *.
  assert (Hin : In (b, py_max_list (calculate_round_probability u c0)
                                   (List.tl (dict_values rp))) rp)
    by (now apply (dict_get_Some_In String.eqb String.eqb_eq)).
  assert (Hb : In b (dict_keys cr)).
  { rewrite <- Hkeys. unfold dict_keys.
    change b with (fst (b, py_max_list (calculate_round_probability u c0)
                                       (List.tl (dict_values rp)))).
    now apply in_map. }
  unfold rp in Hin. apply in_map_iff in Hin.
  destruct Hin as ([k c] & [= Hk Hc] & Hin). cbn [fst snd] in *. subst k.
  assert (Hget : dict_get String.eqb cr b = Some c)
    by (now apply (dict_get_In String.eqb String.eqb_eq)).
  unfold cr in Had at 1. cbv iota in Had.
  match type of Had with
  | match ?P with NaN => _ | Num _ => _ end = _ =>
      destruct P as [|p] eqn:E
  end; [discriminate|].
  injection Had as <-.
  exists b. cbn [best_round round_probabilities
                            overall_probability predicted_closing_rank].
  split; [reflexivity|]. split; [exact Hb|]. split; [exact Hbest|].
  intro Hb0.
  assert (Htr : str_truthy b = true)
    by (destruct b; [contradiction|reflexivity]).
  rewrite Htr, Hget in E. subst c.
  exists p. split; [exact Hget|]. split; [reflexivity|]. exact Hc.
Qed.

(** Candidate 25,000 against the three sample rounds: the best round is
    2023_R2 (closing rank 35,000). *)
Lemma best_round_gives_prediction_witness :
  exists ad b,
    calculate_admission_probabilities 25000 sample_closing_ranks = Some ad /\
    best_round ad = Some b /\
    dict_get String.eqb (round_probabilities ad) b
    = Some (overall_probability ad) /\
    predicted_closing_rank ad = 35000%Z.
Proof.
  destruct (calculate_admission_probabilities 25000 sample_closing_ranks)
    as [ad|] eqn:E; [|vm_compute in E; discriminate].
  destruct (best_round_gives_prediction 25000 sample_closing_ranks ad)
    as (b & Hb & _ & Hget & _).
  - repeat constructor; cbn; intuition discriminate.
  - discriminate.
  - exact E.
  - exists ad, b. repeat split; auto.
    vm_compute in E. injection E as <-. reflexivity.
Defined.

(** ** Probabilities along the prediction pipeline *)

Lemma calculate_round_probability_positive_rank (u : Z) (c : Q) :
  0 < c -> 0.01 <= calculate_round_probability u (Num c) <= 0.95.
Proof.
  intro Hc. rewrite calculate_round_probability_usable by lra.
  apply py_clamp_bounds. lra.
Qed.

(** Positive closing ranks give an overall probability in [0.01, 0.95]. *)
Lemma overall_probability_positive_ranks
      (u : Z) (closing_ranks : list (string * pyfloat)) (ad : admission_data) :
  Forall (fun kv => exists c, snd kv = Num c /\ 0 < c) closing_ranks ->
  calculate_admission_probabilities u closing_ranks = Some ad ->
  0.01 <= overall_probability ad <= 0.95.
Proof.
  intros Hpos Had.
  destruct closing_ranks as [|kc rest].
  - injection Had as <-. cbn. lra.
  - rewrite (calculate_admission_probabilities_nonempty u kc rest ad Had).
    pose proof (py_max_list_in
                  (map (calculate_round_probability u) (dict_values rest))
                  (calculate_round_probability u (snd kc))) as Hin.
    change (calculate_round_probability u (snd kc)
            :: map (calculate_round_probability u) (dict_values rest))
      with (map (calculate_round_probability u) (dict_values (kc :: rest)))
      in Hin.
    apply in_map_iff in Hin. destruct Hin as (v & <- & Hv).
    unfold dict_values in Hv. apply in_map_iff in Hv.
    destruct Hv as (kv & <- & Hkv).
    rewrite Forall_forall in Hpos.
    destruct (Hpos kv Hkv) as (c & -> & Hc).
    now apply calculate_round_probability_positive_rank.
Qed.

Section PipelineFacts.
Variable round_key_of_column : string -> option string.

(** X4.  For every data row and candidate rank, the closing ranks taken
    from the row give a result, and its overall probability lies between
    0.01 and 0.95. *)
Theorem row_overall_probability_range (r : row) (u : Z) :
  exists ad,
    calculate_admission_probabilities
      u (extract_round_data round_key_of_column r) = Some ad /\
    0.01 <= overall_probability ad <= 0.95.
Proof.
  destruct (calculate_admission_probabilities_returns
              u _ (extract_round_data_numbers round_key_of_column r))
    as [ad Had].
  exists ad. split; [exact Had|].
  eapply overall_probability_positive_ranks; [|exact Had].
  apply extract_round_data_positive.
Qed.

Lemma extract_round_data_unusable (r : row) :
  (forall col v,
      In (col, v) (CR r) ->
      v = NaN \/ (exists c, v = Num c /\ c <= 0) \/
      round_key_of_column col = None) ->
  extract_round_data round_key_of_column r = [].
Proof.
  unfold extract_round_data.
  induction (CR r) as [|[col v] t IH]; intro H; cbn [fold_left];
    [reflexivity|].
  assert (E : (if notna v && float_gt v 0
               then match round_key_of_column col with
                    | Some round_key =>
                        dict_set String.eqb (@nil (string * pyfloat))
                                 round_key v
                    | None => []
                    end
               else []) = []).
  { destruct (H col v (or_introl eq_refl)) as [->|[(c & -> & Hc)| ->]].
    - reflexivity.
    - cbn [notna isna negb andb float_gt].
      apply Qltb_ge in Hc. now rewrite Hc.
    - now destruct (notna v && float_gt v 0). }
  rewrite E. apply IH. intros col' v' Hin. apply H. now right.
Qed.

(** X5.  A row without any usable closing rank (every closing-rank cell is
    NaN, not above 0, or under a column name that gives no round key) is
    not dropped: for a candidate rank other than -5,000 and a row that has
    a state, its prediction has admission probability 0.05, predicted
    closing rank candidate rank + 5,000 and no most likely round. *)
Theorem row_without_ranks_is_kept (q : user_inputs) (r : row) :
  (forall col v,
      In (col, v) (CR r) ->
      v = NaN \/ (exists c, v = Num c /\ c <= 0) \/
      round_key_of_column col = None) ->
  State r <> None ->
  air q <> (-5000)%Z ->
  exists p,
    predict_row round_key_of_column q r = Some (Some p) /\
    admission_probability p == 0.05 /\
    pred_closing_rank p = (air q + 5000)%Z /\
    most_likely_round p = None.
Proof.
  intros Hcells Hstate Hair. unfold predict_row.
  rewrite (extract_round_data_unusable r Hcells).
  cbn [calculate_admission_probabilities overall_probability].
  replace (Qltb 0.05 0.05) with false by reflexivity.
  unfold calculate_enhanced_recommendation_score.
  cbn [predicted_closing_rank overall_probability best_round].
  destruct (State r) as [st|]; [|contradiction].
  destruct (Z.leb_spec (air q) (air q + 5000)); [|lia].
  destruct (Z.eqb_spec (air q + 5000) 0); [lia|].
  eexists. split; [reflexivity|].
  cbn [admission_probability pred_closing_rank most_likely_round].
  repeat split; reflexivity.
Qed.

End PipelineFacts.

Lemma row_without_ranks_is_kept_witness :
  exists p,
    predict_row (fun col => Some col) sample_query sample_row_without_ranks
    = Some (Some p) /\
    admission_probability p == 0.05 /\
    pred_closing_rank p = 30000%Z /\
    most_likely_round p = None.
Proof.
  apply (row_without_ranks_is_kept (fun col => Some col)
                                   sample_query sample_row_without_ranks).
  - intros col v [[= <- <-]|[[= <- <-]|[]]].
    + now left.
    + right. left. exists 0. split; [reflexivity|lra].
  - discriminate.
  - discriminate.
Defined.

(** ** The recommendation score *)

(** Case analysis on every test of a score computation. *)
Ltac split_tests :=
  repeat match goal with
         | |- context [match ?x with NaN => _ | Num _ => _ end] => destruct x
         | |- context [if ?b then _ else _] => destruct b
         end.

Lemma recommendation_score_clamped
      (r : row) (u : Z) (ad : admission_data) (st : string) (sc : Q) :
  calculate_enhanced_recommendation_score r u ad st = Some sc ->
  0 <= sc <= 1.
Proof.
  unfold calculate_enhanced_recommendation_score.
  destruct (u <=? predicted_closing_rank ad)%Z;
    [destruct (predicted_closing_rank ad =? 0)%Z; [discriminate|]|];
    (destruct (State r); [|discriminate]);
    intros [= <-]; apply py_clamp_bounds; lra.
Qed.

(** X6.  [calculate_enhanced_recommendation_score] raises exactly when the
    row has no state or the predicted closing rank is 0 with a candidate
    rank not above it; every score it returns lies in [0, 1]; and for the
    same row, candidate and predicted closing rank, a higher overall
    probability never gives a lower score. *)
Theorem recommendation_score_behaviour
        (r : row) (u : Z) (ad ad' : admission_data) (st : string) :
  (calculate_enhanced_recommendation_score r u ad st = None <->
   State r = None \/
   ((u <= predicted_closing_rank ad)%Z /\ predicted_closing_rank ad = 0%Z)) /\
  (forall sc,
      calculate_enhanced_recommendation_score r u ad st = Some sc ->
      0 <= sc <= 1) /\
  (predicted_closing_rank ad = predicted_closing_rank ad' ->
   overall_probability ad <= overall_probability ad' ->
   forall sc sc',
     calculate_enhanced_recommendation_score r u ad st = Some sc ->
     calculate_enhanced_recommendation_score r u ad' st = Some sc' ->
     sc <= sc').
Proof.
  split; [|split].
  - unfold calculate_enhanced_recommendation_score.
    destruct (Z.leb_spec u (predicted_closing_rank ad)) as [Hle|Hgt];
      [destruct (Z.eqb_spec (predicted_closing_rank ad) 0) as [He|Hne]|];
      destruct (State r);
      split; intro H; try discriminate; try reflexivity; auto;
      destruct H as [H|[H1 H2]]; try discriminate; try lia.
  - intros sc. apply recommendation_score_clamped.
  - intros Hpred Hle sc sc'.
    unfold calculate_enhanced_recommendation_score. rewrite <- Hpred.
    destruct (u <=? predicted_closing_rank ad)%Z;
      [destruct (predicted_closing_rank ad =? 0)%Z; [discriminate|]|];
      (destruct (State r); [|discriminate]);
      intros [= <-] [= <-]; (apply py_clamp_mono; [lra|]);
      cbv zeta; split_tests; lra.
Qed.

Lemma recommendation_score_behaviour_witness :
  exists sc sc',
    calculate_enhanced_recommendation_score
      sample_row_without_ranks 25000 (sample_admission 0.5) "" = Some sc /\
    calculate_enhanced_recommendation_score
      sample_row_without_ranks 25000 (sample_admission 0.9) "" = Some sc' /\
    sc <= sc' /\ 0 <= sc <= 1.
Proof.
  destruct (recommendation_score_behaviour
              sample_row_without_ranks 25000
              (sample_admission 0.5) (sample_admission 0.9) "")
    as (_ & Hrange & Hmono).
  destruct (calculate_enhanced_recommendation_score
              sample_row_without_ranks 25000 (sample_admission 0.5) "")
    as [sc|] eqn:E1; [|vm_compute in E1; discriminate].
  destruct (calculate_enhanced_recommendation_score
              sample_row_without_ranks 25000 (sample_admission 0.9) "")
    as [sc'|] eqn:E2; [|vm_compute in E2; discriminate].
  exists sc, sc'. repeat split; try reflexivity.
  - apply Hmono; auto. vm_compute. discriminate.
  - now apply Hrange.
  - now apply Hrange.
Defined.

(** ** The entries of the prediction list *)

Section PredictionEntries.
Variable round_key_of_column : string -> option string.
Variable re_valid : string -> bool.
Variable re_search : string -> string -> bool.

Lemma predict_rows_entries (q : user_inputs) (rows : list row)
      (ps : list prediction) :
  predict_rows round_key_of_column q rows = Some ps ->
  Forall (fun p => exists r, In r rows /\ built_from round_key_of_column q r p) ps.
Proof.
  revert ps. induction rows as [|r t IH]; intros ps; cbn [predict_rows].
  - intros [= <-]. constructor.
  - unfold predict_row at 1.
    destruct (calculate_admission_probabilities _ _) as [ad|] eqn:Ead;
      [|discriminate].
    assert (Htail : forall ps',
               Forall (fun p => exists r', In r' t /\ built_from round_key_of_column q r' p) ps' ->
               Forall (fun p => exists r', In r' (r :: t) /\ built_from round_key_of_column q r' p)
                      ps').
    { intros ps' H. eapply Forall_impl; [|exact H].
      intros p (r' & Hin & Hb). exists r'. split; [now right | exact Hb]. }
    destruct (Qltb (overall_probability ad) 0.05) eqn:E.
    + destruct (predict_rows _ q t) as [ps'|]; [|discriminate].
      intros [= <-]. now apply Htail, IH.
    + destruct (calculate_enhanced_recommendation_score _ _ _ _)
        as [sc|] eqn:Esc; [|discriminate].
      destruct (predict_rows _ q t) as [ps'|]; [|discriminate].
      intros [= <-]. constructor; [|now apply Htail, IH].
      exists r. split; [now left|].
      exists ad, sc. apply Qltb_ge in E. repeat split; auto.
Qed.

Lemma predict_colleges_entries (data : list row) (q : user_inputs)
      (predictions : list prediction) :
  predict_colleges round_key_of_column re_valid re_search data q
  = Predictions predictions ->
  exists filtered_data,
    filter_rows re_valid re_search data q = Some filtered_data /\
    Forall (fun p =>
              exists r,
                In r filtered_data /\
                built_from round_key_of_column q r p) predictions.
Proof.
  unfold predict_colleges.
  destruct (filter_rows re_valid re_search data q)
    as [filtered_data|] eqn:Ef; [|discriminate].
  intro H. exists filtered_data. split; [reflexivity|].
  destruct filtered_data as [|r0 rest].
  { assert (predictions = []) by congruence. subst. constructor. }
  destruct (predict_rows _ q (r0 :: rest)) as [ps|] eqn:Eps; [|discriminate].
  assert (E : predictions
              = firstn max_predictions (sort_desc_by recommendation_score ps))
    by congruence.
  clear H. subst predictions.
  apply predict_rows_entries in Eps.
  rewrite Forall_forall in *. intros p Hp.
  apply firstn_In in Hp.
  apply (Permutation_in _ (sort_desc_by_perm _ _)) in Hp.
  now apply Eps.
Qed.

(** X7.  Every entry of a prediction list returned by [predict_colleges]
    has an admission probability in [0.05, 0.95], a confidence score in
    [0.15, 0.95] and a recommendation score in [0, 1]. *)
Theorem prediction_entry_ranges (data : list row) (q : user_inputs)
        (predictions : list prediction) :
  predict_colleges round_key_of_column re_valid re_search data q
  = Predictions predictions ->
  Forall (fun p =>
            0.05 <= admission_probability p <= 0.95 /\
            0.15 <= confidence_score p <= 0.95 /\
            0 <= recommendation_score p <= 1) predictions.
Proof.
  intro H. apply predict_colleges_entries in H.
  destruct H as (filtered_data & _ & H).
  eapply Forall_impl; [|exact H].
  intros p (r & _ & ad & sc & Had & Hlow & Hsc & _ & Hadm & Hconf & _ & _ & Hrec).
  pose proof (overall_probability_positive_ranks
                _ _ _ (extract_round_data_positive round_key_of_column r) Had)
    as Hr.
  pose proof (recommendation_score_clamped _ _ _ _ _ Hsc) as Hrange.
  rewrite Hadm, Hconf, Hrec.
  split; [|split].
  - pose proof (py_round3_between 50 950 (overall_probability ad)) as Hb.
    lapply Hb; [lra | lra].
  - destruct (py_min_spec 0.95 (overall_probability ad + 0.1))
      as [[? ->]|[? ->]]; lra.
  - pose proof (py_round3_between 0 1000 sc) as Hb.
    lapply Hb; [lra | lra].
Qed.

(** X8.  Every entry of a returned prediction list is built from a data row
    that passes each of the four filters (category, state, course, quota):
    an empty filter string lets every row pass, a non-empty one only rows
    whose cell is a string in which the upper-cased pattern is found. *)
Theorem prediction_rows_pass_filters (data : list row) (q : user_inputs)
        (predictions : list prediction) :
  predict_colleges round_key_of_column re_valid re_search data q
  = Predictions predictions ->
  Forall (fun p =>
            exists r,
              In r data /\
              passes_filter re_search (category q) Category r /\
              passes_filter re_search (state q) State r /\
              passes_filter re_search (course q) Course r /\
              passes_filter re_search (quota q) Quota r /\
              built_from round_key_of_column q r p) predictions.
Proof.
  intro H. apply predict_colleges_entries in H.
  destruct H as (filtered_data & Ef & H).
  eapply Forall_impl; [|exact H].
  intros p (r & Hin & Hb). exists r.
  destruct (filter_rows_In _ _ _ _ _ r Ef Hin)
    as (Hdata & Hcat & Hs & Hc & Hq).
  repeat split; assumption.
Qed.

End PredictionEntries.

(** The sample rows under a state and a course filter, with substring
    search for the regular-expression search. *)
Lemma prediction_entry_ranges_witness :
  exists predictions,
    predict_colleges (fun col => Some col) (fun _ => true) str_in
                     sample_rows sample_filtered_query
    = Predictions predictions /\
    Forall (fun p =>
              0.05 <= admission_probability p <= 0.95 /\
              0.15 <= confidence_score p <= 0.95 /\
              0 <= recommendation_score p <= 1) predictions.
Proof.
  destruct (predict_colleges (fun col => Some col) (fun _ => true) str_in
                             sample_rows sample_filtered_query)
    as [|predictions] eqn:E; [vm_compute in E; discriminate|].
  exists predictions. split; [reflexivity|].
  exact (prediction_entry_ranges (fun col => Some col) (fun _ => true) str_in
                                 sample_rows sample_filtered_query
                                 predictions E).
Defined.

Lemma prediction_rows_pass_filters_witness :
  exists predictions,
    predict_colleges (fun col => Some col) (fun _ => true) str_in
                     sample_rows sample_filtered_query
    = Predictions predictions /\
    Forall (fun p =>
              exists r,
                In r sample_rows /\
                passes_filter str_in "Andhra" State r /\
                passes_filter str_in "ANAES" Course r) predictions.
Proof.
  destruct (predict_colleges (fun col => Some col) (fun _ => true) str_in
                             sample_rows sample_filtered_query)
    as [|predictions] eqn:E; [vm_compute in E; discriminate|].
  exists predictions. split; [reflexivity|].
  pose proof (prediction_rows_pass_filters
                (fun col => Some col) (fun _ => true) str_in
                sample_rows sample_filtered_query predictions E) as H.
  eapply Forall_impl; [|exact H].
  intros p (r & Hin & _ & Hs & Hc & _). exists r. auto.
Defined.

(** ** Historical success rate *)

Lemma filter_length_mono {A : Type} (f g : A -> bool) (l : list A) :
  (forall x, f x = true -> g x = true) ->
  (List.length (filter f l) <= List.length (filter g l))%nat.
Proof.
  intro H. induction l as [|x t IH]; cbn; [lia|].
  destruct (f x) eqn:E.
  - rewrite (H x E). cbn. lia.
  - destruct (g x); cbn; lia.
Qed.

Lemma inject_nat_nonneg (n : nat) : 0 <= inject_Z (Z.of_nat n).
Proof. change 0 with (inject_Z 0). rewrite <- Zle_Qle. lia. Qed.

(** X9.  For a non-empty history the success probability is
    (successes + 1) / (observations + 2), where the successes are the
    historical ranks at or above the candidate rank; it lies strictly
    between 0 and 1, and a worse (larger) candidate rank never raises it;
    for an empty history it is 0. *)
Theorem success_probability_smoothed
        (air1 air2 : Z) (historical_ranks : list Q) :
  (historical_ranks <> [] ->
   _calculate_success_probability air1 historical_ranks
   == (inject_Z (Z.of_nat
                   (count_where (fun r => Qle_bool (inject_Z air1) r)
                                historical_ranks)) + 1)
      / (inject_Z (Z.of_nat (List.length historical_ranks)) + 2)) /\
  (historical_ranks <> [] ->
   0 < _calculate_success_probability air1 historical_ranks < 1) /\
  ((air1 <= air2)%Z ->
   _calculate_success_probability air2 historical_ranks
   <= _calculate_success_probability air1 historical_ranks) /\
  _calculate_success_probability air1 [] = 0.
Proof.
  split; [|split; [|split; [|reflexivity]]].
  - intro Hne. destruct historical_ranks as [|r t]; [contradiction|].
    unfold _calculate_success_probability, count_where. cbv zeta.
    set (succ := List.length (filter _ (r :: t))).
    set (total := List.length (r :: t)).
    assert (E : inject_Z (Z.of_nat total) + 1 + 1
                == inject_Z (Z.of_nat total) + 2) by ring.
    now rewrite E.
  - intro Hne. split; [now apply success_probability_positive|].
    destruct historical_ranks as [|r t]; [contradiction|].
    unfold _calculate_success_probability.
    set (succ := List.length (filter _ (r :: t))).
    set (total := List.length (r :: t)).
    assert (Hle : (succ <= total)%nat) by apply filter_length_le.
    assert (H1 : inject_Z (Z.of_nat succ) <= inject_Z (Z.of_nat total))
      by (rewrite <- Zle_Qle; lia).
    pose proof (inject_nat_nonneg total).
    apply Qlt_shift_div_r; lra.
  - intro Hair.
    destruct historical_ranks as [|r t]; [cbn; lra|].
    unfold _calculate_success_probability.
    set (s1 := List.length (filter (fun x => Qle_bool (inject_Z air1) x) (r :: t))).
    set (s2 := List.length (filter (fun x => Qle_bool (inject_Z air2) x) (r :: t))).
    set (total := List.length (r :: t)).
    assert (Hle : (s2 <= s1)%nat).
    { apply filter_length_mono. intros x Hx.
      apply Qle_bool_iff in Hx. apply Qle_bool_iff.
      assert (inject_Z air1 <= inject_Z air2) by (rewrite <- Zle_Qle; lia).
      lra. }
    assert (H1 : inject_Z (Z.of_nat s2) <= inject_Z (Z.of_nat s1))
      by (rewrite <- Zle_Qle; lia).
    pose proof (inject_nat_nonneg total).
    apply Qmult_le_compat_r; [lra|].
    apply Qinv_le_0_compat. lra.
Qed.

(** Closing ranks 90, 95 and 100: candidate 92 succeeds against two of
    them, candidate 97 against one. *)
Lemma success_probability_smoothed_witness :
  _calculate_success_probability 92 [90; 95; 100] == (2 + 1) / (3 + 2) /\
  0 < _calculate_success_probability 92 [90; 95; 100] < 1 /\
  _calculate_success_probability 97 [90; 95; 100]
  <= _calculate_success_probability 92 [90; 95; 100].
Proof.
  destruct (success_probability_smoothed 92 97 [90; 95; 100])
    as (Hvalue & Hrange & Hmono & _).
  split; [|split; [apply Hrange; discriminate | apply Hmono; lia]].
  rewrite Hvalue by discriminate. reflexivity.
Defined.

(** ** Confidence grows with the data *)

(** X10.  With the mean and the standard deviation held fixed, more years
    of data never lower the confidence level; and with a positive mean and
    the years held fixed, a smaller standard deviation never lowers it. *)
Theorem prediction_confidence_monotone
        (mean std std' : Q) (years years' : Z) (median sp : option Q) :
  let round_data y s :=
    {| mean_closing_rank := Some mean;
       median_closing_rank := median;
       std_closing_rank := Some s;
       years_with_data := Some y;
       success_probability := sp |} in
  ((years <= years')%Z ->
   (confidence_rank (_calculate_prediction_confidence (round_data years std))
    <= confidence_rank
         (_calculate_prediction_confidence (round_data years' std)))%nat) /\
  (0 < mean -> std' <= std ->
   (confidence_rank (_calculate_prediction_confidence (round_data years std))
    <= confidence_rank
         (_calculate_prediction_confidence (round_data years std')))%nat).
Proof.
  intro round_data. split.
  - intro Hy. unfold _calculate_prediction_confidence, round_data.
    cbn [years_with_data std_closing_rank mean_closing_rank]. cbv zeta.
    set (cv := if Qltb 0 mean then std / mean else 1).
    destruct (Z.leb_spec 2 years); destruct (Z.leb_spec 1 years);
      destruct (Z.leb_spec 2 years'); destruct (Z.leb_spec 1 years');
      try lia;
      destruct (Qltb cv 0.2) eqn:E2; destruct (Qltb cv 0.4) eqn:E4;
      bool_facts; cbn; try lia; exfalso; lra.
  - intros Hmean Hstd. unfold _calculate_prediction_confidence, round_data.
    cbn [years_with_data std_closing_rank mean_closing_rank]. cbv zeta.
    assert (Hcv : std' / mean <= std / mean).
    { apply Qmult_le_compat_r; [exact Hstd|].
      apply Qinv_le_0_compat. lra. }
    apply Qltb_lt in Hmean. rewrite Hmean.
    set (cv := std / mean) in *. set (cv' := std' / mean) in *.
    destruct (2 <=? years)%Z; destruct (1 <=? years)%Z;
      destruct (Qltb cv 0.2) eqn:E2; destruct (Qltb cv 0.4) eqn:E4;
      destruct (Qltb cv' 0.2) eqn:E2'; destruct (Qltb cv' 0.4) eqn:E4';
      bool_facts; cbn; try lia; exfalso; lra.
Qed.

(** Mean 21,000 and standard deviation 1,000: one year gives Medium, two
    years High; with two years, standard deviation 6,000 gives Medium. *)
Lemma prediction_confidence_monotone_witness :
  (confidence_rank
     (_calculate_prediction_confidence
        {| mean_closing_rank := Some 21000%Q; median_closing_rank := None;
           std_closing_rank := Some 1000%Q; years_with_data := Some 1%Z;
           success_probability := None |})
   <= confidence_rank
        (_calculate_prediction_confidence
           {| mean_closing_rank := Some 21000%Q; median_closing_rank := None;
              std_closing_rank := Some 1000%Q; years_with_data := Some 2%Z;
              success_probability := None |}))%nat /\
  (confidence_rank
     (_calculate_prediction_confidence
        {| mean_closing_rank := Some 21000%Q; median_closing_rank := None;
           std_closing_rank := Some 6000%Q; years_with_data := Some 2%Z;
           success_probability := None |})
   <= confidence_rank
        (_calculate_prediction_confidence
           {| mean_closing_rank := Some 21000%Q; median_closing_rank := None;
              std_closing_rank := Some 1000%Q; years_with_data := Some 2%Z;
              success_probability := None |}))%nat.
Proof.
  split.
  - apply (prediction_confidence_monotone 21000 1000 1000 1 2 None None). lia.
  - apply (prediction_confidence_monotone 21000 6000 1000 2 2 None None);
      [reflexivity | vm_compute; discriminate].
Defined.

(** ** The groups of the counseling strategy *)

Lemma filter_all_false {A : Type} (f : A -> bool) (l : list A) :
  (forall x, In x l -> f x = false) -> filter f l = [].
Proof.
  induction l as [|x t IH]; intro H; cbn [filter]; [reflexivity|].
  rewrite (H x) by now left. apply IH. intros y Hy. apply H. now right.
Qed.

Lemma counseling_strategy_empty (round_probs : round_dict round_prediction) :
  sort_desc_by prob_of (scored_rounds round_probs) = [] ->
  round_probs = [] /\
  priority_rounds (_generate_counseling_strategy round_probs) = [] /\
  backup_options (_generate_counseling_strategy round_probs) = [].
Proof.
  intro Hs. unfold _generate_counseling_strategy.
  fold (scored_rounds round_probs). rewrite Hs. cbn. split; [|auto].
  pose proof (sort_desc_by_perm prob_of (scored_rounds round_probs)) as Hp.
  rewrite Hs in Hp. apply Permutation_nil in Hp.
  destruct round_probs; [reflexivity | discriminate].
Qed.

Lemma counseling_strategy_lists (round_probs : round_dict round_prediction)
      (best : scored_round) (tail : list scored_round) :
  sort_desc_by prob_of (scored_rounds round_probs) = best :: tail ->
  priority_rounds (_generate_counseling_strategy round_probs)
  = firstn 3 (filter (fun e => Qle_bool (py_max 0.3 (prob_of best * 0.5))
                                        (prob_of e)) (best :: tail)) /\
  backup_options (_generate_counseling_strategy round_probs)
  = firstn 2 (filter (fun e => Qle_bool 0.1 (prob_of e)
                               && Qltb (prob_of e)
                                       (py_max 0.3 (prob_of best * 0.5)))
                     (best :: tail)).
Proof.
  intro Hs. unfold _generate_counseling_strategy.
  fold (scored_rounds round_probs). rewrite Hs.
  destruct (Qle_bool 0.7 (prob_of best));
    [|destruct (Qle_bool 0.4 (prob_of best))];
    cbn [priority_rounds backup_options];
    rewrite !collect_capped_spec; split; reflexivity.
Qed.

(** X12.  The two groups of the counseling strategy hold rounds of the
    input only and share no round entry; the priority group is empty
    exactly when no round reaches probability 0.3, and otherwise it starts
    with a round of the largest probability. *)
Theorem counseling_strategy_priority
        (round_probs : round_dict round_prediction) :
  let s := _generate_counseling_strategy round_probs in
  (forall e, In e (priority_rounds s) \/ In e (backup_options s) ->
             In e (scored_rounds round_probs)) /\
  (forall e, In e (priority_rounds s) -> ~ In e (backup_options s)) /\
  (priority_rounds s = [] <->
   forall e, In e (scored_rounds round_probs) -> prob_of e < 0.3) /\
  (forall first rest,
      priority_rounds s = first :: rest ->
      forall e, In e (scored_rounds round_probs) ->
                prob_of e <= prob_of first).
Proof.
  intro s. subst s.
  pose proof (sort_desc_by_perm prob_of (scored_rounds round_probs)) as Hperm.
  destruct (sort_desc_by prob_of (scored_rounds round_probs))
    as [|best tail] eqn:Es.
  { destruct (counseling_strategy_empty round_probs Es) as (-> & Hp & Hb).
    rewrite Hp, Hb. cbn.
    repeat split; try tauto; try discriminate. }
  destruct (counseling_strategy_lists round_probs best tail Es) as [Hp Hb].
  pose proof (sorted_head_max prob_of best tail _ Es) as Hmax.
  rewrite Hp, Hb. clear Hp Hb.
  set (thr := py_max 0.3 (prob_of best * 0.5)).
  assert (Hthr : 0.3 <= thr /\ (0.3 <= prob_of best -> thr <= prob_of best)).
  { unfold thr.
    destruct (py_max_spec 0.3 (prob_of best * 0.5)) as [[? ->]|[? ->]];
      split; intros; lra. }
  destruct Hthr as [Hthr1 Hthr2].
  assert (Hbest : In best (scored_rounds round_probs)).
  { apply (Permutation_in _ Hperm). now left. }
  split; [|split; [|split]].
  - intros e [He|He]; apply firstn_In, filter_In in He;
      apply (Permutation_in _ Hperm); tauto.
  - intros e He1 He2.
    apply firstn_In, filter_In in He1. apply firstn_In, filter_In in He2.
    destruct He1 as [_ H1]. destruct He2 as [_ H2].
    apply andb_true_iff in H2. destruct H2 as [_ H2].
    bool_facts. lra.
  - cbn [filter].
    destruct (Qle_bool thr (prob_of best)) eqn:E; bool_facts.
    + cbn [firstn]. split; [discriminate|].
      intro H. specialize (H best Hbest). lra.
    + split.
      * intros _ e He. specialize (Hmax e He).
        destruct (Qlt_le_dec (prob_of best) 0.3) as [Hlt|Hge]; [lra|].
        specialize (Hthr2 Hge). lra.
      * intros _.
        assert (Hnil : filter (fun e => Qle_bool thr (prob_of e)) tail = []).
        { apply filter_all_false. intros e He.
          assert (H : In e (scored_rounds round_probs))
            by (apply (Permutation_in _ Hperm); now right).
          specialize (Hmax e H).
          destruct (Qle_bool thr (prob_of e)) eqn:E'; [|reflexivity].
          bool_facts. lra. }
        now rewrite Hnil.
  - intros first rest Hfirst e He. cbn [filter] in Hfirst.
    destruct (Qle_bool thr (prob_of best)) eqn:E.
    + cbn [firstn] in Hfirst. injection Hfirst as <- _. now apply Hmax.
    + exfalso.
      assert (Hin : In first (filter (fun e => Qle_bool thr (prob_of e)) tail)).
      { apply (firstn_In 3). rewrite Hfirst. now left. }
      apply filter_In in Hin. destruct Hin as [Hin Hge].
      assert (In first (scored_rounds round_probs))
        by (apply (Permutation_in _ Hperm); now right).
      specialize (Hmax first H). bool_facts. lra.
Qed.

(** ** The analysis of the history *)

Lemma unique_complete (l : list Z) (x : Z) : In x l -> In x (unique l).
Proof.
  induction l as [|y t IH]; cbn [unique]; [auto|].
  intros [->|H]; [now left|].
  destruct (Z.eqb_spec x y) as [->|Hne]; [now left|].
  right. apply filter_In. split; [now apply IH|].
  apply negb_true_iff. now apply Z.eqb_neq.
Qed.

Lemma filter_filter_length {A : Type} (f g : A -> bool) (l : list A) :
  (forall x, f x = true -> g x = true) ->
  filter f (filter g l) = filter f l.
Proof.
  intro H. induction l as [|x t IH]; cbn [filter]; [reflexivity|].
  destruct (g x) eqn:Eg; cbn [filter].
  - now rewrite IH.
  - destruct (f x) eqn:Ef; [|exact IH].
    rewrite (H x Ef) in Eg. discriminate.
Qed.

(** Observations grouped by the distinct values of their round: the group
    sizes add up to the number of observations. *)
Lemma group_sizes_sum (ks : list Z) (data : list observation) :
  NoDup ks ->
  (forall o, In o data -> In (round o) ks) ->
  fold_right Z.add 0%Z
             (map (fun k =>
                     Z.of_nat
                       (List.length
                          (filter (fun o => (round o =? k)%Z) data))) ks)
  = Z.of_nat (List.length data).
Proof.
  intro Hnd. revert data.
  induction Hnd as [|k ks Hk Hnd IH]; intros data Hin; cbn [map fold_right].
  - destruct data as [|o t]; [reflexivity|].
    destruct (Hin o (or_introl eq_refl)).
  - pose proof (filter_length (fun o => (round o =? k)%Z) data) as Hsplit.
    rewrite <- Hsplit, Nat2Z.inj_add.
    rewrite <- (IH (filter (fun o => negb (round o =? k)%Z) data)).
    + f_equal. f_equal.
      apply map_ext_in. intros k' Hk'. f_equal. f_equal.
      symmetry. apply filter_filter_length.
      intros o Ho. apply Z.eqb_eq in Ho. apply negb_true_iff.
      apply Z.eqb_neq. intro E. apply Hk. rewrite <- E, Ho. exact Hk'.
    + intros o Ho. apply filter_In in Ho. destruct Ho as [Ho Hne].
      apply negb_true_iff, Z.eqb_neq in Hne.
      destruct (Hin o Ho) as [E|H]; [congruence | exact H].
Qed.

(** X13.  [_analyze_historical_rounds] has one entry for each round number
    that occurs in the history, in ascending order; an entry counts the
    observations of its round, at least one; and the counts add up to the
    number of observations: each is counted in exactly one round. *)
Theorem analyze_historical_rounds_partition
        (np_sqrt : Q -> Q) (filtered_data : list observation)
        (candidate_air : Z) :
  let analysis :=
    _analyze_historical_rounds np_sqrt filtered_data candidate_air in
  StronglySorted Z.lt (dict_keys analysis) /\
  (forall n, In n (dict_keys analysis) <->
             exists o, In o filtered_data /\ round o = n) /\
  (forall n st,
      In (n, st) analysis ->
      exists y,
        years_with_data st = Some y /\ (1 <= y)%Z /\
        y = Z.of_nat (List.length
                        (filter (fun o => (round o =? n)%Z) filtered_data))) /\
  fold_right Z.add 0%Z
             (map (fun e => match years_with_data (snd e) with
                            | Some y => y
                            | None => 0%Z
                            end) analysis)
  = Z.of_nat (List.length filtered_data).
Proof.
  intro analysis.
  assert (Hkeys : dict_keys analysis
                  = sort_Z (unique (map round filtered_data))).
  { unfold analysis, _analyze_historical_rounds, dict_keys.
    rewrite map_map. cbn [fst]. now rewrite map_id. }
  assert (Hmem : forall n, In n (dict_keys analysis) <->
                           exists o, In o filtered_data /\ round o = n).
  { intro n. rewrite Hkeys. split.
    - intro H. apply (Permutation_in _ (sort_Z_perm _)) in H.
      apply unique_incl, in_map_iff in H.
      destruct H as (o & Ho & Hin). now exists o.
    - intros (o & Hin & <-).
      apply (Permutation_in _ (Permutation_sym (sort_Z_perm _))).
      apply unique_complete. now apply in_map. }
  split; [apply analyze_historical_rounds_ascending|].
  split; [exact Hmem|]. split.
  - intros n st Hin.
    assert (Hn : In n (dict_keys analysis)).
    { unfold dict_keys. change n with (fst (n, st)). now apply in_map. }
    apply Hmem in Hn. destruct Hn as (o & Ho & Hr).
    unfold analysis, _analyze_historical_rounds in Hin.
    apply in_map_iff in Hin. destruct Hin as (k & [= <- <-] & _).
    cbn [years_with_data]. rewrite length_map.
    eexists. split; [reflexivity|]. split; [|reflexivity].
    assert (Hf : In o (filter (fun o => (round o =? k)%Z) filtered_data)).
    { apply filter_In. split; [exact Ho|]. now apply Z.eqb_eq. }
    destruct (filter _ filtered_data); [contradiction|].
    cbn [List.length]. lia.
  - unfold analysis, _analyze_historical_rounds.
    rewrite map_map. cbn [snd years_with_data].
    erewrite map_ext; [|intro k; rewrite length_map; reflexivity].
    apply group_sizes_sum.
    + apply (Permutation_NoDup (Permutation_sym (sort_Z_perm _))).
      apply unique_NoDup.
    + intros o Ho.
      apply (Permutation_in _ (Permutation_sym (sort_Z_perm _))).
      apply unique_complete. now apply in_map.
Qed.

(** ** From the history to the optimal round *)

Lemma exp_step_pos (z : Q) : 0 < exp_step z.
Proof. unfold exp_step. apply Qpower_0_lt. reflexivity. Qed.

(** The median of a non-empty list has every property that its elements
    have and that the mean of two keeps. *)
Lemma np_median_from_elements (P : Q -> Prop) (xs : list Q) :
  xs <> [] ->
  Forall P xs ->
  (forall x y, P x -> P y -> P ((x + y) / 2)) ->
  P (np_median xs).
Proof.
  intros Hne Hall Havg. unfold np_median. cbv zeta.
  pose proof (stable_sort_perm Qle_bool xs) as Hperm.
  set (s := stable_sort Qle_bool xs) in *.
  assert (Hs : forall i, (i < List.length s)%nat -> P (nth i s 0)).
  { intros i Hi. rewrite Forall_forall in Hall. apply Hall.
    apply (Permutation_in _ Hperm). now apply nth_In. }
  assert (Hlen : (0 < List.length s)%nat).
  { rewrite (Permutation_length Hperm).
    destruct xs; [contradiction | cbn; lia]. }
  assert (Hhalf : (List.length s / 2 < List.length s)%nat)
    by (apply Nat.div_lt; lia).
  destruct (Nat.even (List.length s)).
  - apply Havg; apply Hs; lia.
  - now apply Hs.
Qed.

Section OptimalRoundFacts.
Variables np_exp np_sqrt : Q -> Q.

(** The probabilities of [round_entries] are above 0 when the success
    probabilities are and the exponential is above 0 where the loop calls
    it. *)
Lemma round_entries_positive_where (predicted_rank : Q)
      (round_analysis : round_dict round_stats) :
  Forall (fun e =>
            (forall sp, success_probability (snd e) = Some sp -> 0 < sp) /\
            (forall historical_median,
                historical_median
                = match median_closing_rank (snd e) with
                  | Some m => m
                  | None => predicted_rank
                  end ->
                0 < historical_median ->
                0 < np_exp (- (predicted_rank - historical_median)
                            / historical_median)))
         round_analysis ->
  Forall (fun e => 0 < probability (snd e))
         (round_entries np_exp predicted_rank round_analysis).
Proof.
  unfold round_entries.
  generalize (@nil (Z * round_prediction))
             (@Forall_nil (Z * round_prediction)
                          (fun e => 0 < probability (snd e))).
  induction round_analysis as [|[n rd] t IH]; intros acc Hacc Hsp;
    cbn [fold_left]; [exact Hacc|].
  inversion Hsp as [|? ? [Hhd Hexp] Htl]; subst. cbn [snd] in Hhd, Hexp.
  apply IH; [|exact Htl].
  destruct (success_probability rd) as [base_prob|]; [|exact Hacc].
  specialize (Hhd base_prob eq_refl).
  apply dict_set_Forall; [|exact Hacc].
  intros _k. cbn [snd probability].
  match goal with
  | |- 0 < py_max 0 (py_min 1 ?adj) =>
      assert (Hadj : 0 < adj);
      [|destruct (py_min_spec 1 adj) as [[? ->]|[? ->]];
        [destruct (py_max_spec 0 adj) as [[? ->]|[? ->]]
        |destruct (py_max_spec 0 1) as [[? ->]|[? ->]]]; lra]
  end.
  destruct (Qltb 0 _) eqn:E; [|exact Hhd].
  apply Qltb_lt in E.
  apply Qmult_lt_0_compat; [exact Hhd | now apply Hexp].
Qed.

(** For closing ranks above 0 and a predicted rank at most 701 times each
    of them, the loop calls the exponential from -700 upwards only. *)
Lemma engine_probabilities_positive_where
      (predicted_rank : Q) (filtered_data : list observation)
      (candidate_air : Z) :
  (forall z, -700 <= z -> 0 < np_exp z) ->
  Forall (fun o => 0 < closing_rank o /\
                   predicted_rank <= 701 * closing_rank o) filtered_data ->
  Forall (fun e => 0 < probability (snd e))
         (rounds (_calculate_round_probabilities np_exp predicted_rank
                    (_analyze_historical_rounds np_sqrt filtered_data
                                                candidate_air))).
Proof.
  intros Hexp Hdata.
  cbn [rounds _calculate_round_probabilities].
  apply round_entries_positive_where.
  unfold _analyze_historical_rounds. apply Forall_map.
  rewrite Forall_forall. intros n Hn.
  cbn [snd success_probability median_closing_rank].
  set (closing_ranks :=
         map closing_rank
             (filter (fun o => (round o =? n)%Z) filtered_data)).
  assert (Hne : closing_ranks <> []).
  { apply (Permutation_in _ (sort_Z_perm _)) in Hn.
    apply unique_incl, in_map_iff in Hn. destruct Hn as (o & Ho & Hin).
    intro Hnil.
    assert (Hmem : In (closing_rank o) closing_ranks).
    { apply in_map, filter_In. split; [exact Hin|]. now apply Z.eqb_eq. }
    rewrite Hnil in Hmem. contradiction. }
  split.
  - intros sp [= <-]. now apply success_probability_positive.
  - intros m -> Hm.
    apply Hexp.
    assert (Hmed : predicted_rank <= 701 * np_median closing_ranks).
    { apply (np_median_from_elements
               (fun c => predicted_rank <= 701 * c)); [exact Hne| |].
      - unfold closing_ranks. apply Forall_map.
        rewrite Forall_forall in *. intros o Ho.
        apply filter_In in Ho. now apply Hdata.
      - intros x y Hx Hy.
        assert (E : 701 * ((x + y) / 2) == (701 * x + 701 * y) / 2)
          by field.
        rewrite E. apply Qle_shift_div_l; lra. }
    set (med := np_median closing_ranks) in *.
    apply Qle_shift_div_l; [exact Hm|]. lra.
Qed.

End OptimalRoundFacts.

(** X14.  For a non-empty history of closing ranks above 0 and a predicted
    rank that is at most 701 times each of them, the engine names an
    optimal round, provided the exponential is above 0 from -700 upwards
    (the loop then calls it there only): a round that occurs in the
    history, whose single-round probability is above 0, at most 1, and the
    largest of the result. *)
Theorem engine_names_optimal_round
        (np_exp np_sqrt : Q -> Q) (predicted_rank : Q)
        (filtered_data : list observation) (candidate_air : Z) :
  (forall z, -700 <= z -> 0 < np_exp z) ->
  filtered_data <> [] ->
  Forall (fun o => 0 < closing_rank o /\
                   predicted_rank <= 701 * closing_rank o) filtered_data ->
  let result :=
    _calculate_round_probabilities
      np_exp predicted_rank
      (_analyze_historical_rounds np_sqrt filtered_data candidate_air) in
  exists r d,
    opt_round (optimal result) = Some r /\
    In (r, d) (rounds result) /\
    (exists o, In o filtered_data /\ round o = r) /\
    opt_probability (optimal result) = probability d /\
    0 < probability d <= 1 /\
    forall e, In e (rounds result) -> probability (snd e) <= probability d.
Proof.
  intros Hexp Hne Hdata result.
  pose proof (engine_probabilities_positive_where
                np_exp np_sqrt predicted_rank filtered_data
                candidate_air Hexp Hdata) as Hpos.
  pose proof (round_entries_range
                np_exp predicted_rank
                (_analyze_historical_rounds np_sqrt filtered_data
                                            candidate_air)) as Hrange.
  pose proof (round_entries_keys
                np_exp predicted_rank
                (_analyze_historical_rounds np_sqrt filtered_data
                                            candidate_air)
                (strict_NoDup _ (analyze_historical_rounds_ascending
                                   np_sqrt filtered_data candidate_air)))
    as Hkeys.
  fold result in Hpos.
  subst result.
  cbn [rounds optimal _calculate_round_probabilities] in *. cbv zeta.
  set (round_probs :=
         round_entries np_exp predicted_rank
                       (_analyze_historical_rounds np_sqrt filtered_data
                                                   candidate_air)) in *.
  assert (Hsub : forall r, In r (dict_keys round_probs) ->
                           exists o, In o filtered_data /\ round o = r).
  { intros r Hr. rewrite Hkeys in Hr. unfold dict_keys in Hr.
    apply in_map_iff in Hr. destruct Hr as ([k st] & <- & Hin).
    apply filter_In in Hin. destruct Hin as [Hin _].
    unfold _analyze_historical_rounds in Hin.
    apply in_map_iff in Hin. destruct Hin as (k' & [= <- _] & Hk).
    apply (Permutation_in _ (sort_Z_perm _)) in Hk.
    apply unique_incl, in_map_iff in Hk.
    destruct Hk as (o & Ho & Hin). now exists o. }
  assert (Hnonempty : round_probs <> []).
  { intro Hnil.
    assert (Hk : dict_keys round_probs = []) by now rewrite Hnil.
    rewrite Hkeys in Hk.
    destruct filtered_data as [|o t]; [contradiction|].
    assert (Hin : In (round o)
                     (dict_keys
                        (filter (fun e => match success_probability (snd e) with
                                          | Some _ => true
                                          | None => false
                                          end)
                                (_analyze_historical_rounds
                                   np_sqrt (o :: t) candidate_air)))).
    { unfold dict_keys, _analyze_historical_rounds.
      apply in_map_iff.
      eexists (round o, _). split; [reflexivity|].
      apply filter_In. split.
      - apply in_map_iff. exists (round o). split; [reflexivity|].
        apply (Permutation_in _ (Permutation_sym (sort_Z_perm _))).
        apply unique_complete. now left.
      - reflexivity. }
    rewrite Hk in Hin. contradiction. }
  unfold _determine_optimal_round.
  pose proof (optimal_round_loop round_probs 0 None) as Hloop.
  cbv zeta in Hloop.
  destruct (fold_left _ round_probs (0, None)) as [best_prob best_round].
  destruct Hloop as [Hall [[Hres Hle]|(pre & e & post & Hl & Hres & Hlt & _)]].
  - exfalso. destruct round_probs as [|e t]; [contradiction|].
    inversion Hpos as [|? ? He _]; subst.
    specialize (Hle e (or_introl eq_refl)). lra.
  - injection Hres as -> ->. cbn [fst] in Hall.
    assert (Hin : In e round_probs) by (rewrite Hl; apply in_elt).
    exists (fst e), (snd e). cbn [opt_round opt_probability].
    split; [reflexivity|].
    split; [now rewrite <- surjective_pairing|].
    split.
    { apply Hsub. unfold dict_keys. now apply in_map. }
    split; [reflexivity|].
    split; [|exact Hall].
    rewrite Forall_forall in Hrange. specialize (Hrange e Hin). lra.
Qed.

(** The sample history names a round. *)
Lemma engine_names_optimal_round_witness :
  exists r, opt_round (optimal sample_engine_result) = Some r.
Proof.
  destruct (engine_names_optimal_round
              exp_step sqrt_floor 21000 sample_history 21000)
    as (r & d & Hr & _).
  - intros z _. apply exp_step_pos.
  - discriminate.
  - repeat constructor; vm_compute; discriminate.
  - exists r. exact Hr.
Defined.

(** ** The fallback estimate of the API *)

Lemma np_mean_positive (xs : list Q) :
  xs <> [] -> Forall (fun x => 0 < x) xs -> 0 < np_mean xs.
Proof.
  intros Hne Hall. unfold np_mean.
  assert (Hsum : 0 < Qsum xs).
  { destruct Hall as [|x t Hx Ht]; [contradiction|].
    unfold Qsum. cbn [fold_right].
    assert (0 <= fold_right Qplus 0 t)
      by (clear Hne; induction Ht as [|y t Hy _ IH]; cbn [fold_right]; lra).
    lra. }
  assert (Hlen : 0 < inject_Z (Z.of_nat (List.length xs))).
  { destruct xs; [contradiction|].
    change 0 with (inject_Z 0). rewrite <- Zlt_Qlt. cbn [List.length]. lia. }
  apply Qlt_shift_div_l; lra.
Qed.

Lemma ratio_le_1 (a avg : Q) : 0 < avg -> (a <= avg <-> a / avg <= 1).
Proof.
  intro Havg. split; intro H.
  - apply Qle_shift_div_r; lra.
  - assert (E : a == a / avg * avg) by (field; lra).
    rewrite E. nra.
Qed.

Lemma ratio_mono (a b avg : Q) : 0 < avg -> a <= b -> a / avg <= b / avg.
Proof.
  intros Havg Hab. apply Qmult_le_compat_r; [exact Hab|].
  apply Qinv_le_0_compat. lra.
Qed.

(** The value of the fallback before rounding, for a positive average:
    between 0.05 and 0.95, and never higher for a larger rank. *)
Lemma fallback_branches (air1 air2 avg : Q) :
  0 < avg ->
  let value air :=
    if Qle_bool air avg then py_min 0.95 (1 - air / avg * 0.2)
    else if Qle_bool (air / avg) 2
         then py_max 0.05 (0.6 - (air / avg - 1) * 0.4)
         else 0.05 in
  0.05 <= value air1 <= 0.95 /\ (air1 <= air2 -> value air2 <= value air1).
Proof.
  intros Havg value. subst value. cbv beta.
  pose proof (ratio_le_1 air1 avg Havg) as H1.
  pose proof (ratio_le_1 air2 avg Havg) as H2.
  assert (Hmono : air1 <= air2 -> air1 / avg <= air2 / avg)
    by (apply ratio_mono; exact Havg).
  set (r1 := air1 / avg) in *. set (r2 := air2 / avg) in *.
  destruct (py_min_spec 0.95 (1 - r1 * 0.2)) as [[? ->]|[? ->]];
    destruct (py_min_spec 0.95 (1 - r2 * 0.2)) as [[? ->]|[? ->]];
    destruct (py_max_spec 0.05 (0.6 - (r1 - 1) * 0.4)) as [[? ->]|[? ->]];
    destruct (py_max_spec 0.05 (0.6 - (r2 - 1) * 0.4)) as [[? ->]|[? ->]];
    destruct (Qle_bool air1 avg) eqn:E1; destruct (Qle_bool air2 avg) eqn:E2;
    destruct (Qle_bool r1 2) eqn:E3; destruct (Qle_bool r2 2) eqn:E4;
    bool_facts;
    (split; [|intro Hle; specialize (Hmono Hle)]);
    try tauto; try lra;
    try (apply H1 in E1); try (apply H2 in E2); try lra;
    try (assert (~ r1 <= 1) by (intro Hc; apply H1 in Hc; lra));
    try (assert (~ r2 <= 1) by (intro Hc; apply H2 in Hc; lra));
    lra.
Qed.

(** X15.  The fallback estimate lies between 0.05 and 0.95 for every rank
    and every list of historical ranks, and a larger candidate rank never
    gets a higher estimate; without a positive historical rank it is 0.1. *)
Theorem fallback_probability_range
        (air1 air2 : Z) (historical_ranks : list Z) :
  let fallback := FinalEnhancedApi.calculate_admission_probability_fallback in
  0.05 <= fallback air1 historical_ranks <= 0.95 /\
  ((air1 <= air2)%Z ->
   fallback air2 historical_ranks <= fallback air1 historical_ranks) /\
  (Forall (fun r => (r <= 0)%Z) historical_ranks ->
   fallback air1 historical_ranks = 0.1).
Proof.
  cbv zeta.
  unfold FinalEnhancedApi.calculate_admission_probability_fallback.
  destruct historical_ranks as [|r0 t0]; [repeat split; intros; lra|].
  set (ranks := r0 :: t0).
  destruct (filter (fun r => (0 <? r)%Z) ranks) as [|v vs] eqn:Ev.
  { repeat split; intros; lra. }
  assert (Havg : 0 < np_mean (map inject_Z (v :: vs))).
  { apply np_mean_positive; [discriminate|].
    apply Forall_map. rewrite <- Ev. rewrite Forall_forall.
    intros r Hr. apply filter_In in Hr. destruct Hr as [_ Hr].
    apply Z.ltb_lt in Hr. change 0 with (inject_Z 0).
    now rewrite <- Zlt_Qlt. }
  cbv zeta.
  pose proof (fallback_branches (inject_Z air1) (inject_Z air2) _ Havg) as Hb.
  cbv zeta in Hb. destruct Hb as [Hrange Hmono].
  split; [|split].
  - match goal with
    | |- _ <= py_round3 ?q <= _ =>
        pose proof (py_round3_between 50 950 q) as Hb;
        set (value := q) in *
    end.
    lapply Hb; lra.
  - intro Hle. apply py_round3_mono. apply Hmono.
    now rewrite <- Zle_Qle.
  - intro Hall. exfalso.
    assert (Hin : In v (filter (fun r => (0 <? r)%Z) ranks))
      by (rewrite Ev; now left).
    apply filter_In in Hin. destruct Hin as [Hin Hpos].
    rewrite Forall_forall in Hall. specialize (Hall v Hin).
    apply Z.ltb_lt in Hpos. lia.
Qed.

(** Ranks 20,000 and 30,000 against the historical ranks 24,000, 0 and
    26,000; and a history without positive rank. *)
Lemma fallback_probability_range_witness :
  FinalEnhancedApi.calculate_admission_probability_fallback
    30000 [24000; 0; 26000]%Z
  <= FinalEnhancedApi.calculate_admission_probability_fallback
       20000 [24000; 0; 26000]%Z /\
  FinalEnhancedApi.calculate_admission_probability_fallback 20000 [0; 0]%Z
  = 0.1.
Proof.
  split.
  - apply (fallback_probability_range 20000 30000 [24000; 0; 26000]%Z). lia.
  - apply (fallback_probability_range 20000 30000 [0; 0]%Z).
    repeat constructor; lia.
Defined.

(** ** The most likely admission round *)

Lemma flat_map_keys_sorted {V : Type} (f : Z -> list (Z * V)) (ks : list Z) :
  (forall k, f k = [] \/ exists v, f k = [(k, v)]) ->
  StronglySorted Z.lt ks ->
  StronglySorted Z.lt (map fst (flat_map f ks)).
Proof.
  intros Hf Hs.
  assert (Hin : forall l e, In e (flat_map f l) -> In (fst e) l).
  { intros l e He. apply in_flat_map in He. destruct He as (k & Hk & He).
    destruct (Hf k) as [E|[v E]]; rewrite E in He; [contradiction|].
    destruct He as [<-|[]]. exact Hk. }
  induction Hs as [|k t Hs IH Hall]; cbn [flat_map map]; [constructor|].
  destruct (Hf k) as [E|[v E]]; rewrite E; cbn [app map fst]; [exact IH|].
  constructor; [exact IH|].
  rewrite Forall_forall in *. intros k' Hk'.
  apply in_map_iff in Hk'. destruct Hk' as (e & <- & He).
  apply Hall. now apply Hin.
Qed.

(** The loop that looks for the most likely round, over probabilities that
    are 0 or 1: it stops at the first entry of probability 1. *)
Lemma most_likely_loop (l : list (Z * EPS.round_outcome)) :
  Forall (fun e => EPS.outcome_probability (snd e) = 0 \/
                   EPS.outcome_probability (snd e) = 1) l ->
  let res :=
    fold_left
      (fun st item =>
         let '(most_likely_round, highest_prob) := st in
         if Qltb highest_prob (EPS.outcome_probability (snd item))
         then (Some (fst item), EPS.outcome_probability (snd item))
         else (most_likely_round, highest_prob))
      l (@None Z, 0) in
  (fst res = None /\
   forall e, In e l -> EPS.outcome_probability (snd e) = 0) \/
  (exists pre e post,
      l = pre ++ e :: post /\ fst res = Some (fst e) /\
      EPS.outcome_probability (snd e) = 1 /\
      forall e', In e' pre -> EPS.outcome_probability (snd e') = 0).
Proof.
  intro Hall. cbv zeta.
  induction Hall as [|e t He Ht IH]; cbn [fold_left].
  - left. split; [reflexivity | intros ? []].
  - destruct He as [E|E]; rewrite E.
    + change (Qltb 0 0) with false. cbv iota.
      destruct IH as [[Hres Hzero]|(pre & e1 & post & -> & Hres & H1 & Hpre)].
      * left. split; [exact Hres|]. intros e' [<-|He']; auto.
      * right. exists (e :: pre), e1, post.
        repeat split; auto. intros e' [<-|He']; auto.
    + change (Qltb 0 1) with true. cbv iota.
      right. exists [], e, t. repeat split; [|exact E|intros ? []].
      clear IH. generalize (Some (fst e)). intro m.
      induction Ht as [|e' t' He' _ IH']; cbn [fold_left]; [reflexivity|].
      destruct He' as [E'|E']; rewrite E';
        [change (Qltb 1 0) with false | change (Qltb 1 1) with false];
        exact IH'.
Qed.

Section AdmissionRoundsFacts.
Variable closing_rank_round : Z -> option pyfloat.

(** Every listed round has probability 1 when the candidate rank is within
    its closing rank and 0 otherwise, and the rounds are listed in
    ascending order. *)
Lemma admission_rounds_entries (c : EPS.college) (user_rank : Z) :
  let res := EPS.predict_admission_rounds closing_rank_round c user_rank in
  Forall (fun e =>
            EPS.outcome_probability (snd e)
            = if Qle_bool (inject_Z user_rank)
                          (EPS.outcome_closing_rank (snd e))
              then 1 else 0)
         (EPS.round_probabilities res) /\
  StronglySorted Z.lt (map fst (EPS.round_probabilities res)).
Proof.
  cbv zeta. unfold EPS.predict_admission_rounds. cbv zeta.
  match goal with
  | |- context [fold_left ?F ?L ?S] => destruct (fold_left F L S) as [m h]
  end.
  cbn [EPS.round_probabilities].
  match goal with
  | |- context [flat_map ?F ?L] =>
      assert (Hl : Forall
                     (fun e =>
                        EPS.outcome_probability (snd e)
                        = if Qle_bool (inject_Z user_rank)
                                      (EPS.outcome_closing_rank (snd e))
                          then 1 else 0)
                     (flat_map F L) /\
                   StronglySorted Z.lt (map fst (flat_map F L)));
      [|destruct (flat_map F L) as [|e0 t0]; [|exact Hl]]
  end.
  - split.
    + apply Forall_flat_map. rewrite Forall_forall. intros k _.
      destruct (closing_rank_round k) as [[|cr]|]; repeat constructor.
    + apply flat_map_keys_sorted.
      * intro k. destruct (closing_rank_round k) as [[|cr]|]; eauto.
      * repeat constructor; lia.
  - destruct (EPS.closing_rank_mean c) as [[|base_rank]|]; [exact Hl| |exact Hl].
    split.
    + repeat constructor.
    + cbn [map fst]. repeat constructor; lia.
Qed.

(** X16.  [predict_admission_rounds] lists its rounds in ascending order,
    and the most likely round is the first listed round whose closing rank
    is at or above the candidate rank; there is no most likely round
    exactly when the candidate rank is above every listed closing rank. *)
Theorem most_likely_round_first_open (c : EPS.college) (user_rank : Z) :
  let res := EPS.predict_admission_rounds closing_rank_round c user_rank in
  let within e := inject_Z user_rank <= EPS.outcome_closing_rank (snd e) in
  StronglySorted Z.lt (map fst (EPS.round_probabilities res)) /\
  (EPS.most_likely_round res = None <->
   forall e, In e (EPS.round_probabilities res) -> ~ within e) /\
  (forall n,
      EPS.most_likely_round res = Some n ->
      exists pre e post,
        EPS.round_probabilities res = pre ++ e :: post /\
        fst e = n /\ within e /\
        forall e', In e' pre -> (fst e' < n)%Z /\ ~ within e').
Proof.
  intros res within.
  destruct (admission_rounds_entries c user_rank) as [Hval Hsorted].
  fold res in Hval, Hsorted.
  split; [exact Hsorted|].
  assert (H01 : Forall (fun e => EPS.outcome_probability (snd e) = 0 \/
                                 EPS.outcome_probability (snd e) = 1)
                       (EPS.round_probabilities res)).
  { eapply Forall_impl; [|exact Hval]. intros e ->.
    destruct (Qle_bool _ _); auto. }
  assert (Hw : forall e, In e (EPS.round_probabilities res) ->
                         (EPS.outcome_probability (snd e) = 1 -> within e) /\
                         (EPS.outcome_probability (snd e) = 0 -> ~ within e) /\
                         (~ within e -> EPS.outcome_probability (snd e) = 0)).
  { intros e He. rewrite Forall_forall in Hval. rewrite (Hval e He).
    unfold within.
    destruct (Qle_bool _ _) eqn:E; bool_facts;
      repeat split; intros; try lra; try discriminate; try reflexivity. }
  pose proof (most_likely_loop _ H01) as Hloop. cbv zeta in Hloop.
  assert (Hres : EPS.most_likely_round res
                 = fst (fold_left
                          (fun st item =>
                             let '(most_likely_round, highest_prob) := st in
                             if Qltb highest_prob
                                     (EPS.outcome_probability (snd item))
                             then (Some (fst item),
                                   EPS.outcome_probability (snd item))
                             else (most_likely_round, highest_prob))
                          (EPS.round_probabilities res) (None, 0))).
  { unfold res, EPS.predict_admission_rounds. cbv zeta.
    match goal with
    | |- context [fold_left ?F ?L ?S] =>
        destruct (fold_left F L S) as [m h] eqn:E
    end.
    cbn [EPS.most_likely_round EPS.round_probabilities].
    rewrite E. reflexivity. }
  rewrite Hres.
  destruct Hloop as [[Hnone Hzero]|(pre & e & post & Hl & Hsome & H1 & Hpre)].
  - rewrite Hnone. split.
    + split; [|reflexivity]. intros _ e He.
      apply (Hw e He). now apply Hzero.
    + intros n [=].
  - rewrite Hsome.
    assert (He : In e (EPS.round_probabilities res))
      by (rewrite Hl; apply in_elt).
    split.
    + split; [discriminate|]. intro Hall. exfalso.
      apply (Hall e He). now apply (Hw e He).
    + intros n [= <-]. exists pre, e, post.
      split; [exact Hl|]. split; [reflexivity|].
      split; [now apply (Hw e He)|].
      intros e' He'. split.
      * rewrite Hl, map_app in Hsorted. cbn [map] in Hsorted.
        clear - Hsorted He'.
        induction pre as [|p pre IH]; [contradiction|].
        cbn [map app] in Hsorted.
        inversion Hsorted as [|? ? Hs' Hall]; subst.
        destruct He' as [<-|He']; [|now apply IH].
        rewrite Forall_forall in Hall. apply Hall.
        rewrite in_app_iff. right. now left.
      * assert (In e' (EPS.round_probabilities res))
          by (rewrite Hl, in_app_iff; now left).
        apply (Hw e' H). now apply Hpre.
Qed.

End AdmissionRoundsFacts.

(** X17.  For a row without round labels whose mean closing rank is a
    number not below 0, the estimated closing ranks of rounds 1 to 5 only
    fall from the mean, so the most likely round is round 1 when the
    candidate rank is within the mean and there is none otherwise: a later
    round is never named. *)
Theorem estimated_rounds_name_round_1
        (closing_rank_round : Z -> option pyfloat)
        (c : EPS.college) (user_rank : Z) (base_rank : Q) :
  (forall n cr, closing_rank_round n <> Some (Num cr)) ->
  EPS.closing_rank_mean c = Some (Num base_rank) ->
  0 <= base_rank ->
  let res := EPS.predict_admission_rounds closing_rank_round c user_rank in
  map fst (EPS.round_probabilities res) = [1; 2; 3; 4; 5]%Z /\
  EPS.most_likely_round res
  = if Qle_bool (inject_Z user_rank) base_rank then Some 1%Z else None.
Proof.
  intros Hlabels Hmean Hbase. cbv zeta.
  unfold EPS.predict_admission_rounds. cbv zeta.
  assert (Hnone : forall n,
             match closing_rank_round n with
             | Some (Num closing_rank) =>
                 [(n,
                   {| EPS.outcome_probability :=
                        if Qle_bool (inject_Z user_rank) closing_rank
                        then 1 else 0;
                      EPS.outcome_closing_rank := closing_rank;
                      EPS.rank_margin :=
                        if Qeq_bool closing_rank 0 then None
                        else Some (closing_rank - inject_Z user_rank) |})]
             | _ => []
             end = []).
  { intro n. destruct (closing_rank_round n) as [[|cr]|] eqn:E;
      [reflexivity | | reflexivity].
    destruct (Hlabels n cr E). }
  cbn [flat_map]. rewrite !Hnone. cbn [app]. rewrite Hmean.
  cbn [map fold_left fst snd EPS.outcome_probability].
  repeat match goal with
         | |- context [0.95 ^ ?k] =>
             let v := eval vm_compute in (0.95 ^ k) in
             change (0.95 ^ k) with v
         end.
  set (u := inject_Z user_rank).
  destruct (Qle_bool u base_rank) eqn:E0;
    destruct (Qle_bool u (base_rank * 1)) eqn:E1;
    bool_facts; try (exfalso; lra);
    repeat match goal with
           | |- context [Qle_bool u ?x] =>
               let E := fresh "E" in
               destruct (Qle_bool u x) eqn:E; bool_facts;
               try (exfalso; lra)
           end;
    split; reflexivity.
Qed.

(** Rank 19,000 against a mean closing rank 20,000, no round label. *)
Lemma estimated_rounds_name_round_1_witness :
  EPS.most_likely_round
    (EPS.predict_admission_rounds no_round_labels sample_college 19000)
  = Some 1%Z.
Proof.
  apply (estimated_rounds_name_round_1
           no_round_labels sample_college 19000 20000);
    [discriminate | reflexivity | vm_compute; discriminate].
Defined.

(** ** Confidence and recommendation scores of the prediction system *)

(** X18.  When the mean closing rank of the row is not 0,
    [calculate_confidence_score] returns a score between 0.5 and 1, and at
    least 0.8 for a row with more than 5 closing ranks. *)
Theorem confidence_score_range
        (c : EPS.college) (d : EPS.college_details) (probability : Q) :
  (forall mean, EPS.closing_rank_mean c = Some (Num mean) -> ~ mean == 0) ->
  exists s,
    EPS.calculate_confidence_score c d probability = Some s /\
    0.5 <= s <= 1 /\
    (float_gt (EPS.closing_rank_count d) 5 = true -> 0.8 <= s).
Proof.
  intro Hmean. unfold EPS.calculate_confidence_score. cbv zeta.
  destruct (EPS.closing_rank_std c) as [[|std]|];
    destruct (EPS.closing_rank_mean c) as [[|mean]|];
    cbn [EPS.series_get];
    try (destruct (Qeq_bool mean 0) eqn:E0;
         [apply Qeq_bool_eq in E0; destruct (Hmean mean eq_refl E0)|]);
    try change (Qeq_bool 1 0) with false; cbv iota;
    eexists; (split; [reflexivity|]);
    destruct (EPS.closing_rank_count d) as [|count]; cbn [notna isna negb andb float_gt];
    try destruct (Qltb 5 count);
    try destruct (Qltb (std / mean) 0.2);
    try destruct (Qltb (std / 1) 0.2);
    destruct (Qltb 0.8 probability); destruct (Qltb probability 0.2);
    cbn [orb andb];
    match goal with
    | |- context [py_min ?a 1] =>
        destruct (py_min_spec a 1) as [[? ->]|[? ->]]
    end;
    (split; [lra|]); intros; try discriminate; lra.
Qed.

(** A row with 12 closing ranks, mean 20,000 and deviation 1,000. *)
Lemma confidence_score_range_witness :
  exists s,
    EPS.calculate_confidence_score
      sample_college (sample_details NaN) 0.9 = Some s /\
    0.8 <= s <= 1.
Proof.
  destruct (confidence_score_range sample_college (sample_details NaN) 0.9)
    as (s & Hs & Hrange & Hcount).
  - intros mean [= <-]. vm_compute. discriminate.
  - exists s. split; [exact Hs|].
    split; [apply Hcount; reflexivity | apply Hrange].
Defined.

(** X19.  [calculate_recommendation_score] never exceeds 1; it is not
    below 0 for a probability, a stipend and a bed count that are not
    below 0; a higher admission probability never lowers it; and a row
    without bond amount scores at least as high as the same row with any
    bond amount from 0 upwards. *)
Theorem recommendation_score_factors
        (d : EPS.college_details) (p p' : Q) :
  EPS.calculate_recommendation_score d p <= 1 /\
  (p <= p' ->
   EPS.calculate_recommendation_score d p
   <= EPS.calculate_recommendation_score d p') /\
  (0 <= p ->
   (forall stipend, EPS.Stipend_Year1 d = Num stipend -> 0 <= stipend) ->
   (forall beds, EPS.Total_Beds d = Num beds -> 0 <= beds) ->
   0 <= EPS.calculate_recommendation_score d p) /\
  (forall d' bond,
      EPS.Bond_Amount d = NaN ->
      EPS.Bond_Amount d' = Num bond -> 0 <= bond ->
      EPS.closing_rank_count d' = EPS.closing_rank_count d ->
      EPS.Annual_Fees d' = EPS.Annual_Fees d ->
      EPS.Stipend_Year1 d' = EPS.Stipend_Year1 d ->
      EPS.Total_Beds d' = EPS.Total_Beds d ->
      EPS.calculate_recommendation_score d' p
      <= EPS.calculate_recommendation_score d p).
Proof.
  unfold EPS.calculate_recommendation_score. cbv zeta.
  split; [|split; [|split]].
  - match goal with
    | |- py_min ?a 1 <= 1 => destruct (py_min_spec a 1) as [[? ->]|[? ->]]
    end; lra.
  - intro Hle.
    match goal with
    | |- py_min ?a 1 <= py_min ?b 1 =>
        assert (Hab : a <= b);
        [|destruct (py_min_spec a 1) as [[? ->]|[? ->]];
          destruct (py_min_spec b 1) as [[? ->]|[? ->]]; lra]
    end.
    destruct (EPS.Annual_Fees d), (EPS.Stipend_Year1 d), (EPS.Bond_Amount d),
      (EPS.Total_Beds d);
      destruct (notna (EPS.closing_rank_count d)
                && float_gt (EPS.closing_rank_count d) 10); lra.
  - intros Hp Hs Hb.
    match goal with
    | |- 0 <= py_min ?a 1 =>
        assert (Ha : 0 <= a);
        [|destruct (py_min_spec a 1) as [[? ->]|[? ->]]; lra]
    end.
    destruct (EPS.Annual_Fees d) as [|fees],
      (EPS.Stipend_Year1 d) as [|stipend],
      (EPS.Bond_Amount d) as [|bond], (EPS.Total_Beds d) as [|beds];
      try (specialize (Hs stipend eq_refl);
           assert (0 <= stipend / 100000) by (apply Qle_shift_div_l; lra));
      try (specialize (Hb beds eq_refl);
           assert (0 <= beds / 2000) by (apply Qle_shift_div_l; lra));
      destruct (notna (EPS.closing_rank_count d)
                && float_gt (EPS.closing_rank_count d) 10);
      repeat match goal with
             | |- context [py_max 0 ?x] =>
                 destruct (py_max_spec 0 x) as [[? ->]|[? ->]]
             | |- context [py_min 1 ?x] =>
                 destruct (py_min_spec 1 x) as [[? ->]|[? ->]]
             end;
      lra.
  - intros d' bond Hnan Hbond Hpos Hc Hf Hs Hb.
    rewrite Hnan, Hbond, Hc, Hf, Hs, Hb.
    match goal with
    | |- py_min ?a 1 <= py_min ?b 1 =>
        assert (Hab : a <= b);
        [|destruct (py_min_spec a 1) as [[? ->]|[? ->]];
          destruct (py_min_spec b 1) as [[? ->]|[? ->]]; lra]
    end.
    assert (0 <= bond / 5000000) by (apply Qle_shift_div_l; lra).
    destruct (py_max_spec 0 (1 - bond / 5000000)) as [[? ->]|[? ->]];
      destruct (EPS.Annual_Fees d), (EPS.Stipend_Year1 d), (EPS.Total_Beds d);
      destruct (notna (EPS.closing_rank_count d)
                && float_gt (EPS.closing_rank_count d) 10); lra.
Qed.

(** The sample row without bond amount against the same row with a bond of
    1,000,000, at probabilities 0.4 and 0.6. *)
Lemma recommendation_score_factors_witness :
  EPS.calculate_recommendation_score (sample_details NaN) 0.4
  <= EPS.calculate_recommendation_score (sample_details NaN) 0.6 /\
  0 <= EPS.calculate_recommendation_score (sample_details NaN) 0.4 /\
  EPS.calculate_recommendation_score (sample_details (Num 1000000)) 0.4
  <= EPS.calculate_recommendation_score (sample_details NaN) 0.4.
Proof.
  destruct (recommendation_score_factors (sample_details NaN) 0.4 0.6)
    as (_ & Hmono & Hpos & Hbond).
  split; [apply Hmono; vm_compute; discriminate|].
  split.
  - apply Hpos; [vm_compute; discriminate | |];
      intros x [= <-]; vm_compute; discriminate.
  - apply (Hbond (sample_details (Num 1000000)) 1000000);
      try reflexivity. vm_compute. discriminate.
Defined.

(** ** Probability bands of the comparative analyses *)

Lemma band_partition (lo : Q) (ps : list Q) :
  lo <= 0.7 ->
  (List.length (filter (fun p => Qltb 0.7 p) ps)
   + List.length (filter (fun p => Qle_bool lo p && Qle_bool p 0.7) ps)
   + List.length (filter (fun p => Qltb p lo) ps))%nat
  = List.length ps.
Proof.
  intro Hlo. induction ps as [|p t IH]; cbn [filter]; [reflexivity|].
  destruct (Qltb 0.7 p) eqn:E1; destruct (Qle_bool lo p) eqn:E2;
    destruct (Qle_bool p 0.7) eqn:E3; destruct (Qltb p lo) eqn:E4;
    bool_facts; try (exfalso; lra); cbn [andb List.length]; lia.
Qed.

Lemma count_where_map {A B : Type} (g : A -> B) (test : B -> bool)
      (l : list A) :
  List.length (filter test (map g l)) = count_where (fun x => test (g x)) l.
Proof.
  unfold count_where. induction l as [|x t IH]; cbn [map filter];
    [reflexivity|].
  destruct (test (g x)); cbn [List.length]; now rewrite IH.
Qed.

(** X20.  In both comparative analyses the high count is the number of
    predictions with admission probability above 0.7, the medium count the
    number with probability from the lower threshold up to 0.7, and the low
    count the number below the lower threshold, which is 0.4 in the backend
    and 0.3 in the prediction system; every prediction is counted in
    exactly one band, so the three counts add up to the total, the number
    of predictions.  Only an empty list gets no analysis. *)
Theorem comparative_analysis_bands
        (predictions : list prediction) (user_rank : Z)
        (admission_probabilities : list Q) :
  match _generate_comparative_analysis predictions user_rank with
  | None => predictions = []
  | Some a =>
      high_probability a
      = count_where (fun p => Qltb 0.7 (admission_probability p))
                    predictions /\
      medium_probability a
      = count_where (fun p => Qle_bool 0.4 (admission_probability p)
                              && Qle_bool (admission_probability p) 0.7)
                    predictions /\
      low_probability a
      = count_where (fun p => Qltb (admission_probability p) 0.4)
                    predictions /\
      (high_probability a + medium_probability a + low_probability a)%nat
      = total_options a /\
      total_options a = List.length predictions
  end /\
  match EPS.generate_comparative_analysis admission_probabilities with
  | None => admission_probabilities = []
  | Some a =>
      EPS.high_probability_colleges a
      = count_where (fun p => Qltb 0.7 p) admission_probabilities /\
      EPS.medium_probability_colleges a
      = count_where (fun p => Qle_bool 0.3 p && Qle_bool p 0.7)
                    admission_probabilities /\
      EPS.low_probability_colleges a
      = count_where (fun p => Qltb p 0.3) admission_probabilities /\
      (EPS.high_probability_colleges a + EPS.medium_probability_colleges a
       + EPS.low_probability_colleges a)%nat
      = EPS.total_colleges a /\
      EPS.total_colleges a = List.length admission_probabilities
  end.
Proof.
  split.
  - destruct predictions as [|first rest]; [reflexivity|].
    cbn [_generate_comparative_analysis high_probability medium_probability
         low_probability total_options].
    split; [apply count_where_map|].
    split; [apply (count_where_map
                     admission_probability
                     (fun p => Qle_bool 0.4 p && Qle_bool p 0.7))|].
    split; [apply (count_where_map admission_probability
                                   (fun p => Qltb p 0.4))|].
    split; [|reflexivity].
    rewrite band_partition by lra. apply length_map.
  - destruct admission_probabilities as [|p t]; [reflexivity|].
    cbn [EPS.generate_comparative_analysis EPS.high_probability_colleges
         EPS.medium_probability_colleges EPS.low_probability_colleges
         EPS.total_colleges].
    repeat split. apply band_partition. lra.
Qed.

(** ** Projection of the closing rank *)

Lemma Qpower_le_1 (q : Q) (n : Z) : 0 <= q <= 1 -> (0 <= n)%Z -> q ^ n <= 1.
Proof.
  intros Hq Hn. destruct n as [|n|n]; [cbn; lra | | lia].
  cbn [Qpower]. clear Hn.
  induction n as [|n IH] using Pos.peano_ind; [cbn; lra|].
  rewrite <- Pos.add_1_l, Qpower_plus_positive.
  assert (H0 : 0 <= Qpower_positive q n)
    by (apply (Qpower_0_le q (Zpos n)); lra).
  change (Qpower_positive q 1) with q. nra.
Qed.

(** X21.  For a predicted closing rank above 0, [predict_future_trends]
    returns a projection that lies within its own confidence range, and
    that is not above the rounded current rank when the number of years is
    not negative; the range it gives for high volatility contains the
    range for any volatility. *)
Theorem future_trend_projection
        (current_rank : Q) (volatility : EPS.volatility_level)
        (years_ahead : Z) :
  0 < current_rank ->
  exists t,
    EPS.predict_future_trends (Some current_rank) volatility years_ahead
    = Some t /\
    fst (EPS.confidence_range t) <= EPS.future_closing_rank t
    <= snd (EPS.confidence_range t) /\
    ((0 <= years_ahead)%Z ->
     EPS.future_closing_rank t <= py_round0 current_rank) /\
    (forall t',
        EPS.predict_future_trends (Some current_rank) EPS.high years_ahead
        = Some t' ->
        fst (EPS.confidence_range t') <= fst (EPS.confidence_range t) /\
        snd (EPS.confidence_range t) <= snd (EPS.confidence_range t')).
Proof.
  intro Hpos. unfold EPS.predict_future_trends.
  destruct (Qeq_bool current_rank 0) eqn:E0;
    [apply Qeq_bool_eq in E0; lra|].
  cbv zeta. eexists. split; [reflexivity|].
  cbn [EPS.confidence_range EPS.future_closing_rank fst snd].
  assert (Hpow : 0 < 0.95 ^ years_ahead) by (apply Qpower_0_lt; lra).
  set (f := 0.95 ^ years_ahead) in *.
  assert (Hpred : 0 < current_rank * f) by nra.
  split; [split|split]; try apply py_round0_mono.
  - destruct volatility; nra.
  - destruct volatility; nra.
  - intro Hy. apply py_round0_mono.
    assert (f <= 1) by (apply Qpower_le_1; [lra | exact Hy]).
    nra.
  - intros t' [= <-].
    cbn [EPS.confidence_range fst snd].
    split; apply py_round0_mono; destruct volatility; nra.
Qed.

(** Rank 20,000 projected 3 years ahead at medium volatility. *)
Lemma future_trend_projection_witness :
  exists t,
    EPS.predict_future_trends (Some 20000) EPS.medium 3 = Some t /\
    EPS.future_closing_rank t <= py_round0 20000.
Proof.
  destruct (future_trend_projection 20000 EPS.medium 3)
    as (t & Ht & _ & Hle & _); [reflexivity|].
  exists t. split; [exact Ht|]. apply Hle. lia.
Defined.

(** ** The distribution-based estimate and the candidate rank *)

Lemma exp_step_mono (x y : Q) : x <= y -> exp_step x <= exp_step y.
Proof.
  intro H. unfold exp_step.
  apply Qpower_le_compat_l; [now apply Qfloor_resp_le | lra].
Qed.

Lemma sigmoid_antitone (e1 e2 : Q) :
  0 <= e1 -> e1 <= e2 -> 1 / (1 + e2) <= 1 / (1 + e1).
Proof.
  intros H1 H2.
  apply Qle_shift_div_r; [lra|].
  assert (Ht : 1 / (1 + e1) * (1 + e1) == 1) by (field; lra).
  assert (0 <= 1 / (1 + e1)) by (apply Qle_shift_div_l; lra).
  nra.
Qed.

(** X22.  With a non-decreasing, non-negative exponential, the
    distribution-based estimate of a college never rises when the
    candidate rank gets worse (larger). *)
Theorem distribution_estimate_antitone
        (np_exp : Q -> Q) (u1 u2 : Z) (c : EPS.college) :
  (forall x y, x <= y -> np_exp x <= np_exp y) ->
  (forall z, 0 <= np_exp z) ->
  (u1 <= u2)%Z ->
  EPS.probability np_exp u2 c <= EPS.probability np_exp u1 c.
Proof.
  intros Hmono Hpos Hu.
  assert (Hq : inject_Z u1 <= inject_Z u2) by now rewrite <- Zle_Qle.
  unfold EPS.probability.
  destruct (EPS.closing_rank_mean c) as [[|mean]|]; try lra.
  assert (Hbin : (if Qle_bool (inject_Z u2) mean then 1 else 0)
                 <= (if Qle_bool (inject_Z u1) mean then 1 else 0)).
  { destruct (Qle_bool (inject_Z u2) mean) eqn:E2;
      destruct (Qle_bool (inject_Z u1) mean) eqn:E1; bool_facts; lra. }
  cbv zeta.
  destruct (EPS.series_get (EPS.closing_rank_std c) (Num (mean * 0.1)))
    as [|std]; [exact Hbin|].
  destruct (Qltb 0 std) eqn:Es; [|exact Hbin]. bool_facts.
  apply sigmoid_antitone; [apply Hpos|].
  apply Hmono. apply ratio_mono; [exact Es | lra].
Qed.

(** Ranks 19,000 and 21,000 against mean 20,000 and deviation 1,000. *)
Lemma distribution_estimate_antitone_witness :
  EPS.probability exp_step 21000 sample_college
  <= EPS.probability exp_step 19000 sample_college.
Proof.
  apply (distribution_estimate_antitone exp_step 19000 21000 sample_college).
  - exact exp_step_mono.
  - intro z. apply Qlt_le_weak, exp_step_pos.
  - lia.
Defined.

(** ** Confidence intervals of the engine's probabilities *)

(** X23.  For the per-round predictions that the engine computes, every
    confidence interval belongs to a round of the result, lies within
    [0, 1] and contains that round's probability. *)
Theorem engine_intervals_contain_probability
        (np_exp : Q -> Q) (predicted_rank : Q)
        (round_analysis : round_dict round_stats)
        (n : Z) (ci : confidence_interval) :
  let round_probs :=
    rounds (_calculate_round_probabilities
              np_exp predicted_rank round_analysis) in
  In (n, ci) (_calculate_confidence_intervals round_probs) ->
  exists d,
    In (n, d) round_probs /\
    0 <= lower_bound ci <= probability d /\
    probability d <= upper_bound ci <= 1.
Proof.
  cbn [rounds _calculate_round_probabilities]. cbv zeta.
  pose proof (round_entries_NoDup np_exp predicted_rank round_analysis) as Hnd.
  pose proof (round_entries_range np_exp predicted_rank round_analysis) as Hr.
  rewrite (confidence_intervals_unfold _ Hnd).
  intro Hin. apply in_map_iff in Hin.
  destruct Hin as ([k d] & [= <- <-] & Hd). cbn [fst snd].
  exists d. split; [exact Hd|].
  rewrite Forall_forall in Hr. specialize (Hr _ Hd). cbn [snd] in Hr.
  cbn [lower_bound upper_bound margin_of_error].
  assert (Hm : 0 < margin_for (confidence d))
    by (destruct (confidence d); reflexivity).
  set (m := margin_for (confidence d)) in *.
  destruct (py_max_spec 0 (probability d - m)) as [[? ->]|[? ->]];
    destruct (py_min_spec 1 (probability d + m)) as [[? ->]|[? ->]];
    repeat split; lra.
Qed.

(** The interval of round 1 on the sample history. *)
Lemma engine_intervals_contain_probability_witness :
  exists ci d,
    In (1%Z, ci) (_calculate_confidence_intervals (rounds sample_engine_result))
    /\ In (1%Z, d) (rounds sample_engine_result)
    /\ lower_bound ci <= probability d <= upper_bound ci.
Proof.
  destruct (dict_get Z.eqb
              (_calculate_confidence_intervals (rounds sample_engine_result))
              1%Z) as [ci|] eqn:E; [|vm_compute in E; discriminate].
  apply (dict_get_Some_In Z.eqb Z.eqb_eq) in E.
  destruct (engine_intervals_contain_probability
              exp_step 21000
              (_analyze_historical_rounds sqrt_floor sample_history 21000)
              1 ci E) as (d & Hd & Hlo & Hhi).
  exists ci, d. split; [exact E|]. split; [exact Hd|]. lra.
Defined.

(** ** The strategy and the optimal round *)

(** The stable descending sort puts first the first element of the
    largest key. *)
Lemma sort_desc_by_head {A : Type} (key : A -> Q) (pre post : list A) (e : A) :
  (forall x, In x pre -> key x < key e) ->
  (forall x, In x post -> key x <= key e) ->
  exists tail, sort_desc_by key (pre ++ e :: post) = e :: tail.
Proof.
  intros Hpre Hpost. unfold sort_desc_by, stable_sort.
  induction pre as [|p pre IH]; cbn [app fold_right].
  - pose proof (stable_sort_perm (fun x y => Qle_bool (key y) (key x)) post)
      as Hperm.
    unfold stable_sort in Hperm.
    destruct (fold_right _ [] post) as [|y t]; cbn [insert_sorted];
      [now eexists|].
    assert (Hy : key y <= key e).
    { apply Hpost. apply (Permutation_in _ Hperm). now left. }
    apply Qle_bool_iff in Hy. rewrite Hy. now eexists.
  - destruct IH as (tail & ->); [intros x Hx; apply Hpre; now right|].
    cbn [insert_sorted].
    assert (Hp : key p < key e) by (apply Hpre; now left).
    destruct (Qle_bool (key e) (key p)) eqn:E; bool_facts; [lra|].
    now eexists.
Qed.

(** X24.  When [_determine_optimal_round] names a round and its
    probability is at least 0.3, the counseling strategy computed from the
    same predictions has that round, with that probability, at the head of
    its priority rounds. *)
Theorem strategy_starts_with_optimal_round
        (round_probs : round_dict round_prediction) (r : Z) :
  opt_round (_determine_optimal_round round_probs) = Some r ->
  0.3 <= opt_probability (_determine_optimal_round round_probs) ->
  exists c rest,
    priority_rounds (_generate_counseling_strategy round_probs)
    = (r, opt_probability (_determine_optimal_round round_probs), c) :: rest.
Proof.
  unfold _determine_optimal_round.
  pose proof (optimal_round_loop round_probs 0 None) as Hloop.
  cbv zeta in Hloop.
  destruct (fold_left _ round_probs (0, None)) as [best_prob best_round].
  destruct Hloop as [Hall [[Hres _]|(pre & e & post & Hl & Hres & _ & Hpre)]].
  { injection Hres as -> ->. cbn [opt_round]. discriminate. }
  injection Hres as -> ->. cbn [fst opt_round opt_probability] in *.
  intros [= <-] Hbest.
  destruct (sort_desc_by_head
              prob_of
              (scored_rounds pre) (scored_rounds post)
              (fst e, probability (snd e), confidence (snd e)))
    as (tail & Hsort).
  - intros x Hx. apply in_map_iff in Hx. destruct Hx as (e' & <- & He').
    cbn. now apply Hpre.
  - intros x Hx. apply in_map_iff in Hx. destruct Hx as (e' & <- & He').
    cbn. apply Hall. rewrite Hl, in_app_iff. right. now right.
  - assert (Hs : sort_desc_by prob_of (scored_rounds round_probs)
                 = (fst e, probability (snd e), confidence (snd e)) :: tail).
    { rewrite Hl. unfold scored_rounds. rewrite map_app. exact Hsort. }
    destruct (counseling_strategy_lists round_probs _ tail Hs) as [Hp _].
    rewrite Hp. cbn [filter].
    change (prob_of (fst e, probability (snd e), confidence (snd e)))
      with (probability (snd e)).
    assert (Hthr : py_max 0.3 (probability (snd e) * 0.5)
                   <= probability (snd e)).
    { destruct (py_max_spec 0.3 (probability (snd e) * 0.5))
        as [[? ->]|[? ->]]; lra. }
    apply Qle_bool_iff in Hthr. rewrite Hthr. cbn [firstn].
    now eexists _, _.
Qed.

(** On [sample_tied] rounds 2 and 3 share the largest probability; both
    functions put round 2 first. *)
Lemma strategy_starts_with_optimal_round_witness :
  exists c rest,
    priority_rounds (_generate_counseling_strategy sample_tied)
    = (2%Z, opt_probability (_determine_optimal_round sample_tied), c) :: rest.
Proof.
  apply (strategy_starts_with_optimal_round sample_tied 2).
  - reflexivity.
  - vm_compute. discriminate.
Defined.

(** ** Volatility of the closing ranks *)

(** X25.  For a row with a positive mean closing rank,
    [get_historical_trends] returns a volatility for every standard
    deviation, and a larger standard deviation never gives a lower
    volatility; a row without standard deviation is given low volatility. *)
Theorem historical_volatility_monotone (mean std std' : Q) :
  0 < mean ->
  std <= std' ->
  exists v v',
    EPS.get_historical_trends
      {| EPS.closing_rank_mean := Some (Num mean);
         EPS.closing_rank_std := Some (Num std) |} = Some v /\
    EPS.get_historical_trends
      {| EPS.closing_rank_mean := Some (Num mean);
         EPS.closing_rank_std := Some (Num std') |} = Some v' /\
    (volatility_rank v <= volatility_rank v')%nat /\
    EPS.get_historical_trends
      {| EPS.closing_rank_mean := Some (Num mean);
         EPS.closing_rank_std := Some NaN |} = Some EPS.low.
Proof.
  intros Hmean Hstd. unfold EPS.get_historical_trends.
  cbn [EPS.closing_rank_std EPS.closing_rank_mean].
  destruct (Qeq_bool mean 0) eqn:E0; [apply Qeq_bool_eq in E0; lra|].
  cbv zeta. eexists _, _. split; [reflexivity|]. split; [reflexivity|].
  split; [|reflexivity].
  pose proof (ratio_mono std std' mean Hmean Hstd) as Hcv.
  set (cv := std / mean) in *. set (cv' := std' / mean) in *.
  destruct (Qltb 0.3 cv) eqn:E1; destruct (Qltb 0.15 cv) eqn:E2;
    destruct (Qltb 0.3 cv') eqn:E3; destruct (Qltb 0.15 cv') eqn:E4;
    bool_facts; cbn; try lia; exfalso; lra.
Qed.

(** Mean 20,000 with standard deviations 1,000 and 7,000. *)
Lemma historical_volatility_monotone_witness :
  exists v v',
    EPS.get_historical_trends sample_college = Some v /\
    EPS.get_historical_trends
      {| EPS.closing_rank_mean := Some (Num 20000);
         EPS.closing_rank_std := Some (Num 7000) |} = Some v' /\
    (volatility_rank v <= volatility_rank v')%nat.
Proof.
  destruct (historical_volatility_monotone 20000 1000 7000)
    as (v & v' & Hv & Hv' & Hle & _);
    [reflexivity | vm_compute; discriminate |].
  exists v, v'. split; [exact Hv|]. split; [exact Hv' | exact Hle].
Defined.
